(** * OpenRouter reasoning-tokens pipe: a shallow embedding and its properties

    The development follows [openrouter_reasoning_tokens_pipe.py].

    - Python values that travel through the pipe are JSON values; a [str]
      is a sequence of code points; a [dict] keeps its keys in insertion
      order.
    - Exceptions are an explicit outcome.
    - The asynchronous generator of the streaming path is a computation
      that records, in order, what it yields; each emission carries the line
      that the consumer receives and the [yield] statement it comes from, so
      that a marker and a piece of content with the same text are told
      apart.
    - [int(time.time())] reads a clock that is an input: the n-th reading.
    - The upstream API is an input too: what it answers to a request.
    - [json.loads] and [json.dumps] are parameters of the pipe; the codec
      section models them for the round trip of the chunk encoder. *)

From Stdlib Require Import List ZArith NArith Bool String Ascii Lia PrimFloat.
From Stdlib Require DecimalFacts DecimalPos DecimalN DecimalZ.
Import ListNotations.

(** ** Python text *)

(** A Python [str] is a sequence of code points. *)
Definition str : Type := list N.

(** The text of a literal of the source. *)
Definition lit (s : string) : str := map N_of_ascii (list_ascii_of_string s).

(** The line feed, written [\n] in the source. *)
Definition LF : N := 10%N.

Fixpoint str_eqb (a b : str) : bool :=
  match a, b with
  | [], [] => true
  | x :: a', y :: b' => N.eqb x y && str_eqb a' b'
  | _, _ => false
  end.

(** [s.startswith(prefix)] *)
Fixpoint startswith (s prefix : str) {struct prefix} : bool :=
  match prefix, s with
  | [], _ => true
  | p :: prefix', c :: s' => N.eqb c p && startswith s' prefix'
  | _ :: _, [] => false
  end.

(** [s.split(sep, 1)] for a separator of one character: at most one cut, at
    the first separator from the left. *)
Fixpoint split_1 (s : str) (sep : N) : list str :=
  match s with
  | [] => [[]]
  | c :: s' =>
      if N.eqb c sep then [[]; s']
      else match split_1 s' sep with
           | hd :: tl => (c :: hd) :: tl
           | [] => [[c]]
           end
  end.

(** [parts[-1]] on a list of strings that [split] returned (never empty). *)
Definition last_part (parts : list str) : str := last parts [].

(** [s.replace(old, new, 1)]: the first occurrence from the left, wherever
    it is. *)
Fixpoint replace_1 (s old new : str) : str :=
  if startswith s old then new ++ skipn (List.length old) s
  else match s with
       | [] => []
       | c :: s' => c :: replace_1 s' old new
       end.

(** ** JSON values, as [json.loads] gives them and [json.dumps] takes them *)

#[local] Unset Elimination Schemes.
Inductive json : Type :=
| JNull
| JBool (b : bool)
| JInt (n : Z)
| JFloat (f : float)
| JStr (s : str)
| JList (l : list json)
| JDict (d : list (str * json)).
#[local] Set Elimination Schemes.

(** A [dict] keeps its keys in insertion order. *)
Definition dict : Type := list (str * json).

Fixpoint dict_get (k : str) (d : dict) : option json :=
  match d with
  | [] => None
  | (k', v) :: d' => if str_eqb k k' then Some v else dict_get k d'
  end.

(** [k in d] *)
Definition dict_mem (k : str) (d : dict) : bool :=
  match dict_get k d with Some _ => true | None => false end.

(** [d[k] = v]: in place when the key is there, at the end otherwise. *)
Fixpoint dict_set (k : str) (v : json) (d : dict) : dict :=
  match d with
  | [] => [(k, v)]
  | (k', v') :: d' =>
      if str_eqb k k' then (k', v) :: d' else (k', v') :: dict_set k v d'
  end.

(** [d.get(k, default)] on a dict *)
Definition dict_get_default (k : str) (default : json) (d : dict) : json :=
  match dict_get k d with Some v => v | None => default end.

(** Python's truth value of a JSON value. *)
Definition truthy (v : json) : bool :=
  match v with
  | JNull => false
  | JBool b => b
  | JInt n => negb (Z.eqb n 0)
  | JFloat f => negb (PrimFloat.is_zero f)
  | JStr s => match s with [] => false | _ => true end
  | JList l => match l with [] => false | _ => true end
  | JDict d => match d with [] => false | _ => true end
  end.

(** ** Exceptions *)

Inductive exn : Type :=
| AttributeError
| TypeError
| IndexError
| KeyError
| JSONDecodeError
| RecursionError
| HTTPStatusError
| TransportError.

Inductive outcome (A : Type) : Type :=
| Ok (a : A)
| Raise (e : exn).
Arguments Ok {A} a.
Arguments Raise {A} e.

Definition obind {A B : Type} (m : outcome A) (f : A -> outcome B) : outcome B :=
  match m with
  | Ok a => f a
  | Raise e => Raise e
  end.

Notation "x <~ m ;; k" := (obind m (fun x => k))
  (at level 61, m at next level, right associativity).

(** [try: c  except Exception as e: h e] *)
Definition try_except {A : Type} (c : outcome A) (h : exn -> outcome A) : outcome A :=
  match c with
  | Ok a => Ok a
  | Raise e => h e
  end.

(** [o.get(k, default)]: only a dict has the method. *)
Definition py_get (o : json) (k : str) (default : json) : outcome json :=
  match o with
  | JDict d => Ok (dict_get_default k default d)
  | _ => Raise AttributeError
  end.

(** [o[0]] *)
Definition py_index0 (o : json) : outcome json :=
  match o with
  | JList (x :: _) => Ok x
  | JList [] => Raise IndexError
  | JStr (c :: _) => Ok (JStr [c])
  | JStr [] => Raise IndexError
  | JDict _ => Raise KeyError
  | _ => Raise TypeError
  end.

(** [sub in s] on strings *)
Fixpoint is_substring (sub s : str) : bool :=
  startswith s sub
  || match s with
     | [] => false
     | _ :: s' => is_substring sub s'
     end.

Definition is_JStr (k : str) (v : json) : bool :=
  match v with
  | JStr s => str_eqb k s
  | _ => false
  end.

(** [k in o] for a string [k] *)
Definition py_contains (k : str) (o : json) : outcome bool :=
  match o with
  | JDict d => Ok (dict_mem k d)
  | JList l => Ok (existsb (is_JStr k) l)
  | JStr s => Ok (is_substring k s)
  | _ => Raise TypeError
  end.

(** [o[k]] for a string [k] *)
Definition py_getitem (o : json) (k : str) : outcome json :=
  match o with
  | JDict d => match dict_get k d with Some v => Ok v | None => Raise KeyError end
  | _ => Raise TypeError
  end.

(** [o[k] = v] for a string [k] *)
Definition py_setitem (o : json) (k : str) (v : json) : outcome json :=
  match o with
  | JDict d => Ok (JDict (dict_set k v d))
  | _ => Raise TypeError
  end.

(** What [for x in o] goes through. *)
Definition py_iter (o : json) : outcome (list json) :=
  match o with
  | JList l => Ok l
  | JStr s => Ok (map (fun c => JStr [c]) s)
  | JDict d => Ok (map (fun kv => JStr (fst kv)) d)
  | _ => Raise TypeError
  end.

Fixpoint for_each {A B : Type} (f : A -> outcome B) (l : list A) : outcome (list B) :=
  match l with
  | [] => Ok []
  | x :: l' =>
      match f x with
      | Ok y => match for_each f l' with
                | Ok ys => Ok (y :: ys)
                | Raise e => Raise e
                end
      | Raise e => Raise e
      end
  end.

(** A method of [str] called on a value: only a string has it. *)
Definition as_str (o : json) : outcome str :=
  match o with
  | JStr s => Ok s
  | _ => Raise AttributeError
  end.

(** ** The JSON codec

    [json.dumps] and [json.loads] with their default arguments
    ([ensure_ascii], the separators [", "] and [": "], strict strings), as
    the C accelerator of the interpreter implements them.  Shifts and masks
    on code points are written with [/], [mod], [*] and [+].  How a float
    is printed and read is left to two parameters.  The interpreter's limit
    on the number of digits of an integer is not modelled. *)

Definition is_digit (c : N) : bool := (48 <=? c)%N && (c <=? 57)%N.

Definition is_ws (c : N) : bool :=
  N.eqb c 32 || N.eqb c 9 || N.eqb c 10 || N.eqb c 13.

Fixpoint skip_ws (s : str) : str :=
  match s with
  | [] => []
  | c :: s' => if is_ws c then skip_ws s' else s
  end.

(** *** Integers *)

Fixpoint uint_digits (d : Decimal.uint) : str :=
  match d with
  | Decimal.Nil => []
  | Decimal.D0 d => 48%N :: uint_digits d
  | Decimal.D1 d => 49%N :: uint_digits d
  | Decimal.D2 d => 50%N :: uint_digits d
  | Decimal.D3 d => 51%N :: uint_digits d
  | Decimal.D4 d => 52%N :: uint_digits d
  | Decimal.D5 d => 53%N :: uint_digits d
  | Decimal.D6 d => 54%N :: uint_digits d
  | Decimal.D7 d => 55%N :: uint_digits d
  | Decimal.D8 d => 56%N :: uint_digits d
  | Decimal.D9 d => 57%N :: uint_digits d
  end.

(** [repr] of an [int] *)
Definition int_repr (n : Z) : str :=
  match Z.to_int n with
  | Decimal.Pos d => uint_digits d
  | Decimal.Neg d => 45%N :: uint_digits d
  end.

Definition digit_cons (c : N) (d : Decimal.uint) : Decimal.uint :=
  match (c - 48)%N with
  | 0%N => Decimal.D0 d
  | 1%N => Decimal.D1 d
  | 2%N => Decimal.D2 d
  | 3%N => Decimal.D3 d
  | 4%N => Decimal.D4 d
  | 5%N => Decimal.D5 d
  | 6%N => Decimal.D6 d
  | 7%N => Decimal.D7 d
  | 8%N => Decimal.D8 d
  | _ => Decimal.D9 d
  end.

(** The digits of a literal, read from the left. *)
Fixpoint digits_uint (s : str) : Decimal.uint :=
  match s with
  | [] => Decimal.Nil
  | c :: s' => digit_cons c (digits_uint s')
  end.

(** [int(text)] for a literal made of an optional [-] and digits. *)
Definition int_of_literal (negative : bool) (digits : str) : Z :=
  Z.of_int (if negative then Decimal.Neg (digits_uint digits)
            else Decimal.Pos (digits_uint digits)).

(** The longest run of digits at the front, and what follows it. *)
Fixpoint span_digits (s : str) : str * str :=
  match s with
  | [] => ([], [])
  | c :: s' =>
      if is_digit c then
        let (ds, rest) := span_digits s' in (c :: ds, rest)
      else ([], s)
  end.

(** *** Strings *)

Definition hex_char (d : N) : N := if (d <? 10)%N then (48 + d)%N else (87 + d)%N.

(** The escape of a code point below [0x10000]. *)
Definition u_escape (c : N) : str :=
  [ 92%N; 117%N;
    hex_char ((c / 4096) mod 16); hex_char ((c / 256) mod 16);
    hex_char ((c / 16) mod 16); hex_char (c mod 16) ].

Definition escape_char (c : N) : str :=
  if N.eqb c 34 then [92; 34]%N
  else if N.eqb c 92 then [92; 92]%N
  else if N.eqb c 10 then [92; 110]%N
  else if N.eqb c 13 then [92; 114]%N
  else if N.eqb c 9 then [92; 116]%N
  else if N.eqb c 12 then [92; 102]%N
  else if N.eqb c 8 then [92; 98]%N
  else if (32 <=? c)%N && (c <=? 126)%N then [c]
  else if (c <? 65536)%N then u_escape c
  else
    let v := (c - 65536)%N in
    u_escape (55296 + v / 1024) ++ u_escape (56320 + v mod 1024).

(** [encode_basestring_ascii] *)
Definition encode_basestring_ascii (s : str) : str :=
  34%N :: flat_map escape_char s ++ [34%N].

Definition hex_value (c : N) : outcome N :=
  if (48 <=? c)%N && (c <=? 57)%N then Ok (c - 48)%N
  else if (97 <=? c)%N && (c <=? 102)%N then Ok (c - 87)%N
  else if (65 <=? c)%N && (c <=? 70)%N then Ok (c - 55)%N
  else Raise JSONDecodeError.

Definition hex4 (h1 h2 h3 h4 : N) : outcome N :=
  x1 <~ hex_value h1 ;;
  x2 <~ hex_value h2 ;;
  x3 <~ hex_value h3 ;;
  x4 <~ hex_value h4 ;;
  Ok (((x1 * 16 + x2) * 16 + x3) * 16 + x4)%N.

Definition is_high_surrogate (c : N) : bool := (55296 <=? c)%N && (c <=? 56319)%N.
Definition is_low_surrogate (c : N) : bool := (56320 <=? c)%N && (c <=? 57343)%N.

Definition join_surrogates (high low : N) : N :=
  (65536 + ((high mod 1024) * 1024 + low mod 1024))%N.

(** The character that a backslash and [e] stand for. *)
Definition backslash (e : N) : outcome N :=
  if N.eqb e 34 then Ok 34%N
  else if N.eqb e 92 then Ok 92%N
  else if N.eqb e 47 then Ok 47%N
  else if N.eqb e 98 then Ok 8%N
  else if N.eqb e 102 then Ok 12%N
  else if N.eqb e 110 then Ok 10%N
  else if N.eqb e 114 then Ok 13%N
  else if N.eqb e 116 then Ok 9%N
  else Raise JSONDecodeError.

Definition cons_char (c : N) (r : outcome (str * str)) : outcome (str * str) :=
  match r with
  | Ok (text, rest) => Ok (c :: text, rest)
  | Raise e => Raise e
  end.

(** [scanstring], from the character after the opening quote: the text
    and what follows the closing quote. *)
Fixpoint scanstring (s : str) : outcome (str * str) :=
  match s with
  | [] => Raise JSONDecodeError
  | c :: s1 =>
      if N.eqb c 34 then Ok ([], s1)
      else if N.eqb c 92 then
        match s1 with
        | [] => Raise JSONDecodeError
        | e :: s2 =>
            if N.eqb e 117 then
              match s2 with
              | h1 :: h2 :: h3 :: h4 :: ((_ :: _) as s3) =>
                  match hex4 h1 h2 h3 h4 with
                  | Raise err => Raise err
                  | Ok c1 =>
                      match s3 with
                      | b :: u :: g1 :: g2 :: g3 :: g4 :: ((_ :: _) as s4) =>
                          if is_high_surrogate c1 && N.eqb b 92 && N.eqb u 117 then
                            match hex4 g1 g2 g3 g4 with
                            | Raise err => Raise err
                            | Ok c2 =>
                                if is_low_surrogate c2 then
                                  cons_char (join_surrogates c1 c2) (scanstring s4)
                                else cons_char c1 (scanstring s3)
                            end
                          else cons_char c1 (scanstring s3)
                      | _ => cons_char c1 (scanstring s3)
                      end
                  end
              | _ => Raise JSONDecodeError
              end
            else
              match backslash e with
              | Raise err => Raise err
              | Ok c' => cons_char c' (scanstring s2)
              end
        end
      else if (c <=? 31)%N then Raise JSONDecodeError
      else cons_char c (scanstring s1)
  end.

Fixpoint join (sep : str) (parts : list str) : str :=
  match parts with
  | [] => []
  | [x] => x
  | x :: parts' => x ++ sep ++ join sep parts'
  end.

(** *** Numbers: the parts of a literal, as [_match_number_unicode] reads
    them *)

(** A sign, when there is one. *)
Definition number_sign (s : str) : bool * str :=
  match s with
  | c :: s' => if N.eqb c 45 then (true, s') else (false, s)
  | [] => (false, s)
  end.

(** Digits that do not start with [0], or one [0]. *)
Definition number_int_part (s : str) : outcome (str * str) :=
  match s with
  | [] => Raise JSONDecodeError
  | c :: s' =>
      if (49 <=? c)%N && (c <=? 57)%N then
        let (ds, rest) := span_digits s' in Ok (c :: ds, rest)
      else if N.eqb c 48 then Ok ([c], s')
      else Raise JSONDecodeError
  end.

(** A [.] followed by digits, when there is one. *)
Definition number_frac (s : str) : str * str :=
  match s with
  | p :: d :: s' =>
      if N.eqb p 46 && is_digit d then
        let (ds, rest) := span_digits s' in (p :: d :: ds, rest)
      else ([], s)
  | _ => ([], s)
  end.

(** An [e] or [E], a sign when there is one, and digits; nothing when no
    digit follows. *)
Definition number_exponent (s : str) : str * str :=
  match s with
  | e :: ((_ :: _) as s') =>
      if N.eqb e 101 || N.eqb e 69 then
        let (sign, s'') :=
          match s' with
          | g :: ((_ :: _) as r) =>
              if N.eqb g 45 || N.eqb g 43 then ([g], r) else ([], s')
          | _ => ([], s')
          end in
        let (ds, rest) := span_digits s'' in
        match ds with
        | [] => ([], s)
        | _ => (e :: sign ++ ds, rest)
        end
      else ([], s)
  | _ => ([], s)
  end.

(** What may follow a value: nothing, a comma, a closing bracket or brace,
    or white space. *)
Definition closes (rest : str) : bool :=
  match rest with
  | [] => true
  | c :: _ => N.eqb c 44 || N.eqb c 93 || N.eqb c 125 || is_ws c
  end.

Section Codec.

Variable float_repr : float -> str.
Variable float_of_literal : str -> float.

(** [json.dumps(v)] *)
Fixpoint dumps (v : json) : str :=
  match v with
  | JNull => lit "null"
  | JBool true => lit "true"
  | JBool false => lit "false"
  | JInt n => int_repr n
  | JFloat f => float_repr f
  | JStr s => encode_basestring_ascii s
  | JList l => 91%N :: join (lit ", ") (map dumps l) ++ [93%N]
  | JDict d =>
      123%N
      :: join (lit ", ")
           (map (fun kv => encode_basestring_ascii (fst kv) ++ lit ": " ++ dumps (snd kv)) d)
      ++ [125%N]
  end.

(** The number at the front of [s]. *)
Definition match_number (s : str) : outcome (json * str) :=
  let (negative, s1) := number_sign s in
  int_part <~ number_int_part s1 ;;
  let (digits, s3) := int_part in
  let (frac, s4) := number_frac s3 in
  let (exponent, s5) := number_exponent s4 in
  match frac, exponent with
  | [], [] => Ok (JInt (int_of_literal negative digits), s5)
  | _, _ =>
      Ok (JFloat
            (float_of_literal
               ((if negative then [45%N] else []) ++ digits ++ frac ++ exponent)),
          s5)
  end.

(** [scan_once], with the loops of [_parse_array] and [_parse_object]:
    the value at the front of [s] and what follows it. *)
Fixpoint scan_once (fuel : nat) (s : str) {struct fuel} : outcome (json * str) :=
  match fuel with
  | O => Raise RecursionError
  | S fuel =>
      match s with
      | [] => Raise JSONDecodeError
      | c :: s1 =>
          if N.eqb c 34 then
            r <~ scanstring s1 ;; Ok (JStr (fst r), snd r)
          else if N.eqb c 123 then
            match skip_ws s1 with
            | [] => Raise JSONDecodeError
            | c' :: s2 =>
                if N.eqb c' 125 then Ok (JDict [], s2)
                else object_loop fuel (c' :: s2) []
            end
          else if N.eqb c 91 then
            match skip_ws s1 with
            | [] => Raise JSONDecodeError
            | c' :: s2 =>
                if N.eqb c' 93 then Ok (JList [], s2)
                else array_loop fuel (c' :: s2) []
            end
          else if startswith s (lit "null") then Ok (JNull, skipn 4 s)
          else if startswith s (lit "true") then Ok (JBool true, skipn 4 s)
          else if startswith s (lit "false") then Ok (JBool false, skipn 5 s)
          else if startswith s (lit "NaN") then Ok (JFloat nan, skipn 3 s)
          else if startswith s (lit "Infinity") then Ok (JFloat infinity, skipn 8 s)
          else if startswith s (lit "-Infinity") then Ok (JFloat neg_infinity, skipn 9 s)
          else match_number s
      end
  end

with array_loop (fuel : nat) (s : str) (acc : list json) {struct fuel}
  : outcome (json * str) :=
  match fuel with
  | O => Raise RecursionError
  | S fuel =>
      r <~ scan_once fuel s ;;
      let acc := acc ++ [fst r] in
      match skip_ws (snd r) with
      | [] => Raise JSONDecodeError
      | c :: s1 =>
          if N.eqb c 93 then Ok (JList acc, s1)
          else if N.eqb c 44 then array_loop fuel (skip_ws s1) acc
          else Raise JSONDecodeError
      end
  end

with object_loop (fuel : nat) (s : str) (acc : dict) {struct fuel}
  : outcome (json * str) :=
  match fuel with
  | O => Raise RecursionError
  | S fuel =>
      match s with
      | [] => Raise JSONDecodeError
      | q :: s1 =>
          if N.eqb q 34 then
            key <~ scanstring s1 ;;
            match skip_ws (snd key) with
            | [] => Raise JSONDecodeError
            | colon :: s2 =>
                if N.eqb colon 58 then
                  r <~ scan_once fuel (skip_ws s2) ;;
                  let acc := dict_set (fst key) (fst r) acc in
                  match skip_ws (snd r) with
                  | [] => Raise JSONDecodeError
                  | c :: s3 =>
                      if N.eqb c 125 then Ok (JDict acc, s3)
                      else if N.eqb c 44 then object_loop fuel (skip_ws s3) acc
                      else Raise JSONDecodeError
                  end
                else Raise JSONDecodeError
            end
          else Raise JSONDecodeError
      end
  end.

(** [json.loads(s)] for a [str] *)
Definition loads (s : str) : outcome json :=
  if startswith s [65279%N] then Raise JSONDecodeError
  else
    r <~ scan_once (2 * List.length s + 2) (skip_ws s) ;;
    match skip_ws (snd r) with
    | [] => Ok (fst r)
    | _ => Raise JSONDecodeError
    end.

(** With enough fuel for its text, the printed value is read back, and
    what follows it is left. *)
Definition reads_back (v : json) : Prop :=
  forall (fuel : nat) (rest : str),
    (List.length (dumps v) <= fuel)%nat ->
    closes rest = true ->
    scan_once fuel (dumps v ++ rest) = Ok (v, rest).

(** The text of one entry of a dict. *)
Definition dumps_entry (kv : str * json) : str :=
  encode_basestring_ascii (fst kv) ++ lit ": " ++ dumps (snd kv).

End Codec.

(** *** Values that the codec gives back as they were *)

(** No code point beyond the last one, and no high surrogate right before
    a low one. *)
Fixpoint text_ok (s : str) : bool :=
  match s with
  | [] => true
  | c :: s' =>
      (c <? 1114112)%N
      && negb (is_high_surrogate c
               && match s' with
                  | c' :: _ => is_low_surrogate c'
                  | [] => false
                  end)
      && text_ok s'
  end.

Fixpoint distinct (keys : list str) : bool :=
  match keys with
  | [] => true
  | k :: keys' => negb (existsb (str_eqb k) keys') && distinct keys'
  end.

(** No float, well-formed text, and no key twice in a dict. *)
Fixpoint plain (v : json) : bool :=
  match v with
  | JNull | JBool _ | JInt _ => true
  | JFloat _ => false
  | JStr s => text_ok s
  | JList l => forallb plain l
  | JDict d =>
      forallb (fun kv => text_ok (fst kv) && plain (snd kv)) d
      && distinct (map fst d)
  end.

(** ** The asynchronous generator *)

(** The four [yield] statements of [_handle_streaming_request]. *)
Inductive yield_site : Type :=
| OpenMarker      (* yield construct_chunk("<think>") *)
| CloseMarker     (* yield construct_chunk("</think>\n\n") *)
| Content         (* yield construct_chunk(content) *)
| Sentinel.       (* yield "data: [DONE]\n\n" *)

(** What the consumer of the generator receives is [wire]; [site] records
    which statement produced it. *)
Record emission : Type := Emit { site : yield_site; wire : str }.

(** A run of generator code from a number of clock readings already made:
    what it yielded, the clock readings made by the end, and its result. *)
Record run (A : Type) : Type :=
  Run { yielded : list emission; ticks : nat; result : outcome A }.
Arguments Run {A} yielded ticks result.
Arguments yielded {A} r.
Arguments ticks {A} r.
Arguments result {A} r.

Definition Gen (A : Type) : Type := nat -> run A.

Definition ret {A : Type} (a : A) : Gen A := fun k => Run [] k (Ok a).

Definition lift {A : Type} (m : outcome A) : Gen A := fun k => Run [] k m.

Definition yield (s : yield_site) (w : str) : Gen unit :=
  fun k => Run [Emit s w] k (Ok tt).

Definition gbind {A B : Type} (m : Gen A) (f : A -> Gen B) : Gen B :=
  fun k =>
    let r := m k in
    match result r with
    | Ok a =>
        let r' := f a (ticks r) in
        Run (yielded r ++ yielded r') (ticks r') (result r')
    | Raise e => Run (yielded r) (ticks r) (Raise e)
    end.

Notation "x <- m ;; k" := (gbind m (fun x => k))
  (at level 61, m at next level, right associativity).

(** How one iteration of [async for line in ...] leaves the loop body. *)
Inductive flow : Type :=
| Continue (thinking_state : Z)   (* next line, with this state *)
| Return.                         (* [return] *)

(** How the loop ends when no exception does: the lines ran out in some
    state, or the body returned and left these lines unread. *)
Inductive loop_end : Type :=
| Exhausted (thinking_state : Z)
| Returned (unread : list str).

(** ** The HTTP collaborator *)

Record request : Type :=
  Request { url : str; headers_of : dict; json_of : dict; streamed : bool }.

(** A response: its status, its body as lines (streaming) and what
    [response.json()] gives (buffered). *)
Record response : Type :=
  Response { status_code : Z; aiter_lines : list str; response_json : outcome json }.

(** [response.raise_for_status()] *)
Definition raise_for_status (r : response) : outcome unit :=
  if (200 <=? status_code r)%Z && (status_code r <? 300)%Z then Ok tt
  else Raise HTTPStatusError.

(** ** The pipe *)

Record Valves : Type :=
  { OPENROUTER_API_BASE_URL : str; OPENROUTER_API_KEY : str }.

Record Pipe : Type := { valves : Valves; timeout : Z }.

(** [Pipe.__init__] *)
Definition __init__ : Pipe :=
  {| valves := {| OPENROUTER_API_BASE_URL := lit "https://openrouter.ai/api/v1";
                  OPENROUTER_API_KEY := [] |};
     timeout := 60 |}.

(** [Pipe.pipes] *)
Definition pipes : list dict :=
  let models :=
    [ lit "deepseek/deepseek-r1-distill-llama-70b";
      lit "deepseek/deepseek-r1";
      lit "deepseek/deepseek-r1:free";
      lit "anthropic/claude-3.7-sonnet" ] in
  map (fun model =>
         [ (lit "id", JStr (lit "reasoning/" ++ model));
           (lit "name", JStr (lit "reasoning/" ++ model)) ])
      models.

(** What [await pipe(body)] hands to its caller: the streaming generator,
    the coroutine that [_handle_normal_request(...)] creates (with what
    awaiting it gives), or the text of the [except] branch. *)
Inductive pipe_result : Type :=
| AsyncGenerator (g : Gen loop_end)
| Coroutine (awaited : outcome json)
| Text (s : str).

(** ** Reading an event the way the loop body does *)

(** [data.get("choices", [{}])[0]] *)
Definition event_choice (data : json) : outcome json :=
  choices <~ py_get data (lit "choices") (JList [JDict []]) ;;
  py_index0 choices.

(** [choice.get("delta", {})] *)
Definition event_delta (data : json) : outcome json :=
  choice <~ event_choice data ;;
  py_get choice (lit "delta") (JDict []).

(** [delta.get(k)] *)
Definition delta_get (k : str) (data : json) : outcome json :=
  delta <~ event_delta data ;;
  py_get delta k JNull.

(** [choice.get("finish_reason")] *)
Definition event_finish (data : json) : outcome json :=
  choice <~ event_choice data ;;
  py_get choice (lit "finish_reason") JNull.

(** The event's delta has a reasoning field that Python takes as true (for a
    string: it is not empty). *)
Definition carries_reasoning (data : json) : bool :=
  match delta_get (lit "reasoning") data with
  | Ok r => truthy r
  | Raise _ => false
  end.

Definition reasoning_free (ev : outcome json) : bool :=
  match ev with
  | Ok data => negb (carries_reasoning data)
  | Raise _ => true
  end.

(** The event's delta has content that Python takes as true and no
    reasoning that it takes as true: what closes the reasoning. *)
Definition carries_answer (data : json) : bool :=
  match delta_get (lit "reasoning") data, delta_get (lit "content") data with
  | Ok r, Ok c => negb (truthy r) && truthy c
  | _, _ => false
  end.

Definition answer_free (ev : outcome json) : bool :=
  match ev with
  | Ok data => negb (carries_answer data)
  | Raise _ => true
  end.

(** A choice of a buffered response that [_handle_normal_request] has
    nothing to do with: a dict without a message, or whose message is a
    dict without reasoning. *)
Definition without_reasoning (choice : json) : Prop :=
  exists c,
    choice = JDict c
    /\ (dict_get (lit "message") c = None
        \/ exists m,
            dict_get (lit "message") c = Some (JDict m)
            /\ dict_get (lit "reasoning") m = None).

(** The two delimiter markers, and the terminal marker. *)
Definition is_marker (e : emission) : bool :=
  match site e with
  | OpenMarker | CloseMarker => true
  | _ => false
  end.

Definition is_sentinel (e : emission) : bool :=
  match site e with
  | Sentinel => true
  | _ => false
  end.

Definition is_site (s : yield_site) (e : emission) : bool :=
  match s, site e with
  | OpenMarker, OpenMarker | CloseMarker, CloseMarker
  | Content, Content | Sentinel, Sentinel => true
  | _, _ => false
  end.

(** What [construct_chunk] made: every emission but the terminal marker. *)
Definition is_chunk (e : emission) : bool := negb (is_sentinel e).

(** How many times a [yield] statement ran. *)
Definition count_site (s : yield_site) (ys : list emission) : nat :=
  List.length (filter (is_site s) ys).

(** How many opening and closing markers a state still allows. *)
Definition opens_left (thinking_state : Z) : nat :=
  if (thinking_state =? -1)%Z then 1 else 0.

Definition closes_left (thinking_state : Z) : nat :=
  if (thinking_state =? -1)%Z || (thinking_state =? 0)%Z then 1 else 0.

(** What a run leaves to the iterations after it: nothing when it left the
    loop. *)
Definition left_after (allowed : Z -> nat) (r : outcome flow) : nat :=
  match r with
  | Ok (Continue thinking_state) => allowed thinking_state
  | _ => 0
  end.

(** What the end of the loop is for the event-driven form of the loop. *)
Definition end_flow (e : loop_end) : flow :=
  match e with
  | Exhausted thinking_state => Continue thinking_state
  | Returned _ => Return
  end.

Definition omap {A B : Type} (f : A -> B) (m : outcome A) : outcome B :=
  match m with
  | Ok a => Ok (f a)
  | Raise e => Raise e
  end.

(** ** The model identifier, as the specification words it *)

(** The part of [s] after its last [.], or [s] when it has none. *)
Fixpoint spec_after_last_dot (s : str) : str :=
  match s with
  | [] => []
  | c :: s' =>
      if existsb (N.eqb 46%N) s' then spec_after_last_dot s'
      else if N.eqb c 46%N then s' else s
  end.

(** [s] without [prefix] at its front, when it starts with it. *)
Definition spec_strip_prefix (s prefix : str) : str :=
  if startswith s prefix then skipn (List.length prefix) s else s.

Definition spec_model_identifier (model : str) : str :=
  spec_strip_prefix (spec_after_last_dot model) (lit "reasoning/").

(** [rest] is [model] without what comes up to its first [.], the [.]
    included; it is [model] when [model] has no [.]. *)
Definition after_first_dot (model rest : str) : Prop :=
  (exists before, model = before ++ 46%N :: rest /\ ~ In 46%N before)
  \/ (~ In 46%N model /\ rest = model).

(** ** The scenarios of the specification *)

(** An event whose first choice has a delta with one field. *)
Definition delta_event (field : str) (text : str) : json :=
  JDict [ (lit "choices", JList [ JDict [ (lit "delta", JDict [ (field, JStr text) ]) ] ]) ].

(** An event whose first choice has a finish reason and no delta. *)
Definition finish_event (reason : str) : json :=
  JDict [ (lit "choices", JList [ JDict [ (lit "finish_reason", JStr reason) ] ]) ].

(** Scenario A.  The specification writes an event by what its first
    choice holds: [{delta: {reasoning: ...}}] is the event
    [{"choices": [{"delta": {"reasoning": ...}}]}]. *)
Definition scenario_A : list json :=
  [ delta_event (lit "reasoning") (lit "Let me think");
    delta_event (lit "reasoning") (lit " more");
    delta_event (lit "content") (lit "42");
    finish_event (lit "stop") ].

(** ** Inputs for the examples *)

(** No float occurs in the examples: any printer and reader of floats do. *)
Definition sample_float_repr (f : float) : str := lit "0.0".
Definition sample_float_of_literal (s : str) : float := PrimFloat.zero.

Definition sample_loads : str -> outcome json := loads sample_float_of_literal.
Definition sample_dumps : json -> str := dumps sample_float_repr.

Definition sample_clock (n : nat) : Z := 1738195200 + Z.of_nat n.

(** The line of the event stream that carries an event. *)
Definition sse_line (event : json) : str := lit "data: " ++ sample_dumps event.

(** The request as the host sends it: the identifier of the function, a
    [.], and the identifier that [pipes] lists. *)
Definition routed_model : str :=
  lit "openrouter_reasoning_tokens.reasoning/anthropic/claude-3.7-sonnet".

Definition streaming_request : dict :=
  [ (lit "model", JStr routed_model);
    (lit "messages", JList []);
    (lit "stream", JBool true) ].

Definition buffered_request : dict :=
  [ (lit "model", JStr routed_model);
    (lit "messages", JList []);
    (lit "stream", JBool false) ].

(** The request as [pipe] sends it upstream. *)
Definition upstream_request : dict :=
  [ (lit "model", JStr (lit "anthropic/claude-3.7-sonnet"));
    (lit "messages", JList []);
    (lit "stream", JBool true);
    (lit "include_reasoning", JBool true) ].

(** Scenario A as the lines of a response, with the empty lines that
    separate the events of an event stream. *)
Definition scenario_A_lines : list str :=
  flat_map (fun event => [sse_line event; []]) scenario_A.

Definition scenario_B : list json :=
  [ delta_event (lit "content") (lit "Hello"); finish_event (lit "stop") ].

Definition scenario_B_lines : list str :=
  flat_map (fun event => [sse_line event; []]) scenario_B.

(** A data line whose payload is not JSON. *)
Definition malformed_line : str := lit "data: {oops".

(** An upstream that answers every request with the given lines. *)
Definition answers (lines : list str) (r : request) : outcome response :=
  Ok (Response 200 lines (Raise JSONDecodeError)).

(** An upstream that cannot be reached. *)
Definition unreachable (r : request) : outcome response := Raise TransportError.

(** An upstream that answers with a server error. *)
Definition server_error (r : request) : outcome response :=
  Ok (Response 500 [] (Raise JSONDecodeError)).

(** A text of the examples, written with ['] where it has a double quote. *)
Definition dq (s : string) : str :=
  map (fun c => if N.eqb c 39%N then 34%N else c) (lit s).

(** An upstream that answers a request with a JSON document. *)
Definition replies (data : json) (r : request) : outcome response :=
  Ok (Response 200 [] (Ok data)).

(** [str(v)] of a text, of [None], of a boolean and of an integer; the
    examples format nothing else. *)
Definition sample_py_str (v : json) : str :=
  match v with
  | JStr s => s
  | JNull => lit "None"
  | JBool true => lit "True"
  | JBool false => lit "False"
  | JInt z => int_repr z
  | _ => sample_dumps v
  end.

(** [str(e)] of an exception that has no message. *)
Definition sample_exn_str (e : exn) : str := [].

(** The message of a buffered response, with and without reasoning, and a
    message that has reasoning and no content. *)
Definition reasoned_message : dict :=
  [ (lit "role", JStr (lit "assistant"));
    (lit "content", JStr (lit "42"));
    (lit "reasoning", JStr (lit "Let me think")) ].

Definition plain_message : dict :=
  [ (lit "role", JStr (lit "assistant"));
    (lit "content", JStr (lit "42")) ].

Definition contentless_message : dict :=
  [ (lit "role", JStr (lit "assistant"));
    (lit "reasoning", JStr (lit "Let me think")) ].

Definition choice_of (message : dict) : dict :=
  [ (lit "index", JInt 0); (lit "message", JDict message) ].

Definition completion_of (message : dict) : dict :=
  [ (lit "id", JStr (lit "gen-1"));
    (lit "choices", JList [ JDict (choice_of message) ]) ].

(** An event whose list of choices is empty. *)
Definition usage_event : json := JDict [ (lit "choices", JList []) ].

(** An event whose delta has content and reasoning. *)
Definition mixed_event : json :=
  JDict [ (lit "choices",
            JList [ JDict [ (lit "delta",
                              JDict [ (lit "content", JStr (lit "42"));
                                      (lit "reasoning", JStr (lit "again")) ]) ] ]) ].

Section Pipe.

(** [json.loads] and [json.dumps] *)
Variable json_loads : str -> outcome json.
Variable json_dumps : json -> str.
(** [str(v)], as an f-string formats a value, and [str(e)] of an exception *)
Variable py_str : json -> str.
Variable exn_str : exn -> str.
(** [int(time.time())] at the n-th reading of the clock *)
Variable clock : nat -> Z.
(** The upstream API, as [httpx] shows it. *)
Variable transport : request -> outcome response.

Variable self : Pipe.

Definition time : Gen Z := fun k => Run [] (S k) (Ok (clock k)).

(** The object that [construct_chunk] passes to [json.dumps]. *)
Definition chunk_body (id : json) (created : Z) (model : json) (content : json) : json :=
  JDict
    [ (lit "id", id);
      (lit "object", JStr (lit "chat.completion.chunk"));
      (lit "created", JInt created);
      (lit "model", model);
      (lit "choices",
        JList
          [ JDict
              [ (lit "index", JInt 0);
                (lit "delta",
                  JDict [ (lit "content", content);
                          (lit "role", JStr (lit "assistant")) ]);
                (lit "finish_reason", JNull) ] ]) ].

(** The f-string of [construct_chunk]. *)
Definition chunk_line (id : json) (created : Z) (model : json) (content : json) : str :=
  lit "data: " ++ json_dumps (chunk_body id created model content) ++ [LF; LF].

(** [construct_chunk], closed over the current [data] and over [body]. *)
Definition construct_chunk (data : json) (body : dict) (content : json) : Gen str :=
  id <- lift (py_get data (lit "id") JNull) ;;
  created <- time ;;
  let model := dict_get_default (lit "model") JNull body in
  ret (chunk_line id created model content).

Definition think_open : str := lit "<think>".
Definition think_close : str := lit "</think>" ++ [LF; LF].
Definition done_line : str := lit "data: [DONE]" ++ [LF; LF].

(** The loop body from line 132 on: what is done with a decoded event. *)
Definition on_event (body : dict) (thinking_state : Z) (data : json) : Gen flow :=
  choices <- lift (py_get data (lit "choices") (JList [JDict []])) ;;
  choice <- lift (py_index0 choices) ;;
  delta <- lift (py_get choice (lit "delta") (JDict [])) ;;
  (* State transitions *)
  opening <-
    (if (thinking_state =? -1)%Z then
       r <- lift (py_get delta (lit "reasoning") JNull) ;; ret (truthy r)
     else ret false) ;;
  thinking_state <-
    (if opening : bool then
       let thinking_state := 0%Z in
       chunk <- construct_chunk data body (JStr think_open) ;;
       _ <- yield OpenMarker chunk ;;
       ret thinking_state
     else
       closing <-
         (if (thinking_state =? 0)%Z then
            r <- lift (py_get delta (lit "reasoning") JNull) ;;
            if negb (truthy r) then
              c <- lift (py_get delta (lit "content") JNull) ;; ret (truthy c)
            else ret false
          else ret false) ;;
       if closing : bool then
         let thinking_state := 1%Z in
         chunk <- construct_chunk data body (JStr think_close) ;;
         _ <- yield CloseMarker chunk ;;
         ret thinking_state
       else ret thinking_state) ;;
  (* Handle content output *)
  r <- lift (py_get delta (lit "reasoning") JNull) ;;
  content <-
    (if truthy r then ret r
     else lift (py_get delta (lit "content") (JStr []))) ;;
  _ <- (if truthy content then
          chunk <- construct_chunk data body content ;;
          yield Content chunk
        else ret tt) ;;
  finish <- lift (py_get choice (lit "finish_reason") JNull) ;;
  if truthy finish then
    _ <- yield Sentinel done_line ;;
    ret Return
  else ret (Continue thinking_state).

(** The body of [async for line in response.aiter_lines()]. *)
Definition iteration (body : dict) (thinking_state : Z) (line : str) : Gen flow :=
  if negb (startswith line (lit "data: ")) then ret (Continue thinking_state)
  else
    data <- lift (json_loads (skipn 6 line)) ;;
    on_event body thinking_state data.

(** [async for line in response.aiter_lines(): ...] *)
Fixpoint stream_loop (body : dict) (thinking_state : Z) (lines : list str) : Gen loop_end :=
  match lines with
  | [] => ret (Exhausted thinking_state)
  | line :: lines' =>
      fl <- iteration body thinking_state line ;;
      match fl with
      | Continue thinking_state' => stream_loop body thinking_state' lines'
      | Return => ret (Returned lines')
      end
  end.

(** The upstream events that a sequence of lines carries: what
    [json.loads] makes of the payload of each data line, in order. *)
Definition is_data_line (line : str) : bool := startswith line (lit "data: ").

Definition events (lines : list str) : list (outcome json) :=
  map (fun line => json_loads (skipn 6 line)) (filter is_data_line lines).

(** The loop as the events drive it; [stream_loop_events] relates the two. *)
Fixpoint event_loop (body : dict) (thinking_state : Z) (evs : list (outcome json)) : Gen flow :=
  match evs with
  | [] => ret (Continue thinking_state)
  | ev :: evs' =>
      fl <- (data <- lift ev ;; on_event body thinking_state data) ;;
      match fl with
      | Continue thinking_state' => event_loop body thinking_state' evs'
      | Return => ret Return
      end
  end.

Definition chat_completions : str :=
  OPENROUTER_API_BASE_URL (valves self) ++ lit "/chat/completions".

Definition _handle_streaming_request (body headers : dict) : Gen loop_end :=
  response <- lift (transport (Request chat_completions headers body true)) ;;
  _ <- lift (raise_for_status response) ;;   (* Fail fast if needed *)
  let thinking_state := (-1)%Z in            (* -1: not started, 0: thinking, 1: answered *)
  stream_loop body thinking_state (aiter_lines response).

(** One round of [for choice in data["choices"]]; the choice is updated
    in place, so the round gives the choice as it is afterwards. *)
Definition reshape_choice (choice : json) : outcome json :=
  has_message <~ py_contains (lit "message") choice ;;
  has_reasoning <~
    (if has_message : bool then
       message <~ py_getitem choice (lit "message") ;;
       py_contains (lit "reasoning") message
     else Ok false) ;;
  if has_reasoning : bool then
    message <~ py_getitem choice (lit "message") ;;
    reasoning <~ py_getitem message (lit "reasoning") ;;
    content <~ py_getitem message (lit "content") ;;
    message' <~
      py_setitem message (lit "content")
        (JStr (lit "<think>" ++ py_str reasoning ++ lit "</think>" ++ [LF]
               ++ py_str content)) ;;
    py_setitem choice (lit "message") message'
  else Ok choice.

Definition _handle_normal_request (body headers : dict) : outcome json :=
  response <~ transport (Request chat_completions headers body false) ;;
  _ <~ raise_for_status response ;;
  data <~ response_json response ;;
  has_choices <~ py_contains (lit "choices") data ;;
  if has_choices : bool then
    choices <~ py_getitem data (lit "choices") ;;
    items <~ py_iter choices ;;
    items' <~ for_each reshape_choice items ;;
    match choices with
    | JList _ => py_setitem data (lit "choices") (JList items')
    | _ => Ok data
    end
  else Ok data.

(** Lines 58 to 65 of [pipe]: the request sent upstream. *)
Definition modified_body (body : dict) : outcome dict :=
  let modified_body := body in
  modified_body <~
    (if dict_mem (lit "model") modified_body then
       (* Remove "reasoning/" prefix from model ID *)
       model <~ as_str (dict_get_default (lit "model") JNull modified_body) ;;
       Ok (dict_set (lit "model")
             (JStr (replace_1 (last_part (split_1 model 46%N)) (lit "reasoning/") []))
             modified_body)
     else Ok modified_body) ;;
  Ok (dict_set (lit "include_reasoning") (JBool true) modified_body).

Definition headers : dict :=
  [ (lit "Authorization", JStr (lit "Bearer " ++ OPENROUTER_API_KEY (valves self)));
    (lit "Content-Type", JStr (lit "application/json"));
    (lit "HTTP-Referer", JStr (lit "https://openwebui.com/"));
    (lit "X-Title", JStr (lit "Open WebUI")) ].

(** [pipe]: the two handlers are called, not awaited, inside the [try]. *)
Definition pipe (body : dict) : outcome pipe_result :=
  modified_body <~ modified_body body ;;
  try_except
    (if truthy (dict_get_default (lit "stream") (JBool false) body) then
       Ok (AsyncGenerator (_handle_streaming_request modified_body headers))
     else
       Ok (Coroutine (_handle_normal_request modified_body headers)))
    (fun e => Ok (Text (json_dumps (JDict [ (lit "error", JStr (exn_str e)) ])))).

(** * Properties *)

(** ** The generator monad *)

Lemma run_eta {A : Type} (r : run A) : Run (yielded r) (ticks r) (result r) = r.
Proof. destruct r; reflexivity. Qed.

Lemma gbind_ret {A B : Type} (a : A) (f : A -> Gen B) (k : nat) :
gbind (ret a) f k = f a k.
Proof. unfold gbind, ret; cbn. apply run_eta. Qed.

Lemma gbind_lift_ok {A B : Type} (a : A) (f : A -> Gen B) (k : nat) :
gbind (lift (Ok a)) f k = f a k.
Proof. unfold gbind, lift; cbn. apply run_eta. Qed.

Lemma gbind_lift_raise {A B : Type} (e : exn) (f : A -> Gen B) (k : nat) :
gbind (lift (Raise e)) f k = Run [] k (Raise e).
Proof. reflexivity. Qed.

Lemma gbind_time {B : Type} (f : Z -> Gen B) (k : nat) :
gbind time f k = f (clock k) (S k).
Proof. unfold gbind, time; cbn. apply run_eta. Qed.

Lemma gbind_yield {B : Type} (s : yield_site) (w : str) (f : unit -> Gen B) (k : nat) :
gbind (yield s w) f k =
Run (Emit s w :: yielded (f tt k)) (ticks (f tt k)) (result (f tt k)).
Proof. reflexivity. Qed.

Lemma gbind_assoc {A B C : Type} (m : Gen A) (f : A -> Gen B) (g : B -> Gen C) (k : nat) :
gbind (gbind m f) g k = gbind m (fun x => gbind (f x) g) k.
Proof.
unfold gbind. destruct (m k) as [ys t [a|e]]; cbn; [|reflexivity].
destruct (f a t) as [ys' t' [b|e]]; cbn; [|reflexivity].
rewrite app_assoc. reflexivity.
Qed.

Lemma ret_run {A : Type} (a : A) (k : nat) : ret a k = Run [] k (Ok a).
Proof. reflexivity. Qed.

Lemma yield_run (s : yield_site) (w : str) (k : nat) :
yield s w k = Run [Emit s w] k (Ok tt).
Proof. reflexivity. Qed.

(** Runs a generator computation whose tests are decided. *)
Ltac gen_run :=
repeat (progress
          (rewrite ?gbind_assoc, ?gbind_ret, ?gbind_lift_ok, ?gbind_time,
             ?gbind_yield, ?ret_run, ?yield_run;
           cbv beta;
           cbn [yielded ticks result app negb];
           repeat match goal with
                  | H : truthy _ = _ |- _ => rewrite H
                  end)).

(** *** One event *)

(** An event whose shape lets the loop body reach its delta. *)
Lemma event_delta_inv (data delta : json) :
  event_delta data = Ok delta ->
  exists d c,
    data = JDict d /\ event_choice data = Ok (JDict c)
    /\ delta = dict_get_default (lit "delta") (JDict []) c.
Proof.
  unfold event_delta. destruct (event_choice data) as [choice|e] eqn:Hc; [|discriminate].
  cbn [obind]. destruct choice; try discriminate.
  cbn [py_get]. intros [= <-].
  destruct data; try discriminate. eauto.
Qed.

(** When the shape is wrong the body raises before it yields anything. *)
Lemma on_event_no_delta (body : dict) (st : Z) (data : json) (k : nat) (e : exn) :
  event_delta data = Raise e ->
  on_event body st data k = Run [] k (Raise e).
Proof.
  unfold event_delta, event_choice, on_event. intros H.
  destruct (py_get data (lit "choices") (JList [JDict []])) as [choices|e1];
    cbn [obind] in H; [|rewrite gbind_lift_raise; congruence].
  rewrite gbind_lift_ok.
  destruct (py_index0 choices) as [choice|e2];
    cbn [obind] in H; [|rewrite gbind_lift_raise; congruence].
  rewrite gbind_lift_ok.
  rewrite H. reflexivity.
Qed.

Lemma on_event_bad_delta (body : dict) (st : Z) (data delta : json) (k : nat) :
  event_delta data = Ok delta ->
  (forall dl, delta <> JDict dl) ->
  on_event body st data k = Run [] k (Raise AttributeError).
Proof.
  unfold event_delta, event_choice, on_event. intros H Hd.
  destruct (py_get data (lit "choices") (JList [JDict []])) as [choices|e1];
    cbn [obind] in H; [|discriminate].
  rewrite gbind_lift_ok.
  destruct (py_index0 choices) as [choice|e2];
    cbn [obind] in H; [|discriminate].
  rewrite gbind_lift_ok, H, gbind_lift_ok.
  assert (Hg : forall key dflt, py_get delta key dflt = Raise AttributeError).
  { intros. destruct delta; try reflexivity. exfalso. eapply Hd; reflexivity. }
  rewrite !Hg.
  destruct (st =? -1)%Z; [reflexivity|].
  destruct (st =? 0)%Z; reflexivity.
Qed.

(** When the delta is a dict the body does not raise: its run is this. *)
Lemma on_event_eq (body : dict) (st : Z) (d c dl : dict) (k : nat) :
  event_choice (JDict d) = Ok (JDict c) ->
  dict_get_default (lit "delta") (JDict []) c = JDict dl ->
  let id := dict_get_default (lit "id") JNull d in
  let model := dict_get_default (lit "model") JNull body in
  let r := dict_get_default (lit "reasoning") JNull dl in
  let finish := dict_get_default (lit "finish_reason") JNull c in
  let opens := (st =? -1)%Z && truthy r in
  let closes :=
    negb opens && (st =? 0)%Z && negb (truthy r)
    && truthy (dict_get_default (lit "content") JNull dl) in
  let content := if truthy r then r else dict_get_default (lit "content") (JStr []) dl in
  let k1 := if opens || closes then S k else k in
  on_event body st (JDict d) k =
    Run ((if opens then [Emit OpenMarker (chunk_line id (clock k) model (JStr think_open))]
          else if closes then [Emit CloseMarker (chunk_line id (clock k) model (JStr think_close))]
          else [])
         ++ (if truthy content then [Emit Content (chunk_line id (clock k1) model content)]
             else [])
         ++ (if truthy finish then [Emit Sentinel done_line] else []))
        (if truthy content then S k1 else k1)
        (Ok (if truthy finish then Return
             else Continue (if opens then 0 else if closes then 1 else st)%Z)).
Proof.
  unfold event_choice. cbn [py_get obind]. intros Hc Hd.
  unfold on_event, construct_chunk.
  cbn [py_get]. rewrite gbind_lift_ok, Hc, gbind_lift_ok.
  cbn [py_get]. rewrite gbind_lift_ok, Hd.
  cbn [py_get].
  generalize (dict_get_default (lit "id") JNull d) as id.
  generalize (dict_get_default (lit "model") JNull body) as model.
  generalize (dict_get_default (lit "reasoning") JNull dl) as r.
  generalize (dict_get_default (lit "finish_reason") JNull c) as finish.
  generalize (dict_get_default (lit "content") JNull dl) as c0.
  generalize (dict_get_default (lit "content") (JStr []) dl) as c1.
  intros c1 c0 finish r model id.
  destruct (st =? -1)%Z, (st =? 0)%Z, (truthy r) eqn:Hr, (truthy c0) eqn:Hc0,
    (truthy c1) eqn:Hc1, (truthy finish) eqn:Hf;
    cbn [andb orb negb]; gen_run; reflexivity.
Qed.

Lemma on_event_cases (body : dict) (st : Z) (data : json) (k : nat) :
  (exists e, on_event body st data k = Run [] k (Raise e))
  \/ (exists d c dl,
        data = JDict d /\ event_choice (JDict d) = Ok (JDict c)
        /\ dict_get_default (lit "delta") (JDict []) c = JDict dl).
Proof.
  destruct (event_delta data) as [delta|e] eqn:Hdelta.
  - destruct (event_delta_inv _ _ Hdelta) as (d & c & -> & Hc & Hd).
    destruct delta as [| | | | | |dl];
      try (left; exists AttributeError;
           apply (on_event_bad_delta body st _ _ k Hdelta); discriminate).
    right. exists d, c, dl. auto.
  - left. exists e. apply on_event_no_delta, Hdelta.
Qed.

Lemma delta_get_eq (d c dl : dict) (key : str) :
  event_choice (JDict d) = Ok (JDict c) ->
  dict_get_default (lit "delta") (JDict []) c = JDict dl ->
  delta_get key (JDict d) = Ok (dict_get_default key JNull dl).
Proof.
  intros Hc Hd. unfold delta_get, event_delta. rewrite Hc. cbn [obind py_get].
  rewrite Hd. reflexivity.
Qed.

Lemma event_finish_eq (d c : dict) :
  event_choice (JDict d) = Ok (JDict c) ->
  event_finish (JDict d) = Ok (dict_get_default (lit "finish_reason") JNull c).
Proof. intros Hc. unfold event_finish. rewrite Hc. reflexivity. Qed.

(** *** One line *)

(** The four ways an iteration goes: a line that is not a data line, a
    payload that [json.loads] refuses, an event of the wrong shape, and an
    event whose run [on_event_eq] gives. *)
Ltac by_iteration body st line k :=
  unfold iteration, is_data_line in *;
  destruct (startswith line (lit "data: ")) eqn:?Hdata; cbn [negb];
  [ destruct (json_loads (skipn 6 line)) as [?data|?e] eqn:?Hloads;
    [ rewrite gbind_lift_ok;
      let Hev := fresh "Hev" in
      let Hc := fresh "Hc" in
      let Hdl := fresh "Hdl" in
      destruct (on_event_cases body st data k)
        as [[?e Hev] | (?d & ?c & ?dl & -> & Hc & Hdl)];
      [ rewrite Hev | rewrite (on_event_eq body st _ _ _ k Hc Hdl) ]
    | rewrite gbind_lift_raise ]
  | rewrite ret_run ];
  cbn [yielded ticks result].

(** The state only moves forward. *)
Lemma iteration_monotone (body : dict) (st st' : Z) (line : str) (k : nat) :
  result (iteration body st line k) = Ok (Continue st') -> (st <= st')%Z.
Proof.
  by_iteration body st line k; try discriminate.
  - destruct (Z.eqb_spec st (-1)), (Z.eqb_spec st 0);
      destruct (truthy (dict_get_default (lit "reasoning") JNull dl));
      destruct (truthy (dict_get_default (lit "content") JNull dl));
      destruct (truthy (dict_get_default (lit "finish_reason") JNull c));
      cbn [andb orb negb]; intros [= <-]; lia.
  - intros [= <-]; lia.
Qed.

(** In the state [1] no marker is yielded and the state stays. *)
Lemma iteration_answered (body : dict) (line : str) (k : nat) :
  filter is_marker (yielded (iteration body 1 line k)) = []
  /\ (forall st', result (iteration body 1 line k) = Ok (Continue st') -> st' = 1%Z).
Proof.
  by_iteration body 1%Z line k; try (split; [reflexivity | congruence]).
  cbn [Z.eqb andb orb negb].
  destruct (truthy (if truthy _ then _ else _));
    destruct (truthy (dict_get_default (lit "finish_reason") JNull c));
    split; try reflexivity; congruence.
Qed.

(** Without reasoning in the event, and outside the state [0], no marker
    is yielded and the state stays. *)
Lemma iteration_reasoning_free (body : dict) (st : Z) (line : str) (k : nat) :
  st <> 0%Z ->
  (is_data_line line = true -> reasoning_free (json_loads (skipn 6 line)) = true) ->
  filter is_marker (yielded (iteration body st line k)) = []
  /\ (forall st', result (iteration body st line k) = Ok (Continue st') -> st' = st).
Proof.
  intros Hst Hfree.
  by_iteration body st line k; try (split; [reflexivity | congruence]).
  specialize (Hfree eq_refl).
  unfold reasoning_free, carries_reasoning in Hfree.
  rewrite (delta_get_eq _ _ _ _ Hc Hdl) in Hfree.
  apply negb_true_iff in Hfree. rewrite Hfree.
  destruct (Z.eqb_spec st 0) as [|_]; [contradiction|].
  rewrite !andb_false_r. cbn [andb orb negb].
  destruct (truthy (dict_get_default (lit "content") (JStr []) dl));
    destruct (truthy (dict_get_default (lit "finish_reason") JNull c));
    split; try reflexivity; congruence.
Qed.

(** *** The loop *)

Lemma stream_loop_cons (body : dict) (st : Z) (line : str) (lines : list str) (k : nat) :
  stream_loop body st (line :: lines) k =
  let it := iteration body st line k in
  match result it with
  | Ok (Continue st') =>
      let r := stream_loop body st' lines (ticks it) in
      Run (yielded it ++ yielded r) (ticks r) (result r)
  | Ok Return => Run (yielded it) (ticks it) (Ok (Returned lines))
  | Raise e => Run (yielded it) (ticks it) (Raise e)
  end.
Proof.
  cbn [stream_loop]. unfold gbind.
  destruct (iteration body st line k) as [ys t [[st'|]|e]]; cbn;
    rewrite ?app_nil_r; reflexivity.
Qed.

(** Lines read after the loop went through a first part without leaving. *)
Lemma stream_loop_app (body : dict) (pre post : list str) :
  forall (st : Z) (k : nat) (st' : Z),
    result (stream_loop body st pre k) = Ok (Exhausted st') ->
    stream_loop body st (pre ++ post) k =
    let r1 := stream_loop body st pre k in
    let r2 := stream_loop body st' post (ticks r1) in
    Run (yielded r1 ++ yielded r2) (ticks r2) (result r2).
Proof.
  induction pre as [|line pre IH]; intros st k st' Hpre.
  - cbn in Hpre. injection Hpre as <-. cbn. symmetry. apply run_eta.
  - cbn [app]. cbv zeta.
    rewrite (stream_loop_cons body st line (pre ++ post)).
    rewrite (stream_loop_cons body st line pre) in Hpre |- *.
    cbv zeta in Hpre |- *.
    destruct (result (iteration body st line k)) as [[st1|]|e]; try discriminate.
    cbn [result] in Hpre. cbn [yielded ticks result].
    rewrite (IH _ _ _ Hpre). cbn [yielded ticks result].
    rewrite app_assoc. reflexivity.
Qed.

Lemma events_cons (line : str) (lines : list str) :
  events (line :: lines) =
  if is_data_line line then json_loads (skipn 6 line) :: events lines
  else events lines.
Proof. unfold events. cbn [filter]. destruct (is_data_line line); reflexivity. Qed.

Lemma stream_loop_answered (body : dict) (lines : list str) :
  forall k : nat,
    filter is_marker (yielded (stream_loop body 1 lines k)) = []
    /\ (forall st', result (stream_loop body 1 lines k) = Ok (Exhausted st') -> st' = 1%Z).
Proof.
  induction lines as [|line lines IH]; intros k.
  - split; [reflexivity|]. cbn. congruence.
  - rewrite stream_loop_cons. cbv zeta.
    destruct (iteration_answered body line k) as [Hm Hst].
    destruct (result (iteration body 1 line k)) as [[st1|]|e];
      cbn [yielded ticks result]; try (split; [exact Hm | discriminate]).
    rewrite (Hst st1 eq_refl), filter_app, Hm.
    apply IH.
Qed.

Lemma stream_loop_reasoning_free (body : dict) (lines : list str) :
  forall (st : Z) (k : nat),
    st <> 0%Z ->
    forallb reasoning_free (events lines) = true ->
    filter is_marker (yielded (stream_loop body st lines k)) = [].
Proof.
  induction lines as [|line lines IH]; intros st k Hst Hfree; [reflexivity|].
  rewrite events_cons in Hfree.
  assert (Hline : is_data_line line = true ->
                  reasoning_free (json_loads (skipn 6 line)) = true).
  { intros Hd. rewrite Hd in Hfree. cbn [forallb] in Hfree.
    apply andb_true_iff in Hfree. tauto. }
  assert (Hrest : forallb reasoning_free (events lines) = true).
  { destruct (is_data_line line); [|exact Hfree].
    cbn [forallb] in Hfree. apply andb_true_iff in Hfree. tauto. }
  rewrite stream_loop_cons. cbv zeta.
  destruct (iteration_reasoning_free body st line k Hst Hline) as [Hm Hsame].
  destruct (result (iteration body st line k)) as [[st1|]|e];
    cbn [yielded ticks result]; try exact Hm.
  rewrite (Hsame st1 eq_refl), filter_app, Hm.
  apply IH; assumption.
Qed.

Lemma stream_loop_events (body : dict) (lines : list str) :
  forall (st : Z) (k : nat),
    yielded (stream_loop body st lines k) = yielded (event_loop body st (events lines) k)
    /\ ticks (stream_loop body st lines k) = ticks (event_loop body st (events lines) k)
    /\ omap end_flow (result (stream_loop body st lines k))
       = result (event_loop body st (events lines) k).
Proof.
  induction lines as [|line lines IH]; intros st k; [repeat split|].
  rewrite stream_loop_cons, events_cons. cbv zeta.
  unfold iteration, is_data_line.
  destruct (startswith line (lit "data: ")); cbn [negb].
  - cbn [event_loop]. rewrite gbind_assoc.
    destruct (json_loads (skipn 6 line)) as [data|e];
      [rewrite !gbind_lift_ok | rewrite !gbind_lift_raise; repeat split].
    unfold gbind.
    destruct (on_event body st data k) as [ys t [[st1|]|e]];
      cbn [yielded ticks result omap end_flow]; rewrite ?app_nil_r;
      [|repeat split..].
    destruct (IH st1 t) as (H1 & H2 & H3). rewrite H1, H2, H3. repeat split.
  - rewrite ret_run. cbn [yielded ticks result app].
    destruct (IH st k) as (H1 & H2 & H3). rewrite <- H1, <- H2, <- H3.
    destruct (result (stream_loop body st lines k)) as [[st1|post]|e]; repeat split.
Qed.

(** How one line leaves the loop, and where the terminal marker is. *)
Lemma iteration_sentinel (body : dict) (st : Z) (line : str) (k : nat) :
  match result (iteration body st line k) with
  | Ok Return =>
      is_data_line line = true
      /\ exists data finish ys,
          json_loads (skipn 6 line) = Ok data
          /\ event_finish data = Ok finish /\ truthy finish = true
          /\ yielded (iteration body st line k) = ys ++ [Emit Sentinel done_line]
          /\ filter is_sentinel ys = []
  | _ => filter is_sentinel (yielded (iteration body st line k)) = []
  end.
Proof.
  by_iteration body st line k; try reflexivity.
  destruct (truthy (dict_get_default (lit "finish_reason") JNull c)) eqn:Hf.
  - split; [reflexivity|].
    exists (JDict d), (dict_get_default (lit "finish_reason") JNull c).
    eexists. repeat split.
    + apply event_finish_eq, Hc.
    + exact Hf.
    + rewrite app_assoc. reflexivity.
    + repeat match goal with
             | |- context [if ?b then _ else _] => destruct b
             end; reflexivity.
  - rewrite app_nil_r.
    repeat match goal with
           | |- context [if ?b then _ else _] => destruct b
           end; reflexivity.
Qed.

Lemma stream_loop_sentinel (body : dict) (lines : list str) :
  forall (st : Z) (k : nat),
    match result (stream_loop body st lines k) with
    | Ok (Returned post) =>
        exists pre line data finish ys,
          lines = pre ++ line :: post
          /\ is_data_line line = true
          /\ json_loads (skipn 6 line) = Ok data
          /\ event_finish data = Ok finish /\ truthy finish = true
          /\ yielded (stream_loop body st lines k) = ys ++ [Emit Sentinel done_line]
          /\ filter is_sentinel ys = []
          /\ forall post',
              stream_loop body st (pre ++ line :: post') k
              = Run (yielded (stream_loop body st lines k))
                    (ticks (stream_loop body st lines k))
                    (Ok (Returned post'))
    | _ => filter is_sentinel (yielded (stream_loop body st lines k)) = []
    end.
Proof.
  induction lines as [|line lines IH]; intros st k; [reflexivity|].
  rewrite stream_loop_cons. cbv zeta.
  pose proof (iteration_sentinel body st line k) as Hit.
  destruct (result (iteration body st line k)) as [[st1|]|e] eqn:Hres;
    cbn [yielded ticks result]; [| |exact Hit].
  - specialize (IH st1 (ticks (iteration body st line k))).
    destruct (result (stream_loop body st1 lines (ticks (iteration body st line k))))
      as [[st2|post]|e] eqn:Hrest.
    + rewrite filter_app, Hit, IH. reflexivity.
    + destruct IH as (pre & l & data & finish & ys & -> & Hl & Hloads & Hfin & Hf & Hys & Hno & Hind).
      exists (line :: pre), l, data, finish, (yielded (iteration body st line k) ++ ys).
      repeat split; try assumption.
      * rewrite Hys, app_assoc. reflexivity.
      * rewrite filter_app, Hit, Hno. reflexivity.
      * intros post'. cbn [app]. rewrite stream_loop_cons. cbv zeta.
        rewrite Hres, Hind. reflexivity.
    + rewrite filter_app, Hit, IH. reflexivity.
  - destruct Hit as (Hl & data & finish & ys & Hloads & Hfin & Hf & Hys & Hno).
    exists [], line, data, finish, ys. repeat split; try assumption.
    intros post'. cbn [app]. rewrite stream_loop_cons. cbv zeta.
    rewrite Hres. reflexivity.
Qed.

(** Each iteration uses up what the state allows. *)
Lemma iteration_markers (body : dict) (st : Z) (line : str) (k : nat) :
  (count_site OpenMarker (yielded (iteration body st line k))
   + left_after opens_left (result (iteration body st line k)) <= opens_left st)%nat
  /\ (count_site CloseMarker (yielded (iteration body st line k))
      + left_after closes_left (result (iteration body st line k)) <= closes_left st)%nat.
Proof.
  by_iteration body st line k; unfold count_site; cbn [filter List.length left_after];
    try (split; lia).
  unfold opens_left, closes_left.
  generalize (dict_get_default (lit "reasoning") JNull dl) as r.
  generalize (dict_get_default (lit "content") JNull dl) as c0.
  generalize (dict_get_default (lit "content") (JStr []) dl) as c1.
  generalize (dict_get_default (lit "finish_reason") JNull c) as fin.
  intros fin c1 c0 r.
  destruct (Z.eqb_spec st (-1)) as [->|Hn1]; [|destruct (Z.eqb_spec st 0) as [->|Hn0]];
    destruct (truthy r) eqn:Hr, (truthy c0), (truthy c1) eqn:Hc1, (truthy fin);
    cbn [andb orb negb Z.eqb]; rewrite ?Hr, ?Hc1; cbn;
    try (destruct (Z.eqb_spec st (-1)); [contradiction|]);
    try (destruct (Z.eqb_spec st 0); [contradiction|]);
    cbn; split; lia.
Qed.

Lemma count_site_app (s : yield_site) (ys zs : list emission) :
  count_site s (ys ++ zs) = (count_site s ys + count_site s zs)%nat.
Proof. unfold count_site. rewrite filter_app, length_app. reflexivity. Qed.

(** Over the whole loop no more markers are yielded than the starting
    state allows. *)
Lemma stream_loop_markers (body : dict) (lines : list str) :
  forall (st : Z) (k : nat),
    (count_site OpenMarker (yielded (stream_loop body st lines k)) <= opens_left st)%nat
    /\ (count_site CloseMarker (yielded (stream_loop body st lines k))
        <= closes_left st)%nat.
Proof.
  induction lines as [|line lines IH]; intros st k.
  - cbn. split; lia.
  - rewrite stream_loop_cons. cbv zeta.
    destruct (iteration_markers body st line k) as [Ho Hc].
    destruct (result (iteration body st line k)) as [[st1|]|e];
      cbn [yielded ticks result left_after] in Ho, Hc |- *; try (split; lia).
    rewrite !count_site_app.
    destruct (IH st1 (ticks (iteration body st line k))) as [Ho1 Hc1].
    split; lia.
Qed.

(** *** The streaming handler *)

(** Either the request fails before the loop starts, or the handler is the
    loop over the lines of the response, from the state [-1]. *)
Lemma _handle_streaming_request_cases (body hdrs : dict) (k : nat) :
  (exists e, _handle_streaming_request body hdrs k = Run [] k (Raise e))
  \/ (exists resp,
        transport (Request chat_completions hdrs body true) = Ok resp
        /\ raise_for_status resp = Ok tt
        /\ _handle_streaming_request body hdrs k
           = stream_loop body (-1) (aiter_lines resp) k).
Proof.
  unfold _handle_streaming_request.
  destruct (transport (Request chat_completions hdrs body true)) as [resp|e].
  - rewrite gbind_lift_ok.
    destruct (raise_for_status resp) as [[]|e] eqn:Hstatus.
    + rewrite gbind_lift_ok. right. exists resp. repeat split. exact Hstatus.
    + rewrite gbind_lift_raise. left. eauto.
  - rewrite gbind_lift_raise. left. eauto.
Qed.

(** C3: when no event of the upstream stream carries reasoning, the
    streaming handler yields neither the opening nor the closing marker,
    however long the stream is and whatever content it carries. *)
Theorem no_reasoning_no_markers (body hdrs : dict) (k : nat) :
  (forall resp,
      transport (Request chat_completions hdrs body true) = Ok resp ->
      forallb reasoning_free (events (aiter_lines resp)) = true) ->
  filter is_marker (yielded (_handle_streaming_request body hdrs k)) = [].
Proof.
  intros Hfree.
  destruct (_handle_streaming_request_cases body hdrs k)
    as [[e ->] | (resp & Hresp & _ & ->)]; [reflexivity|].
  apply stream_loop_reasoning_free; [discriminate | apply Hfree, Hresp].
Qed.

(** C4: the state of the loop only moves forward, and once it is [1]
    (answered) no opening or closing marker is yielded for the rest of the
    response, whatever the later events carry; over a whole response each
    of the two markers is yielded at most once. *)
Theorem answered_is_final (body : dict) :
  (forall st st' line k,
      result (iteration body st line k) = Ok (Continue st') -> (st <= st')%Z)
  /\ (forall lines k,
        filter is_marker (yielded (stream_loop body 1 lines k)) = [])
  /\ (forall pre post k,
        result (stream_loop body (-1) pre k) = Ok (Exhausted 1) ->
        exists rest,
          yielded (stream_loop body (-1) (pre ++ post) k)
          = yielded (stream_loop body (-1) pre k) ++ rest
          /\ filter is_marker rest = [])
  /\ (forall lines k,
        (count_site OpenMarker (yielded (stream_loop body (-1) lines k)) <= 1)%nat
        /\ (count_site CloseMarker (yielded (stream_loop body (-1) lines k)) <= 1)%nat).
Proof.
  split; [|split; [|split]].
  - intros st st' line k. apply iteration_monotone.
  - intros lines k. apply stream_loop_answered.
  - intros pre post k Hpre.
    rewrite (stream_loop_app body pre post _ _ _ Hpre). cbn [yielded].
    eexists; split; [reflexivity|]. apply stream_loop_answered.
  - intros lines k. apply (stream_loop_markers body lines (-1) k).
Qed.

Lemma filter_nil_In {A : Type} (p : A -> bool) (l : list A) (x : A) :
  filter p l = [] -> In x l -> p x = true -> False.
Proof.
  intros Hnil Hin Hp.
  assert (Hx : In x (filter p l)) by (apply filter_In; auto).
  rewrite Hnil in Hx. exact Hx.
Qed.

(** C5: the terminal marker is yielded at most once; when it is, a data
    line whose event has a finish reason that is not null was read, the
    marker is the last thing yielded, and the lines after that line are left
    unread: whatever they are, the run is the same. *)
Theorem terminal_marker_once (body : dict) (st : Z) (lines : list str) (k : nat) :
  (List.length (filter is_sentinel (yielded (stream_loop body st lines k))) <= 1)%nat
  /\ (forall e,
        In e (yielded (stream_loop body st lines k)) ->
        is_sentinel e = true ->
        exists pre line post data finish ys,
          lines = pre ++ line :: post
          /\ is_data_line line = true
          /\ json_loads (skipn 6 line) = Ok data
          /\ event_finish data = Ok finish
          /\ truthy finish = true /\ finish <> JNull
          /\ yielded (stream_loop body st lines k) = ys ++ [e]
          /\ filter is_sentinel ys = []
          /\ wire e = done_line
          /\ result (stream_loop body st lines k) = Ok (Returned post)
          /\ forall post',
              stream_loop body st (pre ++ line :: post') k
              = Run (yielded (stream_loop body st lines k))
                    (ticks (stream_loop body st lines k))
                    (Ok (Returned post'))).
Proof.
  pose proof (stream_loop_sentinel body lines st k) as H.
  destruct (result (stream_loop body st lines k)) as [[st1|post]|err] eqn:Hres.
  - split; [rewrite H; cbn; lia|].
    intros e Hin He. destruct (filter_nil_In _ _ _ H Hin He).
  - destruct H as (pre & line & data & finish & ys & Hlines & Hl & Hloads & Hfin & Hf & Hys & Hno & Hind).
    split; [rewrite Hys, filter_app, Hno; cbn; lia|].
    intros e Hin He.
    assert (e = Emit Sentinel done_line) as ->.
    { rewrite Hys in Hin. apply in_app_or in Hin. destruct Hin as [Hin|[<-|[]]].
      - destruct (filter_nil_In _ _ _ Hno Hin He).
      - reflexivity. }
    exists pre, line, post, data, finish, ys.
    repeat split; try assumption.
    intros ->. discriminate.
  - split; [rewrite H; cbn; lia|].
    intros e Hin He. destruct (filter_nil_In _ _ _ H Hin He).
Qed.

(** C6, as the code has it: when the loop reaches a data line whose payload
    [json.loads] refuses, the generator raises that error at that line, and
    what it yielded is what it had yielded before the line. *)
Theorem malformed_line_is_fatal
  (body : dict) (st st' : Z) (pre : list str) (line : str) (post : list str)
  (k : nat) (e : exn) :
  result (stream_loop body st pre k) = Ok (Exhausted st') ->
  is_data_line line = true ->
  json_loads (skipn 6 line) = Raise e ->
  stream_loop body st (pre ++ line :: post) k
  = Run (yielded (stream_loop body st pre k))
        (ticks (stream_loop body st pre k))
        (Raise e).
Proof.
  intros Hpre Hline Hloads.
  rewrite (stream_loop_app body pre _ _ _ _ Hpre). cbv zeta.
  rewrite stream_loop_cons. cbv zeta.
  unfold iteration. unfold is_data_line in Hline. rewrite Hline. cbn [negb].
  rewrite Hloads, gbind_lift_raise. cbn [yielded ticks result].
  rewrite app_nil_r. reflexivity.
Qed.

(** C7: an event that is a dict is processed whatever fields are missing.
    Without [choices] nothing is yielded and the state stays; without
    [delta] in the first choice only the finish reason counts; and the step
    gives a result whenever the fields that are there have the shape the
    body reads (a list of choices that starts with a dict, a delta that is
    a dict). *)
Theorem missing_fields_are_tolerated (body : dict) (st : Z) (d : dict) (k : nat) :
  (dict_get (lit "choices") d = None ->
   on_event body st (JDict d) k = Run [] k (Ok (Continue st)))
  /\ (forall c rest,
        dict_get (lit "choices") d = Some (JList (JDict c :: rest)) ->
        dict_get (lit "delta") c = None ->
        let finish := dict_get_default (lit "finish_reason") JNull c in
        on_event body st (JDict d) k
        = Run (if truthy finish then [Emit Sentinel done_line] else [])
              k
              (Ok (if truthy finish then Return else Continue st)))
  /\ (forall c rest,
        dict_get (lit "choices") d = Some (JList (JDict c :: rest)) ->
        (dict_get (lit "delta") c = None
         \/ exists dl, dict_get (lit "delta") c = Some (JDict dl)) ->
        exists fl, result (on_event body st (JDict d) k) = Ok fl).
Proof.
  split; [|split].
  - intros Hno.
    assert (Hc : event_choice (JDict d) = Ok (JDict [])).
    { unfold event_choice, py_get, dict_get_default. rewrite Hno. reflexivity. }
    rewrite (on_event_eq body st d [] [] k Hc eq_refl).
    change (dict_get_default (lit "reasoning") JNull []) with JNull.
    change (dict_get_default (lit "content") JNull []) with JNull.
    change (dict_get_default (lit "content") (JStr []) []) with (JStr []).
    change (dict_get_default (lit "finish_reason") JNull []) with JNull.
    cbn [truthy]. rewrite !andb_false_r. reflexivity.
  - intros c rest Hchoices Hno finish.
    assert (Hc : event_choice (JDict d) = Ok (JDict c)).
    { unfold event_choice, py_get, dict_get_default. rewrite Hchoices. reflexivity. }
    assert (Hd : dict_get_default (lit "delta") (JDict []) c = JDict []).
    { unfold dict_get_default. rewrite Hno. reflexivity. }
    rewrite (on_event_eq body st d c [] k Hc Hd).
    change (dict_get_default (lit "reasoning") JNull []) with JNull.
    change (dict_get_default (lit "content") JNull []) with JNull.
    change (dict_get_default (lit "content") (JStr []) []) with (JStr []).
    cbn [truthy]. rewrite !andb_false_r. reflexivity.
  - intros c rest Hchoices Hdelta.
    assert (Hc : event_choice (JDict d) = Ok (JDict c)).
    { unfold event_choice, py_get, dict_get_default. rewrite Hchoices. reflexivity. }
    assert (Hd : exists dl, dict_get_default (lit "delta") (JDict []) c = JDict dl).
    { unfold dict_get_default. destruct Hdelta as [->|[dl ->]]; eauto. }
    destruct Hd as [dl Hd].
    rewrite (on_event_eq body st d c dl k Hc Hd). cbn [result]. eauto.
Qed.

(** C10: in the state [1] an event whose delta has reasoning that Python
    takes as true gives one content chunk with that reasoning, whatever
    content the delta has, and no marker; then the terminal marker when the
    event has a finish reason.  The chunk is the line [data: ], the text
    that [json.dumps] makes of the object written out here, whose delta has
    the reasoning as its content, and two line feeds. *)
Theorem late_reasoning_is_content (body : dict) (line : str) (data r : json) (k : nat) :
  is_data_line line = true ->
  json_loads (skipn 6 line) = Ok data ->
  delta_get (lit "reasoning") data = Ok r ->
  truthy r = true ->
  exists id finish,
    py_get data (lit "id") JNull = Ok id
    /\ event_finish data = Ok finish
    /\ iteration body 1 line k
       = Run (Emit Content
                (lit "data: "
                 ++ json_dumps
                      (JDict
                         [ (lit "id", id);
                           (lit "object", JStr (lit "chat.completion.chunk"));
                           (lit "created", JInt (clock k));
                           (lit "model", dict_get_default (lit "model") JNull body);
                           (lit "choices",
                             JList
                               [ JDict
                                   [ (lit "index", JInt 0);
                                     (lit "delta",
                                       JDict [ (lit "content", r);
                                               (lit "role", JStr (lit "assistant")) ]);
                                     (lit "finish_reason", JNull) ] ]) ])
                 ++ [LF; LF])
              :: (if truthy finish then [Emit Sentinel (lit "data: [DONE]" ++ [LF; LF])]
                  else []))
             (S k)
             (Ok (if truthy finish then Return else Continue 1)).
Proof.
  intros Hline Hloads Hr Htrue.
  unfold delta_get in Hr.
  destruct (event_delta data) as [delta|e] eqn:Hdelta; [|discriminate].
  cbn [obind] in Hr.
  destruct (event_delta_inv _ _ Hdelta) as (d & c & -> & Hc & Hd).
  destruct delta as [| | | | | |dl]; try discriminate.
  cbn [py_get] in Hr. injection Hr as Hr.
  exists (dict_get_default (lit "id") JNull d),
         (dict_get_default (lit "finish_reason") JNull c).
  split; [reflexivity|]. split; [apply event_finish_eq, Hc|].
  unfold iteration. unfold is_data_line in Hline. rewrite Hline. cbn [negb].
  rewrite Hloads, gbind_lift_ok.
  rewrite (on_event_eq body 1 d c dl k Hc (eq_sym Hd)).
  rewrite Hr, Htrue. cbn [Z.eqb andb orb negb app]. rewrite Htrue.
  destruct (truthy (dict_get_default (lit "finish_reason") JNull c)); reflexivity.
Qed.

(** C1: for the events of scenario A the handler yields, in this order and
    nothing else, the chunks that carry the opening marker, the two pieces
    of reasoning, the closing marker and the answer, then the terminal
    line, and returns.  A chunk that carries a text is the line [data: ],
    the text that [json.dumps] makes of the object written out here, whose
    delta has the text as its content, and two line feeds. *)
Theorem scenario_A_output (body hdrs : dict) (resp : response) (k : nat) :
  transport (Request chat_completions hdrs body true) = Ok resp ->
  raise_for_status resp = Ok tt ->
  events (aiter_lines resp) = map Ok scenario_A ->
  let chunk n text :=
    lit "data: "
    ++ json_dumps
         (JDict
            [ (lit "id", JNull);
              (lit "object", JStr (lit "chat.completion.chunk"));
              (lit "created", JInt (clock (n + k)));
              (lit "model", dict_get_default (lit "model") JNull body);
              (lit "choices",
                JList
                  [ JDict
                      [ (lit "index", JInt 0);
                        (lit "delta",
                          JDict [ (lit "content", JStr text);
                                  (lit "role", JStr (lit "assistant")) ]);
                        (lit "finish_reason", JNull) ] ]) ])
    ++ [LF; LF] in
  yielded (_handle_streaming_request body hdrs k)
  = [ Emit OpenMarker (chunk 0%nat (lit "<think>"));
      Emit Content (chunk 1%nat (lit "Let me think"));
      Emit Content (chunk 2%nat (lit " more"));
      Emit CloseMarker (chunk 3%nat (lit "</think>" ++ [LF; LF]));
      Emit Content (chunk 4%nat (lit "42"));
      Emit Sentinel (lit "data: [DONE]" ++ [LF; LF]) ]
  /\ exists unread,
      result (_handle_streaming_request body hdrs k) = Ok (Returned unread).
Proof.
  intros Hresp Hstatus Hevents chunk.
  unfold _handle_streaming_request.
  rewrite Hresp, gbind_lift_ok, Hstatus, gbind_lift_ok.
  destruct (stream_loop_events body (aiter_lines resp) (-1) k) as (Hy & _ & Hr).
  rewrite Hevents in Hy, Hr. split.
  - rewrite Hy. subst chunk. vm_compute. reflexivity.
  - destruct (result (stream_loop body (-1) (aiter_lines resp) k)) as [[st|unread]|e];
      [exfalso | eauto | exfalso]; vm_compute in Hr; discriminate.
Qed.

(** *** The request sent upstream *)

Lemma str_eqb_eq (a b : str) : str_eqb a b = true <-> a = b.
Proof.
  revert b. induction a as [|x a IH]; intros [|y b]; cbn; split; try congruence.
  - intros H. apply andb_true_iff in H. destruct H as [Hx Hab].
    apply N.eqb_eq in Hx. apply IH in Hab. congruence.
  - intros [= -> ->]. rewrite N.eqb_refl. apply IH. reflexivity.
Qed.

Lemma str_eqb_refl (a : str) : str_eqb a a = true.
Proof. apply str_eqb_eq. reflexivity. Qed.

Lemma dict_get_set_same (k : str) (v : json) (d : dict) :
  dict_get k (dict_set k v d) = Some v.
Proof.
  induction d as [|[k0 v0] d IH]; cbn.
  - rewrite str_eqb_refl. reflexivity.
  - destruct (str_eqb k k0) eqn:E; cbn; rewrite E; [reflexivity | exact IH].
Qed.

Lemma dict_get_set_other (k k' : str) (v : json) (d : dict) :
  str_eqb k' k = false ->
  dict_get k' (dict_set k v d) = dict_get k' d.
Proof.
  intros Hk. induction d as [|[k0 v0] d IH]; cbn.
  - rewrite Hk. reflexivity.
  - destruct (str_eqb k k0) eqn:E; cbn.
    + apply str_eqb_eq in E. subst k0. rewrite Hk. reflexivity.
    + rewrite IH. reflexivity.
Qed.

Lemma startswith_app (p t : str) : startswith (p ++ t) p = true.
Proof.
  induction p as [|c p IH]; cbn; [destruct t; reflexivity|].
  rewrite N.eqb_refl. exact IH.
Qed.

Lemma skipn_length_app (p t : str) : skipn (List.length p) (p ++ t) = t.
Proof. induction p as [|c p IH]; cbn; [reflexivity | exact IH]. Qed.

Lemma replace_1_unfold (s old new : str) :
  replace_1 s old new =
  if startswith s old then new ++ skipn (List.length old) s
  else match s with
       | [] => []
       | c :: s' => c :: replace_1 s' old new
       end.
Proof. destruct s; reflexivity. Qed.

(** A prefix is removed. *)
Lemma replace_1_prefix (old t : str) : replace_1 (old ++ t) old [] = t.
Proof.
  rewrite replace_1_unfold, startswith_app. cbn [app]. apply skipn_length_app.
Qed.

(** Where the text does not occur nothing changes. *)
Lemma replace_1_absent (s old new : str) :
  is_substring old s = false -> replace_1 s old new = s.
Proof.
  induction s as [|c s IH]; intros H; rewrite replace_1_unfold.
  - cbn [is_substring] in H. apply orb_false_iff in H. destruct H as [H1 _].
    rewrite H1. reflexivity.
  - cbn [is_substring] in H. apply orb_false_iff in H. destruct H as [H1 H2].
    rewrite H1, (IH H2). reflexivity.
Qed.

Lemma split_1_no_sep (s : str) (sep : N) : ~ In sep s -> split_1 s sep = [s].
Proof.
  induction s as [|c s IH]; intros Hno; cbn; [reflexivity|].
  destruct (N.eqb_spec c sep) as [->|_]; [exfalso; apply Hno; left; reflexivity|].
  rewrite IH; [reflexivity|]. intros Hin. apply Hno. right. exact Hin.
Qed.

Lemma split_1_first_sep (before rest : str) (sep : N) :
  ~ In sep before -> split_1 (before ++ sep :: rest) sep = [before; rest].
Proof.
  induction before as [|c before IH]; intros Hno; cbn.
  - rewrite N.eqb_refl. reflexivity.
  - destruct (N.eqb_spec c sep) as [->|_]; [exfalso; apply Hno; left; reflexivity|].
    rewrite IH; [reflexivity|]. intros Hin. apply Hno. right. exact Hin.
Qed.

Lemma last_part_after_first_dot (model rest : str) :
  after_first_dot model rest -> last_part (split_1 model 46%N) = rest.
Proof.
  intros [(before & -> & Hno) | (Hno & ->)].
  - rewrite split_1_first_sep by exact Hno. reflexivity.
  - rewrite split_1_no_sep by exact Hno. reflexivity.
Qed.

(** C2, as the code has it: the model identifier loses what comes up to
    its first [.]; then a [reasoning/] at the front of the rest is removed,
    and a rest in which [reasoning/] does not occur is kept as it is.  The
    copy has [include_reasoning] set to true and every other field as it
    was.  Without a model field the copy has no model field either. *)
Theorem request_normalized (body : dict) :
  (forall m,
      dict_get (lit "model") body = Some (JStr m) ->
      exists mb,
        modified_body body = Ok mb
        /\ (forall rest,
              after_first_dot m rest ->
              (forall t, rest = lit "reasoning/" ++ t ->
                         dict_get (lit "model") mb = Some (JStr t))
              /\ (is_substring (lit "reasoning/") rest = false ->
                  dict_get (lit "model") mb = Some (JStr rest)))
        /\ dict_get (lit "include_reasoning") mb = Some (JBool true)
        /\ (forall key,
              str_eqb key (lit "model") = false ->
              str_eqb key (lit "include_reasoning") = false ->
              dict_get key mb = dict_get key body))
  /\ (dict_get (lit "model") body = None ->
      exists mb,
        modified_body body = Ok mb
        /\ dict_get (lit "model") mb = None
        /\ dict_get (lit "include_reasoning") mb = Some (JBool true)
        /\ (forall key,
              str_eqb key (lit "include_reasoning") = false ->
              dict_get key mb = dict_get key body)).
Proof.
  split.
  - intros m Hm. unfold modified_body, dict_mem, dict_get_default. rewrite Hm.
    cbn [as_str obind]. eexists. split; [reflexivity|]. split; [|split].
    + intros rest Hrest.
      rewrite dict_get_set_other by reflexivity.
      rewrite dict_get_set_same, (last_part_after_first_dot _ _ Hrest).
      split.
      * intros t ->. rewrite replace_1_prefix. reflexivity.
      * intros Habsent. rewrite replace_1_absent by exact Habsent. reflexivity.
    + apply dict_get_set_same.
    + intros key Hk1 Hk2.
      rewrite dict_get_set_other by exact Hk2.
      apply dict_get_set_other, Hk1.
  - intros Hno. unfold modified_body, dict_mem. rewrite Hno.
    cbn [obind]. eexists. split; [reflexivity|]. split; [|split].
    + rewrite dict_get_set_other by reflexivity. exact Hno.
    + apply dict_get_set_same.
    + intros key Hk. apply dict_get_set_other, Hk.
Qed.

(** *** The buffered path *)

(** A request that does not ask for a stream gets the coroutine of
    [_handle_normal_request], whatever awaiting it will give. *)
Lemma pipe_returns_coroutine (body mb : dict) :
  modified_body body = Ok mb ->
  truthy (dict_get_default (lit "stream") (JBool false) body) = false ->
  pipe body = Ok (Coroutine (_handle_normal_request mb headers)).
Proof.
  intros Hmb Hstream. unfold pipe. rewrite Hmb. cbn [obind].
  rewrite Hstream. reflexivity.
Qed.

(** The [try] of [pipe] has nothing to catch: its body only builds the
    generator or the coroutine. *)
Lemma pipe_never_text (body : dict) (s : str) : pipe body <> Ok (Text s).
Proof.
  unfold pipe. destruct (modified_body body) as [mb|e]; cbn [obind]; [|discriminate].
  destruct (truthy (dict_get_default (lit "stream") (JBool false) body));
    cbn [try_except]; discriminate.
Qed.

Lemma _handle_normal_request_transport_error (body hdrs : dict) (e : exn) :
  transport (Request chat_completions hdrs body false) = Raise e ->
  _handle_normal_request body hdrs = Raise e.
Proof. intros H. unfold _handle_normal_request. rewrite H. reflexivity. Qed.

Lemma _handle_normal_request_status_error (body hdrs : dict) (resp : response) (e : exn) :
  transport (Request chat_completions hdrs body false) = Ok resp ->
  raise_for_status resp = Raise e ->
  _handle_normal_request body hdrs = Raise e.
Proof.
  intros H Hs. unfold _handle_normal_request. rewrite H. cbn [obind].
  rewrite Hs. reflexivity.
Qed.

(** ** More on the streaming path *)

(** X1: when the upstream cannot be reached, or answers with a status
    outside 200..299, the streaming handler raises before it reads a line:
    nothing is yielded and the clock is not read. *)
Theorem streaming_request_fails_fast (body hdrs : dict) (k : nat) :
  (forall e,
      transport (Request chat_completions hdrs body true) = Raise e ->
      _handle_streaming_request body hdrs k = Run [] k (Raise e))
  /\ (forall resp,
        transport (Request chat_completions hdrs body true) = Ok resp ->
        (status_code resp < 200 \/ 300 <= status_code resp)%Z ->
        _handle_streaming_request body hdrs k = Run [] k (Raise HTTPStatusError)).
Proof.
  split.
  - intros e H. unfold _handle_streaming_request. rewrite H. reflexivity.
  - intros resp H Hstatus. unfold _handle_streaming_request.
    rewrite H, gbind_lift_ok. unfold raise_for_status.
    destruct (Z.leb_spec 200 (status_code resp)); cbn [andb];
      [destruct (Z.ltb_spec (status_code resp) 300); [lia|] |]; reflexivity.
Qed.

Lemma filter_idem {A : Type} (p : A -> bool) (l : list A) :
  filter p (filter p l) = filter p l.
Proof.
  induction l as [|x l IH]; [reflexivity|]. cbn [filter].
  destruct (p x) eqn:E; cbn [filter]; rewrite ?E, IH; reflexivity.
Qed.

(** X2: lines that do not start with [data: ] change nothing: the loop
    yields the same, reads the clock as often and ends the same way on the
    data lines alone. *)
Theorem non_data_lines_are_skipped (body : dict) (st : Z) (lines : list str) (k : nat) :
  yielded (stream_loop body st lines k)
  = yielded (stream_loop body st (filter is_data_line lines) k)
  /\ ticks (stream_loop body st lines k)
     = ticks (stream_loop body st (filter is_data_line lines) k)
  /\ omap end_flow (result (stream_loop body st lines k))
     = omap end_flow (result (stream_loop body st (filter is_data_line lines) k)).
Proof.
  destruct (stream_loop_events body lines st k) as (H1 & H2 & H3).
  destruct (stream_loop_events body (filter is_data_line lines) st k) as (G1 & G2 & G3).
  assert (E : events (filter is_data_line lines) = events lines).
  { unfold events. rewrite filter_idem. reflexivity. }
  rewrite E in G1, G2, G3. repeat split; congruence.
Qed.

Lemma on_event_raise (body : dict) (st : Z) (data : json) (k : nat) (e : exn) :
  result (on_event body st data k) = Raise e ->
  on_event body st data k = Run [] k (Raise e).
Proof.
  destruct (on_event_cases body st data k) as [[e' He]|(d & c & dl & -> & Hc & Hd)].
  - rewrite He. cbn [result]. intros [= <-]. reflexivity.
  - rewrite (on_event_eq body st d c dl k Hc Hd). discriminate.
Qed.

(** X3: an event is processed as a whole or not at all.  When the body
    raises on an event it has yielded nothing and has not read the clock,
    and the cause is the shape of the event: the delta cannot be reached, or
    it is not a dict. *)
Theorem failed_event_yields_nothing (body : dict) (st : Z) (data : json) (k : nat) (e : exn) :
  result (on_event body st data k) = Raise e ->
  on_event body st data k = Run [] k (Raise e)
  /\ (event_delta data = Raise e
      \/ (e = AttributeError
          /\ exists delta,
              event_delta data = Ok delta /\ forall dl, delta <> JDict dl)).
Proof.
  intros H.
  destruct (event_delta data) as [delta|e'] eqn:Hdelta.
  - destruct (event_delta_inv _ _ Hdelta) as (d & c & -> & Hc & Hd).
    destruct delta as [| | | | | |dl];
      try (rewrite (on_event_bad_delta body st _ _ k Hdelta) in H |- * by discriminate;
           injection H as <-; split; [reflexivity|];
           right; split; [reflexivity|]; eexists; split; [reflexivity | discriminate]).
    rewrite (on_event_eq body st d c dl k Hc (eq_sym Hd)) in H. discriminate.
  - rewrite (on_event_no_delta body st data k e' Hdelta) in H |- *.
    injection H as <-. auto.
Qed.

Lemma iteration_raise (body : dict) (st : Z) (line : str) (k : nat) (e : exn) :
  result (iteration body st line k) = Raise e ->
  iteration body st line k = Run [] k (Raise e).
Proof.
  unfold iteration. destruct (startswith line (lit "data: ")); cbn [negb].
  - destruct (json_loads (skipn 6 line)) as [data|e'].
    + rewrite gbind_lift_ok. intros H.
      apply (on_event_raise body st data k e H).
    + rewrite gbind_lift_raise. cbn [result]. intros [= <-]. reflexivity.
  - rewrite ret_run. discriminate.
Qed.

(** Whatever a line makes the body raise ends the run there. *)
Lemma raising_line_is_fatal
  (body : dict) (st st' : Z) (pre : list str) (line : str) (post : list str)
  (k : nat) (e : exn) :
  result (stream_loop body st pre k) = Ok (Exhausted st') ->
  result (iteration body st' line (ticks (stream_loop body st pre k))) = Raise e ->
  stream_loop body st (pre ++ line :: post) k
  = Run (yielded (stream_loop body st pre k))
        (ticks (stream_loop body st pre k))
        (Raise e).
Proof.
  intros Hpre Hline.
  rewrite (stream_loop_app body pre _ _ _ _ Hpre). cbv zeta.
  rewrite stream_loop_cons. cbv zeta.
  rewrite (iteration_raise _ _ _ _ _ Hline). cbn [yielded ticks result].
  rewrite app_nil_r. reflexivity.
Qed.

(** X4: an event whose list of choices is there and empty (as the last
    event of a stream that reports usage) makes the body raise
    [IndexError] on [[0]]: the run ends there, with what was yielded before
    and without the terminal marker. *)
Theorem empty_choices_abort_the_stream
  (body : dict) (st st' : Z) (pre : list str) (line : str) (post : list str)
  (k : nat) (d : dict) :
  result (stream_loop body st pre k) = Ok (Exhausted st') ->
  is_data_line line = true ->
  json_loads (skipn 6 line) = Ok (JDict d) ->
  dict_get (lit "choices") d = Some (JList []) ->
  stream_loop body st (pre ++ line :: post) k
  = Run (yielded (stream_loop body st pre k))
        (ticks (stream_loop body st pre k))
        (Raise IndexError).
Proof.
  intros Hpre Hline Hloads Hchoices.
  apply (raising_line_is_fatal body st st' pre line post k IndexError Hpre).
  unfold iteration. unfold is_data_line in Hline. rewrite Hline. cbn [negb].
  rewrite Hloads, gbind_lift_ok.
  rewrite (on_event_no_delta body st' (JDict d) _ IndexError); [reflexivity|].
  unfold event_delta, event_choice, py_get, dict_get_default.
  rewrite Hchoices. reflexivity.
Qed.

Lemma is_site_sentinel (e : emission) : is_site Sentinel e = is_sentinel e.
Proof. destruct e as [[] w]; reflexivity. Qed.

Lemma count_sentinel (ys : list emission) :
  count_site Sentinel ys = List.length (filter is_sentinel ys).
Proof. reflexivity. Qed.

(** X5: the terminal marker is there exactly when the loop returned: a run
    that raises, or that runs out of lines, has none; a run that returned
    has one, at the end. *)
Theorem terminal_marker_iff_returned (body : dict) (st : Z) (lines : list str) (k : nat) :
  match result (stream_loop body st lines k) with
  | Ok (Returned _) =>
      count_site Sentinel (yielded (stream_loop body st lines k)) = 1%nat
      /\ exists ys, yielded (stream_loop body st lines k) = ys ++ [Emit Sentinel done_line]
  | _ => count_site Sentinel (yielded (stream_loop body st lines k)) = 0%nat
  end.
Proof.
  pose proof (stream_loop_sentinel body lines st k) as H.
  rewrite count_sentinel.
  destruct (result (stream_loop body st lines k)) as [[st1|post]|e].
  - rewrite H. reflexivity.
  - destruct H as (pre & line & data & finish & ys & _ & _ & _ & _ & _ & Hys & Hno & _).
    rewrite Hys, filter_app, Hno. split; [reflexivity | eauto].
  - rewrite H. reflexivity.
Qed.

(** X6: what was yielded stays: on more lines the loop yields what it
    yielded on the first ones, and then maybe more; once it has raised or
    returned, more lines add nothing and the clock is not read again. *)
Theorem output_only_grows (body : dict) (pre post : list str) :
  forall (st : Z) (k : nat),
    (exists rest,
        yielded (stream_loop body st (pre ++ post) k)
        = yielded (stream_loop body st pre k) ++ rest)
    /\ ((forall st', result (stream_loop body st pre k) <> Ok (Exhausted st')) ->
        yielded (stream_loop body st (pre ++ post) k)
        = yielded (stream_loop body st pre k)
        /\ ticks (stream_loop body st (pre ++ post) k)
           = ticks (stream_loop body st pre k)).
Proof.
  induction pre as [|line pre IH]; intros st k.
  - split.
    + exists (yielded (stream_loop body st post k)). reflexivity.
    + intros H. exfalso. apply (H st). reflexivity.
  - cbn [app].
    rewrite (stream_loop_cons body st line (pre ++ post)).
    rewrite (stream_loop_cons body st line pre). cbv zeta.
    destruct (result (iteration body st line k)) as [[st1|]|e];
      cbn [yielded ticks result].
    + destruct (IH st1 (ticks (iteration body st line k))) as [[rest Hrest] Hsame].
      split.
      * exists rest. rewrite Hrest, app_assoc. reflexivity.
      * intros H. destruct (Hsame H) as [Hy Ht]. rewrite Hy, Ht. auto.
    + split; [exists []; rewrite app_nil_r; reflexivity | auto].
    + split; [exists []; rewrite app_nil_r; reflexivity | auto].
Qed.

(** The cases of [on_event_eq]: the tests on the state and on what the
    event holds. *)
Ltac event_cases st dl c :=
  generalize (dict_get_default (lit "reasoning") JNull dl);
  generalize (dict_get_default (lit "content") JNull dl);
  generalize (dict_get_default (lit "content") (JStr []) dl);
  generalize (dict_get_default (lit "finish_reason") JNull c);
  let fin := fresh "fin" in
  let c1 := fresh "c1" in
  let c0 := fresh "c0" in
  let r := fresh "r" in
  let Hr := fresh "Hr" in
  let Hc1 := fresh "Hc1" in
  intros fin c1 c0 r;
  destruct (st =? -1)%Z, (st =? 0)%Z, (truthy r) eqn:Hr, (truthy c0),
    (truthy c1) eqn:Hc1, (truthy fin);
  cbn [andb orb negb]; rewrite ?Hr, ?Hc1; cbn.

(** How the markers of one iteration and the state after it go together. *)
Lemma iteration_marker_balance (body : dict) (st : Z) (line : str) (k : nat) :
  match result (iteration body st line k) with
  | Ok (Continue st') =>
      (count_site OpenMarker (yielded (iteration body st line k)) + opens_left st'
       = opens_left st)%nat
      /\ (count_site CloseMarker (yielded (iteration body st line k)) + closes_left st'
          = closes_left st)%nat
      /\ (st' = st \/ (-1 <= st < st' /\ st' <= 1))%Z
  | _ =>
      (count_site CloseMarker (yielded (iteration body st line k)) + opens_left st
       <= count_site OpenMarker (yielded (iteration body st line k)) + closes_left st)%nat
  end.
Proof.
  by_iteration body st line k; unfold count_site, opens_left, closes_left;
    cbn [filter List.length].
  - destruct (st =? -1)%Z, (st =? 0)%Z; cbn; lia.
  - generalize (dict_get_default (lit "reasoning") JNull dl) as r.
    generalize (dict_get_default (lit "content") JNull dl) as c0.
    generalize (dict_get_default (lit "content") (JStr []) dl) as c1.
    generalize (dict_get_default (lit "finish_reason") JNull c) as fin.
    intros fin c1 c0 r.
    destruct (Z.eqb_spec st (-1)) as [->|Hn1]; [|destruct (Z.eqb_spec st 0) as [->|Hn0]];
      destruct (truthy r) eqn:Hr, (truthy c0), (truthy c1) eqn:Hc1, (truthy fin);
      cbn [andb orb negb Z.eqb]; rewrite ?Hr, ?Hc1; cbn;
      try (destruct (Z.eqb_spec st (-1)); [contradiction|]);
      try (destruct (Z.eqb_spec st 0); [contradiction|]);
      cbn; repeat split; lia.
  - destruct (st =? -1)%Z, (st =? 0)%Z; cbn; lia.
  - repeat split; lia.
Qed.

Lemma stream_loop_marker_balance (body : dict) (lines : list str) :
  forall (st : Z) (k : nat),
    (count_site CloseMarker (yielded (stream_loop body st lines k)) + opens_left st
     <= count_site OpenMarker (yielded (stream_loop body st lines k)) + closes_left st)%nat
    /\ (forall st',
          result (stream_loop body st lines k) = Ok (Exhausted st') ->
          (count_site OpenMarker (yielded (stream_loop body st lines k)) + opens_left st'
           = opens_left st)%nat
          /\ (count_site CloseMarker (yielded (stream_loop body st lines k))
              + closes_left st' = closes_left st)%nat
          /\ (st' = st \/ (-1 <= st < st' /\ st' <= 1))%Z).
Proof.
  induction lines as [|line lines IH]; intros st k.
  - cbn [stream_loop]. rewrite ret_run. cbn [yielded result]. unfold count_site.
    cbn [filter List.length]. split.
    + unfold opens_left, closes_left. destruct (st =? -1)%Z, (st =? 0)%Z; cbn; lia.
    + intros st' [= <-]. repeat split; lia.
  - rewrite stream_loop_cons. cbv zeta.
    pose proof (iteration_marker_balance body st line k) as Hit.
    destruct (result (iteration body st line k)) as [[st1|]|e];
      cbn [yielded ticks result]; try (split; [exact Hit | discriminate]).
    destruct Hit as (Ho & Hc & Hst).
    destruct (IH st1 (ticks (iteration body st line k))) as [Hle Hex].
    rewrite !count_site_app. split; [lia|].
    intros st' Hres. destruct (Hex st' Hres) as (Ho' & Hc' & Hst').
    repeat split; lia.
Qed.

(** X7: the markers yielded and the state go together.  From the start of
    a response a closing marker never comes without an opening one; when
    the lines run out, the state is [-1] with no marker yielded, [0] with the
    opening marker alone (the reasoning is left open), or [1] with both. *)
Theorem markers_follow_the_state (body : dict) (lines : list str) (k : nat) :
  (count_site CloseMarker (yielded (stream_loop body (-1) lines k))
   <= count_site OpenMarker (yielded (stream_loop body (-1) lines k)))%nat
  /\ (forall st',
        result (stream_loop body (-1) lines k) = Ok (Exhausted st') ->
        (st' = (-1)%Z
         /\ count_site OpenMarker (yielded (stream_loop body (-1) lines k)) = 0%nat
         /\ count_site CloseMarker (yielded (stream_loop body (-1) lines k)) = 0%nat)
        \/ (st' = 0%Z
            /\ count_site OpenMarker (yielded (stream_loop body (-1) lines k)) = 1%nat
            /\ count_site CloseMarker (yielded (stream_loop body (-1) lines k)) = 0%nat)
        \/ (st' = 1%Z
            /\ count_site OpenMarker (yielded (stream_loop body (-1) lines k)) = 1%nat
            /\ count_site CloseMarker (yielded (stream_loop body (-1) lines k)) = 1%nat)).
Proof.
  destruct (stream_loop_marker_balance body lines (-1) k) as [Hle Hex].
  change (opens_left (-1)) with 1%nat in *. change (closes_left (-1)) with 1%nat in *.
  split; [lia|].
  intros st' Hres. destruct (Hex st' Hres) as (Ho & Hc & Hst).
  assert (Hcases : st' = (-1)%Z \/ st' = 0%Z \/ st' = 1%Z) by lia.
  destruct Hcases as [-> | [-> | ->]].
  - left. change (opens_left (-1)) with 1%nat in Ho.
    change (closes_left (-1)) with 1%nat in Hc. repeat split; lia.
  - right; left. change (opens_left 0) with 0%nat in Ho.
    change (closes_left 0) with 1%nat in Hc. repeat split; lia.
  - right; right. change (opens_left 1) with 0%nat in Ho.
    change (closes_left 1) with 0%nat in Hc. repeat split; lia.
Qed.

Lemma iteration_ticks (body : dict) (st : Z) (line : str) (k : nat) :
  ticks (iteration body st line k)
  = (k + List.length (filter is_chunk (yielded (iteration body st line k))))%nat.
Proof.
  by_iteration body st line k; cbn [filter List.length]; try lia.
  event_cases st dl c; lia.
Qed.

(** X8: the clock is read once for each chunk, and for nothing else. *)
Theorem one_clock_reading_per_chunk (body : dict) (lines : list str) :
  forall (st : Z) (k : nat),
    ticks (stream_loop body st lines k)
    = (k + List.length (filter is_chunk (yielded (stream_loop body st lines k))))%nat.
Proof.
  induction lines as [|line lines IH]; intros st k.
  - cbn. lia.
  - rewrite stream_loop_cons. cbv zeta.
    pose proof (iteration_ticks body st line k) as Hit.
    destruct (result (iteration body st line k)) as [[st1|]|e];
      cbn [yielded ticks result]; try exact Hit.
    rewrite IH, filter_app, length_app. lia.
Qed.

(** The clock only goes forward. *)
Lemma stream_loop_ticks_le (body : dict) (lines : list str) :
  forall (st : Z) (k : nat), (k <= ticks (stream_loop body st lines k))%nat.
Proof.
  induction lines as [|line lines IH]; intros st k.
  - cbn. lia.
  - rewrite stream_loop_cons. cbv zeta.
    pose proof (iteration_ticks body st line k) as Hit.
    destruct (result (iteration body st line k)) as [[st1|]|e];
      cbn [yielded ticks result]; try lia.
    specialize (IH st1 (ticks (iteration body st line k))). lia.
Qed.

Lemma iteration_lines (body : dict) (st : Z) (line : str) (k : nat) (e : emission) :
  In e (yielded (iteration body st line k)) ->
  (site e = Sentinel /\ wire e = done_line)
  \/ (site e <> Sentinel
      /\ exists id t content,
          (k <= t < ticks (iteration body st line k))%nat
          /\ wire e = chunk_line id (clock t)
                        (dict_get_default (lit "model") JNull body) content).
Proof.
  by_iteration body st line k; try contradiction.
  event_cases st dl c; intros Hin;
    repeat (destruct Hin as [<-|Hin]); try contradiction;
    first [ left; split; reflexivity
          | right; split; [discriminate|];
            eexists _, _, _; refine (conj _ eq_refl); lia ].
Qed.

(** X9: every line that the loop yields is itself a data line of an event
    stream: the terminal line, or a chunk that reports the model of the
    request body and a time read from the clock during the run.  The chunk
    is the line [data: ], the text that [json.dumps] makes of the object
    written out here, and two line feeds. *)
Theorem every_line_is_a_data_line (body : dict) (lines : list str) :
  forall (st : Z) (k : nat) (e : emission),
    In e (yielded (stream_loop body st lines k)) ->
    is_data_line (wire e) = true
    /\ ((site e = Sentinel /\ wire e = lit "data: [DONE]" ++ [LF; LF])
        \/ (site e <> Sentinel
            /\ exists id t content,
                (k <= t < ticks (stream_loop body st lines k))%nat
                /\ wire e
                   = lit "data: "
                     ++ json_dumps
                          (JDict
                             [ (lit "id", id);
                               (lit "object", JStr (lit "chat.completion.chunk"));
                               (lit "created", JInt (clock t));
                               (lit "model", dict_get_default (lit "model") JNull body);
                               (lit "choices",
                                 JList
                                   [ JDict
                                       [ (lit "index", JInt 0);
                                         (lit "delta",
                                           JDict [ (lit "content", content);
                                                   (lit "role", JStr (lit "assistant")) ]);
                                         (lit "finish_reason", JNull) ] ]) ])
                     ++ [LF; LF])).
Proof.
  assert (Hdata : forall e k0 t0,
             (site e = Sentinel /\ wire e = done_line)
             \/ (site e <> Sentinel
                 /\ exists id t content,
                     (k0 <= t < t0)%nat
                     /\ wire e = chunk_line id (clock t)
                                   (dict_get_default (lit "model") JNull body) content) ->
             is_data_line (wire e) = true).
  { intros e k0 t0 [[_ ->]|(_ & id & t & content & _ & ->)]; [reflexivity|].
    unfold chunk_line, is_data_line. apply startswith_app. }
  assert (Hall : forall st k e,
             In e (yielded (stream_loop body st lines k)) ->
             (site e = Sentinel /\ wire e = done_line)
             \/ (site e <> Sentinel
                 /\ exists id t content,
                     (k <= t < ticks (stream_loop body st lines k))%nat
                     /\ wire e = chunk_line id (clock t)
                                   (dict_get_default (lit "model") JNull body) content)).
  { induction lines as [|line lines IH]; intros st k e Hin; [destruct Hin|].
    rewrite stream_loop_cons in Hin |- *. cbv zeta in Hin |- *.
    pose proof (iteration_lines body st line k e) as Hit.
    pose proof (iteration_ticks body st line k) as Ht.
    destruct (result (iteration body st line k)) as [[st1|]|err];
      cbn [yielded ticks result] in Hin |- *; try (apply Hit, Hin).
    pose proof (stream_loop_ticks_le body lines st1
                  (ticks (iteration body st line k))) as Ht'.
    apply in_app_or in Hin. destruct Hin as [Hin|Hin].
    - destruct (Hit Hin) as [H|(Hs & id & t & content & Hrange & Hw)]; [left; exact H|].
      right. split; [exact Hs|]. exists id, t, content. split; [lia | exact Hw].
    - destruct (IH st1 _ e Hin) as [H|(Hs & id & t & content & Hrange & Hw)];
        [left; exact H|].
      right. split; [exact Hs|]. exists id, t, content. split; [lia | exact Hw]. }
  intros st k e Hin. split; [|exact (Hall st k e Hin)].
  eapply Hdata. apply (Hall st k e Hin).
Qed.

(** X10: in every state, content that shares a delta with reasoning is
    not yielded: the one content chunk of the event carries the reasoning,
    and the reasoning is not closed by this event.  The chunk is the line
    [data: ], the text that [json.dumps] makes of the object written out
    here, whose delta has the reasoning as its content, and two line
    feeds. *)
Theorem reasoning_hides_content (body : dict) (st : Z) (data r : json) (k : nat) :
  delta_get (lit "reasoning") data = Ok r ->
  truthy r = true ->
  exists id,
    py_get data (lit "id") JNull = Ok id
    /\ filter (is_site Content) (yielded (on_event body st data k))
       = [ Emit Content
             (lit "data: "
              ++ json_dumps
                   (JDict
                      [ (lit "id", id);
                        (lit "object", JStr (lit "chat.completion.chunk"));
                        (lit "created", JInt (clock (if (st =? -1)%Z then S k else k)));
                        (lit "model", dict_get_default (lit "model") JNull body);
                        (lit "choices",
                          JList
                            [ JDict
                                [ (lit "index", JInt 0);
                                  (lit "delta",
                                    JDict [ (lit "content", r);
                                            (lit "role", JStr (lit "assistant")) ]);
                                  (lit "finish_reason", JNull) ] ]) ])
              ++ [LF; LF]) ]
    /\ count_site CloseMarker (yielded (on_event body st data k)) = 0%nat.
Proof.
  intros Hr Htrue. unfold delta_get in Hr.
  destruct (event_delta data) as [delta|e] eqn:Hdelta; [|discriminate].
  cbn [obind] in Hr.
  destruct (event_delta_inv _ _ Hdelta) as (d & c & -> & Hc & Hd).
  destruct delta as [| | | | | |dl]; try discriminate.
  cbn [py_get] in Hr. injection Hr as Hr.
  exists (dict_get_default (lit "id") JNull d). split; [reflexivity|].
  rewrite (on_event_eq body st d c dl k Hc (eq_sym Hd)).
  rewrite Hr, Htrue. unfold count_site.
  destruct (st =? -1)%Z, (st =? 0)%Z,
    (truthy (dict_get_default (lit "finish_reason") JNull c));
    cbn [andb orb negb]; rewrite ?Htrue; split; reflexivity.
Qed.

Lemma truthy_default (key : str) (dl : dict) :
  truthy (dict_get_default key (JStr []) dl) = truthy (dict_get_default key JNull dl).
Proof. unfold dict_get_default. destruct (dict_get key dl); reflexivity. Qed.

(** X11: an event that has no reasoning, no content and no finish reason
    that Python takes as true (a keep-alive, or a first event with an empty
    content) changes nothing, in every state. *)
Theorem keep_alive_is_a_no_op (body : dict) (st : Z) (data r c f : json) (k : nat) :
  delta_get (lit "reasoning") data = Ok r -> truthy r = false ->
  delta_get (lit "content") data = Ok c -> truthy c = false ->
  event_finish data = Ok f -> truthy f = false ->
  on_event body st data k = Run [] k (Ok (Continue st)).
Proof.
  intros Hr Hrf Hc Hcf Hf Hff. unfold delta_get in Hr, Hc.
  destruct (event_delta data) as [delta|e] eqn:Hdelta; [|discriminate].
  cbn [obind] in Hr, Hc.
  destruct (event_delta_inv _ _ Hdelta) as (d & ch & -> & Hch & Hd).
  destruct delta as [| | | | | |dl]; try discriminate.
  cbn [py_get] in Hr, Hc. injection Hr as Hr. injection Hc as Hc.
  rewrite (event_finish_eq _ _ Hch) in Hf. injection Hf as Hf.
  rewrite (on_event_eq body st d ch dl k Hch (eq_sym Hd)).
  rewrite Hr, Hrf, truthy_default, Hc, Hcf, Hf, Hff.
  rewrite !andb_false_r. reflexivity.
Qed.

Lemma iteration_answer_free (body : dict) (st : Z) (line : str) (k : nat) :
  (is_data_line line = true -> answer_free (json_loads (skipn 6 line)) = true) ->
  count_site CloseMarker (yielded (iteration body st line k)) = 0%nat.
Proof.
  intros Hfree. by_iteration body st line k; try reflexivity.
  specialize (Hfree eq_refl). unfold answer_free, carries_answer in Hfree.
  rewrite !(delta_get_eq _ _ _ _ Hc Hdl) in Hfree. revert Hfree.
  unfold count_site.
  event_cases st dl c; intros Hfree; try discriminate; reflexivity.
Qed.

(** X12: the closing marker needs an answer.  When no event has content
    without reasoning (the stream ends in the reasoning, or every answer
    shares its delta with reasoning), the closing marker is never yielded,
    whatever the finish reason. *)
Theorem no_answer_no_closing_marker (body : dict) (lines : list str) :
  forall (st : Z) (k : nat),
    forallb answer_free (events lines) = true ->
    count_site CloseMarker (yielded (stream_loop body st lines k)) = 0%nat.
Proof.
  induction lines as [|line lines IH]; intros st k Hfree; [reflexivity|].
  rewrite events_cons in Hfree.
  assert (Hline : is_data_line line = true ->
                  answer_free (json_loads (skipn 6 line)) = true).
  { intros Hd. rewrite Hd in Hfree. cbn [forallb] in Hfree.
    apply andb_true_iff in Hfree. tauto. }
  assert (Hrest : forallb answer_free (events lines) = true).
  { destruct (is_data_line line); [|exact Hfree].
    cbn [forallb] in Hfree. apply andb_true_iff in Hfree. tauto. }
  rewrite stream_loop_cons. cbv zeta.
  pose proof (iteration_answer_free body st line k Hline) as Hit.
  destruct (result (iteration body st line k)) as [[st1|]|e];
    cbn [yielded ticks result]; try exact Hit.
  rewrite count_site_app, Hit, (IH st1 _ Hrest). reflexivity.
Qed.

(** ** More on the buffered path *)

(** X13: a choice whose message has reasoning and content gets the content
    "<think>", the reasoning, "</think>", a line feed and the old content, as
    an f-string formats them; the reasoning may be null or empty, only the
    key counts.  Nothing else of the message or of the choice changes. *)
Theorem reasoning_is_wrapped (c m : dict) (r t : json) :
  dict_get (lit "message") c = Some (JDict m) ->
  dict_get (lit "reasoning") m = Some r ->
  dict_get (lit "content") m = Some t ->
  exists c' m',
    reshape_choice (JDict c) = Ok (JDict c')
    /\ dict_get (lit "message") c' = Some (JDict m')
    /\ dict_get (lit "content") m'
       = Some (JStr (lit "<think>" ++ py_str r ++ lit "</think>" ++ [LF] ++ py_str t))
    /\ (forall key, str_eqb key (lit "content") = false ->
                    dict_get key m' = dict_get key m)
    /\ (forall key, str_eqb key (lit "message") = false ->
                    dict_get key c' = dict_get key c).
Proof.
  intros Hm Hr Ht.
  unfold reshape_choice, py_contains, py_getitem, py_setitem, dict_mem.
  rewrite Hm. cbn [obind]. rewrite Hr. cbn [obind]. rewrite Ht. cbn [obind].
  eexists _, _. split; [reflexivity|].
  split; [apply dict_get_set_same|]. split; [apply dict_get_set_same|].
  split; intros key Hkey; apply dict_get_set_other, Hkey.
Qed.

Lemma reshape_choice_unchanged (choice : json) :
  without_reasoning choice -> reshape_choice choice = Ok choice.
Proof.
  intros (c & -> & [Hno|(m & Hm & Hr)]);
    unfold reshape_choice, py_contains, py_getitem, dict_mem.
  - rewrite Hno. reflexivity.
  - rewrite Hm. cbn [obind]. rewrite Hr. reflexivity.
Qed.

Lemma for_each_unchanged {A : Type} (f : A -> outcome A) (l : list A) :
  Forall (fun x => f x = Ok x) l -> for_each f l = Ok l.
Proof.
  induction 1 as [|x l Hx _ IH]; cbn [for_each]; [reflexivity|].
  rewrite Hx, IH. reflexivity.
Qed.

(** Setting a key to the value it has changes nothing. *)
Lemma dict_set_same_value (k : str) (v : json) (d : dict) :
  dict_get k d = Some v -> dict_set k v d = d.
Proof.
  induction d as [|[k0 v0] d IH]; cbn; [discriminate|].
  destruct (str_eqb k k0).
  - intros [= ->]. reflexivity.
  - intros H. rewrite (IH H). reflexivity.
Qed.

(** X14: a buffered response in which no choice has reasoning (or that has
    no choices at all) is returned as it came. *)
Theorem response_without_reasoning_is_unchanged
  (body hdrs : dict) (resp : response) (d : dict) :
  transport (Request chat_completions hdrs body false) = Ok resp ->
  raise_for_status resp = Ok tt ->
  response_json resp = Ok (JDict d) ->
  dict_get (lit "choices") d = None
  \/ (exists l, dict_get (lit "choices") d = Some (JList l) /\ Forall without_reasoning l) ->
  _handle_normal_request body hdrs = Ok (JDict d).
Proof.
  intros Hresp Hstatus Hjson Hchoices. unfold _handle_normal_request.
  rewrite Hresp. cbn [obind]. rewrite Hstatus. cbn [obind]. rewrite Hjson.
  cbn [obind py_contains]. unfold dict_mem.
  destruct Hchoices as [Hno|(l & Hl & Hall)].
  - rewrite Hno. reflexivity.
  - rewrite Hl. cbn [obind py_getitem]. rewrite Hl. cbn [obind py_iter].
    rewrite (for_each_unchanged reshape_choice l).
    + cbn [obind py_setitem]. rewrite (dict_set_same_value _ _ _ Hl). reflexivity.
    + eapply Forall_impl; [|exact Hall]. apply reshape_choice_unchanged.
Qed.

(** X15: a first choice whose message has reasoning and no content key
    makes the f-string raise [KeyError]: the whole buffered response is
    lost. *)
Theorem reasoning_without_content_raises
  (body hdrs : dict) (resp : response) (d c m : dict) (r : json) (rest : list json) :
  transport (Request chat_completions hdrs body false) = Ok resp ->
  raise_for_status resp = Ok tt ->
  response_json resp = Ok (JDict d) ->
  dict_get (lit "choices") d = Some (JList (JDict c :: rest)) ->
  dict_get (lit "message") c = Some (JDict m) ->
  dict_get (lit "reasoning") m = Some r ->
  dict_get (lit "content") m = None ->
  _handle_normal_request body hdrs = Raise KeyError.
Proof.
  intros Hresp Hstatus Hjson Hchoices Hm Hr Hno. unfold _handle_normal_request.
  rewrite Hresp. cbn [obind]. rewrite Hstatus. cbn [obind]. rewrite Hjson.
  cbn [obind py_contains]. unfold dict_mem. rewrite Hchoices.
  cbn [obind py_getitem]. rewrite Hchoices. cbn [obind py_iter for_each].
  unfold reshape_choice, py_contains, py_getitem, dict_mem.
  rewrite Hm. cbn [obind]. rewrite Hr. cbn [obind]. rewrite Hno. reflexivity.
Qed.

(** ** More on [pipe] *)

(** X16: what [pipe] returns.  A model that is there and is not a string
    makes it raise [AttributeError], before the [try]; otherwise it returns
    the generator of the streaming handler when the request's [stream] is
    taken as true by Python, and the coroutine of the buffered handler when
    it is not (or is missing), both on the normalized request. *)
Theorem pipe_dispatch (body : dict) :
  (forall v,
      dict_get (lit "model") body = Some v ->
      (forall m, v <> JStr m) ->
      pipe body = Raise AttributeError)
  /\ (dict_get (lit "model") body = None
      \/ (exists m, dict_get (lit "model") body = Some (JStr m)) ->
      exists mb,
        modified_body body = Ok mb
        /\ pipe body
           = Ok (if truthy (dict_get_default (lit "stream") (JBool false) body)
                 then AsyncGenerator (_handle_streaming_request mb headers)
                 else Coroutine (_handle_normal_request mb headers))).
Proof.
  split.
  - intros v Hv Hnot. unfold pipe, modified_body, dict_mem, dict_get_default.
    rewrite Hv. destruct v; try reflexivity. exfalso. eapply Hnot. reflexivity.
  - intros Hmodel.
    assert (Hmb : exists mb, modified_body body = Ok mb).
    { unfold modified_body, dict_mem, dict_get_default.
      destruct Hmodel as [->|[m ->]]; cbn [as_str obind]; eauto. }
    destruct Hmb as [mb Hmb]. exists mb. split; [exact Hmb|].
    unfold pipe. rewrite Hmb. cbn [obind].
    destruct (truthy (dict_get_default (lit "stream") (JBool false) body)); reflexivity.
Qed.

Lemma modified_body_routed (body : dict) (function_id m : str) :
  ~ In 46%N function_id ->
  dict_get (lit "model") body = Some (JStr (function_id ++ 46%N :: lit "reasoning/" ++ m)) ->
  exists mb, modified_body body = Ok mb /\ dict_get (lit "model") mb = Some (JStr m).
Proof.
  intros Hdot Hmodel. unfold modified_body, dict_mem, dict_get_default.
  rewrite Hmodel. cbn [as_str obind]. eexists. split; [reflexivity|].
  rewrite dict_get_set_other by reflexivity.
  rewrite dict_get_set_same, (split_1_first_sep _ _ _ Hdot).
  unfold last_part. cbn [last]. rewrite replace_1_prefix. reflexivity.
Qed.

Lemma pipes_entries (p : dict) :
  In p pipes ->
  exists m,
    p = [ (lit "id", JStr (lit "reasoning/" ++ m));
          (lit "name", JStr (lit "reasoning/" ++ m)) ].
Proof.
  unfold pipes. cbn [map]. intros [<-|[<-|[<-|[<-|[]]]]]; eexists; reflexivity.
Qed.

(** X17: [pipes] and [pipe] fit together.  For every model that [pipes]
    lists, under the identifier that the host makes of it (the identifier of
    the function, which has no [.], then a [.], then the listed id), the
    normalized request names the model that the listed id and name prefix
    with [reasoning/]. *)
Theorem listed_models_round_trip (p body : dict) (function_id i : str) :
  In p pipes ->
  dict_get (lit "id") p = Some (JStr i) ->
  ~ In 46%N function_id ->
  dict_get (lit "model") body = Some (JStr (function_id ++ 46%N :: i)) ->
  exists mb m,
    modified_body body = Ok mb
    /\ dict_get (lit "model") mb = Some (JStr m)
    /\ i = lit "reasoning/" ++ m
    /\ dict_get (lit "name") p = Some (JStr i).
Proof.
  intros Hp Hid Hdot Hmodel.
  destruct (pipes_entries p Hp) as (m & ->).
  change (dict_get (lit "id")
            [ (lit "id", JStr (lit "reasoning/" ++ m));
              (lit "name", JStr (lit "reasoning/" ++ m)) ])
    with (Some (JStr (lit "reasoning/" ++ m))) in Hid.
  injection Hid as <-.
  destruct (modified_body_routed body function_id m Hdot Hmodel) as (mb & Hmb & Hm).
  exists mb, m. repeat split; assumption.
Qed.

Lemma map_fst_dict_set (k : str) (v : json) (d : dict) :
  map fst (dict_set k v d) = if dict_mem k d then map fst d else map fst d ++ [k].
Proof.
  unfold dict_mem. induction d as [|[k0 v0] d IH]; cbn; [reflexivity|].
  destruct (str_eqb k k0); cbn; [reflexivity|].
  rewrite IH. destruct (dict_get k d); reflexivity.
Qed.

(** X18: the request sent upstream has the keys of the inbound request in
    their order; [include_reasoning] keeps its place when the request had
    it, and comes last when it had not. *)
Theorem request_keys_keep_their_order (body mb : dict) :
  modified_body body = Ok mb ->
  map fst mb
  = map fst body
    ++ (if dict_mem (lit "include_reasoning") body then []
        else [lit "include_reasoning"]).
Proof.
  unfold modified_body.
  destruct (dict_mem (lit "model") body) eqn:Hmem.
  - destruct (as_str (dict_get_default (lit "model") JNull body)) as [m|e];
      cbn [obind]; [|discriminate].
    intros [= <-]. rewrite !map_fst_dict_set, Hmem.
    unfold dict_mem at 1. rewrite dict_get_set_other by reflexivity.
    fold (dict_mem (lit "include_reasoning") body).
    destruct (dict_mem (lit "include_reasoning") body);
      [rewrite app_nil_r|]; reflexivity.
  - cbn [obind]. intros [= <-]. rewrite map_fst_dict_set.
    destruct (dict_mem (lit "include_reasoning") body);
      [rewrite app_nil_r|]; reflexivity.
Qed.

End Pipe.

(** ** The codec *)

Ltac Zify.zify_post_hook ::= Z.to_euclidean_division_equations.

(** *** Strings *)

Lemma hex_value_hex_char (d : N) : (d < 16)%N -> hex_value (hex_char d) = Ok d.
Proof.
  intros H.
  assert (Hd : In d [0; 1; 2; 3; 4; 5; 6; 7; 8; 9; 10; 11; 12; 13; 14; 15]%N).
  { cbn. lia. }
  cbn in Hd. repeat (destruct Hd as [<-|Hd]; [reflexivity|]). destruct Hd.
Qed.

Lemma hex4_u_escape (c : N) :
  (c < 65536)%N ->
  hex4 (hex_char ((c / 4096) mod 16)) (hex_char ((c / 256) mod 16))
       (hex_char ((c / 16) mod 16)) (hex_char (c mod 16)) = Ok c.
Proof.
  intros H. unfold hex4.
  rewrite !hex_value_hex_char by lia. cbn [obind]. f_equal. lia.
Qed.

Lemma is_high_surrogate_spec (c : N) :
  is_high_surrogate c = true <-> (55296 <= c <= 56319)%N.
Proof. unfold is_high_surrogate. rewrite andb_true_iff, !N.leb_le. tauto. Qed.

Lemma is_low_surrogate_spec (c : N) :
  is_low_surrogate c = true <-> (56320 <= c <= 57343)%N.
Proof. unfold is_low_surrogate. rewrite andb_true_iff, !N.leb_le. tauto. Qed.

Lemma scanstring_plain (c : N) (tail : str) :
  N.eqb c 34 = false -> N.eqb c 92 = false -> (c <=? 31)%N = false ->
  scanstring (c :: tail) = cons_char c (scanstring tail).
Proof. intros H1 H2 H3. cbn [scanstring]. rewrite H1, H2, H3. reflexivity. Qed.

Lemma scanstring_simple (e c' : N) (tail : str) :
  N.eqb e 117 = false -> backslash e = Ok c' ->
  scanstring (92%N :: e :: tail) = cons_char c' (scanstring tail).
Proof.
  intros H1 H2. cbn [scanstring]. cbn [N.eqb Pos.eqb]. rewrite H1, H2. reflexivity.
Qed.

(** An escape that is not the first half of a pair. *)
Lemma scanstring_u_single (h1 h2 h3 h4 y : N) (t : str) (c1 : N) :
  hex4 h1 h2 h3 h4 = Ok c1 ->
  (is_high_surrogate c1 = true ->
   forall g1 g2 g3 g4 t',
     y :: t = 92%N :: 117%N :: g1 :: g2 :: g3 :: g4 :: t' ->
     exists c2, hex4 g1 g2 g3 g4 = Ok c2 /\ is_low_surrogate c2 = false) ->
  scanstring (92%N :: 117%N :: h1 :: h2 :: h3 :: h4 :: y :: t)
  = cons_char c1 (scanstring (y :: t)).
Proof.
  intros Hh Hnext. cbn [scanstring]. cbn [N.eqb Pos.eqb]. rewrite Hh.
  destruct t as [|u [|g1 [|g2 [|g3 [|g4 [|y' t']]]]]]; try reflexivity.
  destruct (is_high_surrogate c1) eqn:Hhigh; cbn [andb]; [|reflexivity].
  destruct (N.eqb_spec y 92) as [->|]; cbn [andb]; [|reflexivity].
  destruct (N.eqb_spec u 117) as [->|]; cbn [andb]; [|reflexivity].
  destruct (Hnext eq_refl g1 g2 g3 g4 (y' :: t') eq_refl) as (c2 & -> & ->).
  reflexivity.
Qed.

(** The two escapes of a code point beyond [0xFFFF]. *)
Lemma scanstring_u_pair (h1 h2 h3 h4 g1 g2 g3 g4 y : N) (t : str) (c1 c2 : N) :
  hex4 h1 h2 h3 h4 = Ok c1 -> is_high_surrogate c1 = true ->
  hex4 g1 g2 g3 g4 = Ok c2 -> is_low_surrogate c2 = true ->
  scanstring (92%N :: 117%N :: h1 :: h2 :: h3 :: h4
              :: 92%N :: 117%N :: g1 :: g2 :: g3 :: g4 :: y :: t)
  = cons_char (join_surrogates c1 c2) (scanstring (y :: t)).
Proof.
  intros Hh Hhigh Hg Hlow. cbn [scanstring]. cbn [N.eqb Pos.eqb].
  rewrite Hh, Hhigh. cbn [andb]. rewrite Hg, Hlow. reflexivity.
Qed.

Lemma text_ok_cons (c : N) (s : str) :
  text_ok (c :: s) = true ->
  (c < 1114112)%N
  /\ (is_high_surrogate c = true ->
      match s with
      | c' :: _ => is_low_surrogate c' = false
      | [] => True
      end)
  /\ text_ok s = true.
Proof.
  cbn [text_ok]. rewrite !andb_true_iff, negb_true_iff, N.ltb_lt.
  intros [[Hc Hpair] Hs]. repeat split; try assumption.
  intros Hhigh. rewrite Hhigh in Hpair. destruct s; [exact I | exact Hpair].
Qed.

(** The ways a code point is written. *)
Lemma escape_char_cases (c : N) :
  (c < 1114112)%N ->
  (exists e, escape_char c = [92%N; e] /\ N.eqb e 117 = false /\ backslash e = Ok c)
  \/ (escape_char c = [c] /\ N.eqb c 34 = false /\ N.eqb c 92 = false
      /\ (c <=? 31)%N = false)
  \/ (escape_char c = u_escape c /\ (c < 65536)%N)
  \/ (escape_char c
      = u_escape (55296 + (c - 65536) / 1024) ++ u_escape (56320 + (c - 65536) mod 1024)
      /\ (65536 <= c)%N).
Proof.
  intros Hc. unfold escape_char.
  destruct (N.eqb_spec c 34) as [->|N34]; [left; exists 34%N; repeat split|].
  destruct (N.eqb_spec c 92) as [->|N92]; [left; exists 92%N; repeat split|].
  destruct (N.eqb_spec c 10) as [->|N10]; [left; exists 110%N; repeat split|].
  destruct (N.eqb_spec c 13) as [->|N13]; [left; exists 114%N; repeat split|].
  destruct (N.eqb_spec c 9) as [->|N9]; [left; exists 116%N; repeat split|].
  destruct (N.eqb_spec c 12) as [->|N12]; [left; exists 102%N; repeat split|].
  destruct (N.eqb_spec c 8) as [->|N8]; [left; exists 98%N; repeat split|].
  destruct (N.leb_spec 32 c) as [H32|H32]; cbn [andb].
  - destruct (N.leb_spec c 126) as [H126|H126].
    + right; left.
      repeat (split; [reflexivity|]).
      apply N.leb_gt. lia.
    + destruct (N.ltb_spec c 65536); [right; right; left | right; right; right];
        split; auto.
  - destruct (N.ltb_spec c 65536); [right; right; left; split; auto | lia].
Qed.

(** What follows an escaped high surrogate is not an escaped low one. *)
Lemma escaped_head (s : str) (rest : str) (g1 g2 g3 g4 : N) (t : str) :
  text_ok s = true ->
  flat_map escape_char s ++ 34%N :: rest = 92%N :: 117%N :: g1 :: g2 :: g3 :: g4 :: t ->
  exists c2,
    hex4 g1 g2 g3 g4 = Ok c2
    /\ (is_low_surrogate c2 = true ->
        match s with
        | c' :: _ => is_low_surrogate c' = true
        | [] => False
        end).
Proof.
  intros Hok Heq. destruct s as [|c s]; [discriminate|].
  destruct (text_ok_cons _ _ Hok) as (Hc & _ & _).
  cbn [flat_map] in Heq. rewrite <- app_assoc in Heq.
  destruct (escape_char_cases c Hc)
    as [(e & He & Hne & _) | [(He & _ & N92 & _) | [(He & Hlt) | (He & Hge)]]];
    rewrite He in Heq.
  - cbn [app] in Heq. injection Heq as E _. subst e. discriminate.
  - cbn [app] in Heq. injection Heq as E _. subst c. discriminate.
  - unfold u_escape in Heq. cbn [app] in Heq.
    injection Heq as E1 E2 E3 E4 _. subst g1 g2 g3 g4.
    exists c. split; [apply hex4_u_escape, Hlt | auto].
  - remember (55296 + (c - 65536) / 1024)%N as high eqn:Ehigh.
    remember (56320 + (c - 65536) mod 1024)%N as low eqn:Elow.
    unfold u_escape in Heq. cbn [app] in Heq.
    injection Heq as E1 E2 E3 E4 _. subst g1 g2 g3 g4.
    exists high. split; [apply hex4_u_escape; lia|].
    intros Hlow. apply is_low_surrogate_spec in Hlow. lia.
Qed.

Lemma escaped_nonempty (s rest : str) :
  exists y t, flat_map escape_char s ++ 34%N :: rest = y :: t.
Proof. destruct (flat_map escape_char s); cbn; eauto. Qed.

(** What [scanstring] reads back from an escaped text is the text. *)
Lemma scanstring_escaped (s : str) :
  forall rest,
    text_ok s = true ->
    scanstring (flat_map escape_char s ++ 34%N :: rest) = Ok (s, rest).
Proof.
  induction s as [|c s IH]; intros rest Hok; [reflexivity|].
  destruct (text_ok_cons _ _ Hok) as (Hc & Hpair & Hs).
  specialize (IH rest Hs).
  cbn [flat_map]. rewrite <- app_assoc.
  destruct (escaped_nonempty s rest) as (y & t & Htail).
  destruct (escape_char_cases c Hc)
    as [(e & He & Hne & Hback) | [(He & N34 & N92 & N31) | [(He & Hlt) | (He & Hge)]]];
    rewrite He.
  - cbn [app]. rewrite (scanstring_simple _ _ _ Hne Hback), IH. reflexivity.
  - cbn [app]. rewrite (scanstring_plain _ _ N34 N92 N31), IH. reflexivity.
  - unfold u_escape. cbn [app]. rewrite Htail.
    rewrite (scanstring_u_single _ _ _ _ _ _ c (hex4_u_escape c Hlt)).
    + rewrite <- Htail, IH. reflexivity.
    + intros Hhigh g1 g2 g3 g4 t' Heq. rewrite <- Htail in Heq.
      destruct (escaped_head s rest g1 g2 g3 g4 t' Hs Heq) as (c2 & Hc2 & Hlow).
      exists c2. split; [exact Hc2|].
      destruct (is_low_surrogate c2); [|reflexivity].
      specialize (Hlow eq_refl). specialize (Hpair Hhigh).
      destruct s; [destruct Hlow | congruence].
  - unfold u_escape. cbn [app]. rewrite Htail.
    rewrite (scanstring_u_pair _ _ _ _ _ _ _ _ _ _
               (55296 + (c - 65536) / 1024) (56320 + (c - 65536) mod 1024)).
    + rewrite <- Htail, IH. unfold join_surrogates. cbn [cons_char].
      replace (65536 + ((55296 + (c - 65536) / 1024) mod 1024 * 1024
                        + (56320 + (c - 65536) mod 1024) mod 1024))%N
        with c by lia.
      reflexivity.
    + apply hex4_u_escape. lia.
    + apply is_high_surrogate_spec. lia.
    + apply hex4_u_escape. lia.
    + apply is_low_surrogate_spec. lia.
Qed.

(** *** Integers *)

Lemma is_digit_spec (c : N) : is_digit c = true <-> (48 <= c <= 57)%N.
Proof. unfold is_digit. rewrite andb_true_iff, !N.leb_le. tauto. Qed.

Lemma uint_digits_are_digits (d : Decimal.uint) :
  forallb is_digit (uint_digits d) = true.
Proof. induction d; cbn; auto. Qed.

Lemma digits_uint_uint_digits (d : Decimal.uint) : digits_uint (uint_digits d) = d.
Proof. induction d; cbn; congruence. Qed.

Lemma span_digits_app (ds rest : str) :
  forallb is_digit ds = true ->
  match rest with
  | [] => True
  | c :: _ => is_digit c = false
  end ->
  span_digits (ds ++ rest) = (ds, rest).
Proof.
  intros Hds Hrest. induction ds as [|c ds IH]; cbn [app].
  - destruct rest as [|c rest]; [reflexivity|]. cbn. rewrite Hrest. reflexivity.
  - cbn in Hds. apply andb_true_iff in Hds. destruct Hds as [Hc Hds].
    cbn. rewrite Hc, (IH Hds). reflexivity.
Qed.

(** The digits of a positive number do not start with [0]. *)
Lemma pos_digits_head (p : positive) :
  exists c ds,
    uint_digits (Pos.to_uint p) = c :: ds /\ (49 <= c <= 57)%N.
Proof.
  pose proof (DecimalPos.Unsigned.to_of (Pos.to_uint p)) as Hnorm.
  rewrite DecimalPos.Unsigned.of_to in Hnorm. cbn [N.to_uint] in Hnorm.
  pose proof (DecimalPos.Unsigned.to_uint_nonzero p) as Hnz.
  destruct (Pos.to_uint p) as [|d|d|d|d|d|d|d|d|d|d] eqn:E;
    try (eexists; eexists; split; [reflexivity | lia]).
  - discriminate.
  - exfalso. unfold Decimal.unorm in Hnorm. cbn [Decimal.nzhead] in Hnorm.
    destruct (Decimal.nzhead d) eqn:Ed;
      apply (DecimalFacts.nzhead_nonzero d d); congruence.
Qed.

Lemma closes_spec (rest : str) :
  closes rest = true ->
  match rest with
  | [] => True
  | c :: _ => c = 44%N \/ c = 93%N \/ c = 125%N \/ c = 32%N \/ c = 9%N \/ c = 10%N \/ c = 13%N
  end.
Proof.
  destruct rest as [|c rest]; [auto|]. unfold closes, is_ws.
  rewrite !orb_true_iff, !N.eqb_eq. tauto.
Qed.

(** After digits that make an integer literal, before something that ends
    a value, [match_number] reads that integer. *)
Lemma match_number_digits (fl : str -> float) (negative : bool) (c : N) (ds rest : str) :
  forallb is_digit ds = true ->
  (49 <= c <= 57)%N \/ (c = 48%N /\ ds = []) ->
  closes rest = true ->
  match_number fl ((if negative then [45%N] else []) ++ c :: ds ++ rest)
  = Ok (JInt (int_of_literal negative (c :: ds)), rest).
Proof.
  intros Hds Hc Hrest. apply closes_spec in Hrest.
  assert (Hsign : number_sign ((if negative then [45%N] else []) ++ c :: ds ++ rest)
                  = (negative, c :: ds ++ rest)).
  { destruct negative; cbn [app]; [reflexivity|]. unfold number_sign.
    destruct (N.eqb_spec c 45); [lia | reflexivity]. }
  assert (Hint : number_int_part (c :: ds ++ rest) = Ok (c :: ds, rest)).
  { unfold number_int_part. destruct Hc as [Hc|[-> ->]]; [|reflexivity].
    replace ((49 <=? c)%N && (c <=? 57)%N) with true
      by (symmetry; apply andb_true_iff; rewrite !N.leb_le; lia).
    rewrite span_digits_app; [reflexivity | exact Hds |].
    destruct rest as [|r rest]; [exact I|].
    destruct (is_digit r) eqn:Hr; [|reflexivity].
    apply is_digit_spec in Hr. lia. }
  assert (Hfrac : number_frac rest = ([], rest)).
  { unfold number_frac. destruct rest as [|r0 [|r1 rest]]; try reflexivity.
    destruct (N.eqb_spec r0 46) as [->|_]; [lia | reflexivity]. }
  assert (Hexp : number_exponent rest = ([], rest)).
  { unfold number_exponent. destruct rest as [|r0 [|r1 rest]]; try reflexivity.
    destruct (N.eqb_spec r0 101) as [->|_]; [lia|].
    destruct (N.eqb_spec r0 69) as [->|_]; [lia | reflexivity]. }
  unfold match_number. rewrite Hsign, Hint. cbn [obind]. rewrite Hfrac, Hexp.
  reflexivity.
Qed.

Lemma match_number_int_repr (fl : str -> float) (n : Z) (rest : str) :
  closes rest = true ->
  match_number fl (int_repr n ++ rest) = Ok (JInt n, rest).
Proof.
  intros Hrest. unfold int_repr.
  rewrite <- (DecimalZ.of_to n) at 2.
  destruct n as [|p|p]; cbn [Z.to_int].
  - apply (match_number_digits fl false 48 [] rest); auto.
  - destruct (pos_digits_head p) as (c & ds & E & Hc).
    pose proof (uint_digits_are_digits (Pos.to_uint p)) as Hds.
    pose proof (digits_uint_uint_digits (Pos.to_uint p)) as Hback.
    rewrite E in Hds, Hback |- *. cbn [forallb] in Hds. apply andb_true_iff in Hds.
    pose proof (match_number_digits fl false c ds rest (proj2 Hds) (or_introl Hc) Hrest)
      as H.
    cbn [app] in H |- *. rewrite H.
    unfold int_of_literal. rewrite Hback. reflexivity.
  - destruct (pos_digits_head p) as (c & ds & E & Hc).
    pose proof (uint_digits_are_digits (Pos.to_uint p)) as Hds.
    pose proof (digits_uint_uint_digits (Pos.to_uint p)) as Hback.
    rewrite E in Hds, Hback |- *. cbn [forallb] in Hds. apply andb_true_iff in Hds.
    pose proof (match_number_digits fl true c ds rest (proj2 Hds) (or_introl Hc) Hrest)
      as H.
    cbn [app] in H |- *. rewrite H.
    unfold int_of_literal. rewrite Hback. reflexivity.
Qed.

(** *** Values *)

Lemma json_induction (P : json -> Prop) :
  P JNull ->
  (forall b, P (JBool b)) ->
  (forall n, P (JInt n)) ->
  (forall f, P (JFloat f)) ->
  (forall s, P (JStr s)) ->
  (forall l, Forall P l -> P (JList l)) ->
  (forall d, Forall (fun kv => P (snd kv)) d -> P (JDict d)) ->
  forall v, P v.
Proof.
  intros Hnull Hbool Hint Hfloat Hstr Hlist Hdict.
  fix F 1. intros [|b|n|f|s|l|d].
  - exact Hnull.
  - apply Hbool.
  - apply Hint.
  - apply Hfloat.
  - apply Hstr.
  - apply Hlist. induction l as [|x l IH]; constructor; [apply F | exact IH].
  - apply Hdict. induction d as [|[k x] d IH]; constructor; [apply F | exact IH].
Qed.

(** The characters a printed value can start with. *)
Lemma value_start_facts (c : N) :
  c = 34%N \/ c = 91%N \/ c = 123%N \/ c = 110%N \/ c = 116%N \/ c = 102%N
  \/ c = 45%N \/ (48 <= c <= 57)%N ->
  is_ws c = false /\ N.eqb c 93 = false /\ N.eqb c 125 = false
  /\ N.eqb c 65279 = false.
Proof.
  intros H. unfold is_ws.
  repeat match goal with
         | |- context [N.eqb c ?k] => destruct (N.eqb_spec c k); [exfalso; lia|]
         end.
  auto.
Qed.

Lemma startswith_head (c p : N) (t ps : str) :
  N.eqb c p = false -> startswith (c :: t) (p :: ps) = false.
Proof. intros H. cbn. rewrite H. reflexivity. Qed.

Lemma startswith_second (c0 c1 p0 p1 : N) (t ps : str) :
  N.eqb c1 p1 = false -> startswith (c0 :: c1 :: t) (p0 :: p1 :: ps) = false.
Proof. intros H. cbn. rewrite H. apply andb_false_r. Qed.

Section Codec_facts.

Variable float_repr : float -> str.
Variable float_of_literal : str -> float.

Lemma int_repr_head (n : Z) :
  exists c t,
    int_repr n = c :: t
    /\ ((48 <= c <= 57)%N
        \/ (c = 45%N /\ exists c1 t', t = c1 :: t' /\ (48 <= c1 <= 57)%N)).
Proof.
  unfold int_repr. destruct n as [|p|p]; cbn [Z.to_int].
  - exists 48%N, []. split; [reflexivity | lia].
  - destruct (pos_digits_head p) as (c & ds & -> & Hc).
    exists c, ds. split; [reflexivity | lia].
  - destruct (pos_digits_head p) as (c & ds & -> & Hc).
    exists 45%N, (c :: ds). split; [reflexivity|]. right. split; [reflexivity|].
    exists c, ds. split; [reflexivity | lia].
Qed.

Lemma dumps_head (v : json) :
  plain v = true ->
  exists c t,
    dumps float_repr v = c :: t
    /\ (c = 34%N \/ c = 91%N \/ c = 123%N \/ c = 110%N \/ c = 116%N \/ c = 102%N
        \/ c = 45%N \/ (48 <= c <= 57)%N).
Proof.
  destruct v as [|[|]|n|f|s|l|d]; intros Hplain; try discriminate;
    try (eexists; eexists; split; [reflexivity | tauto]).
  destruct (int_repr_head n) as (c & t & E & H).
  exists c, t. split; [exact E|].
  destruct H as [H|[-> _]]; [do 7 right; exact H | do 6 right; left; reflexivity].
Qed.

(** A number is not mistaken for anything else. *)
Lemma scan_once_number (fuel : nat) (c : N) (t : str) :
  (48 <= c <= 57)%N
  \/ (c = 45%N /\ exists c1 t', t = c1 :: t' /\ (48 <= c1 <= 57)%N) ->
  scan_once float_of_literal (S fuel) (c :: t) = match_number float_of_literal (c :: t).
Proof.
  intros H. cbn [scan_once].
  destruct (N.eqb_spec c 34); [exfalso; lia|].
  destruct (N.eqb_spec c 123); [exfalso; lia|].
  destruct (N.eqb_spec c 91); [exfalso; lia|].
  change (lit "null") with [110; 117; 108; 108]%N.
  change (lit "true") with [116; 114; 117; 101]%N.
  change (lit "false") with [102; 97; 108; 115; 101]%N.
  change (lit "NaN") with [78; 97; 78]%N.
  change (lit "Infinity") with [73; 110; 102; 105; 110; 105; 116; 121]%N.
  change (lit "-Infinity") with [45; 73; 110; 102; 105; 110; 105; 116; 121]%N.
  rewrite (startswith_head c 110 t [117; 108; 108]%N)
    by (apply N.eqb_neq; lia).
  rewrite (startswith_head c 116 t [114; 117; 101]%N)
    by (apply N.eqb_neq; lia).
  rewrite (startswith_head c 102 t [97; 108; 115; 101]%N)
    by (apply N.eqb_neq; lia).
  rewrite (startswith_head c 78 t [97; 78]%N)
    by (apply N.eqb_neq; lia).
  rewrite (startswith_head c 73 t [110; 102; 105; 110; 105; 116; 121]%N)
    by (apply N.eqb_neq; lia).
  destruct H as [H|(-> & c1 & t' & -> & H)].
  - rewrite (startswith_head c 45 t [73; 110; 102; 105; 110; 105; 116; 121]%N)
      by (apply N.eqb_neq; lia).
    reflexivity.
  - rewrite (startswith_second 45 c1 45 73 t' [110; 102; 105; 110; 105; 116; 121]%N)
      by (apply N.eqb_neq; lia).
    reflexivity.
Qed.

Lemma scan_once_int (fuel : nat) (n : Z) (rest : str) :
  closes rest = true ->
  scan_once float_of_literal (S fuel) (int_repr n ++ rest) = Ok (JInt n, rest).
Proof.
  intros Hrest. rewrite <- (match_number_int_repr float_of_literal n rest Hrest).
  destruct (int_repr_head n) as (c & t & -> & H). cbn [app].
  apply scan_once_number.
  destruct H as [H|(-> & c1 & t' & -> & H)]; [left; exact H|].
  right. split; [reflexivity|]. exists c1, (t' ++ rest). split; [reflexivity | exact H].
Qed.

Lemma skip_ws_head (c : N) (t : str) : is_ws c = false -> skip_ws (c :: t) = c :: t.
Proof. intros H. cbn. rewrite H. reflexivity. Qed.

Lemma skip_ws_all (ws : str) : forallb is_ws ws = true -> skip_ws ws = [].
Proof.
  induction ws as [|c ws IH]; [reflexivity|].
  cbn. intros H. apply andb_true_iff in H. destruct H as [-> H]. exact (IH H).
Qed.

Lemma join_cons2 (sep a b : str) (l : list str) :
  join sep (a :: b :: l) = a ++ sep ++ join sep (b :: l).
Proof. reflexivity. Qed.

Lemma join_head (sep a : str) (l : list str) (c : N) (t : str) :
  a = c :: t -> exists t', join sep (a :: l) = c :: t'.
Proof. intros ->. destruct l; cbn; eauto. Qed.

Lemma length_join_head (sep a : str) (l : list str) :
  (List.length a <= List.length (join sep (a :: l)))%nat.
Proof. destruct l; cbn [join]; rewrite ?length_app; lia. Qed.

Lemma dict_get_app (k : str) (a b : dict) :
  dict_get k (a ++ b)
  = match dict_get k a with
    | Some v => Some v
    | None => dict_get k b
    end.
Proof.
  induction a as [|[k0 v0] a IH]; cbn; [reflexivity|].
  destruct (str_eqb k k0); [reflexivity | exact IH].
Qed.

(** A key that is not there yet goes to the end. *)
Lemma dict_set_fresh (k : str) (v : json) (d : dict) :
  dict_get k d = None -> dict_set k v d = d ++ [(k, v)].
Proof.
  induction d as [|[k0 v0] d IH]; cbn; [reflexivity|].
  destruct (str_eqb k k0); [discriminate|]. intros H. rewrite (IH H). reflexivity.
Qed.

(** The elements of a list, from the first one to the closing bracket. *)
Lemma array_loop_elements (l : list json) :
  l <> [] ->
  Forall (fun x => plain x = true -> reads_back float_repr float_of_literal x) l ->
  forallb plain l = true ->
  forall (fuel : nat) (acc : list json) (rest : str),
    (S (List.length (join (lit ", ") (map (dumps float_repr) l))) <= fuel)%nat ->
    array_loop float_of_literal fuel
      (join (lit ", ") (map (dumps float_repr) l) ++ 93%N :: rest) acc
    = Ok (JList (acc ++ l), rest).
Proof.
  induction l as [|x l IH]; intros Hne Hall Hplain fuel acc rest Hfuel;
    [contradiction|].
  inversion Hall as [|? ? Hx Hl]; subst.
  cbn [forallb] in Hplain. apply andb_true_iff in Hplain.
  destruct Hplain as [Hpx Hpl]. specialize (Hx Hpx).
  destruct fuel as [|fuel]; [lia|].
  pose proof (length_join_head (lit ", ") (dumps float_repr x) (map (dumps float_repr) l))
    as Hlen.
  cbn [map] in Hfuel, Hlen |- *. cbn [array_loop].
  destruct l as [|y l].
  - cbn [map join].
    rewrite (Hx fuel (93%N :: rest)) by (cbn [map join] in Hfuel; first [lia | reflexivity]).
    cbn [obind fst snd]. rewrite skip_ws_head by reflexivity.
    rewrite N.eqb_refl. reflexivity.
  - cbn [map]. rewrite join_cons2. rewrite <- !app_assoc.
    change (lit ", " ++ ?X) with (44%N :: 32%N :: X).
    rewrite (Hx fuel) by first [lia | reflexivity].
    cbn [obind fst snd]. rewrite skip_ws_head by reflexivity.
    cbn [N.eqb Pos.eqb].
    change (skip_ws (32%N :: ?X)) with (skip_ws X).
    cbn [forallb] in Hpl. apply andb_true_iff in Hpl.
    destruct (dumps_head y (proj1 Hpl)) as (c & t & Hy & Hc).
    destruct (join_head (lit ", ") _ (map (dumps float_repr) l) c t Hy) as (t' & Hj).
    destruct (value_start_facts c Hc) as (Hws & _).
    assert (Hskip : forall R,
               skip_ws (join (lit ", ") (dumps float_repr y :: map (dumps float_repr) l) ++ R)
               = join (lit ", ") (dumps float_repr y :: map (dumps float_repr) l) ++ R).
    { intros R. rewrite Hj. cbn [app]. apply skip_ws_head, Hws. }
    rewrite Hskip.
    rewrite (IH ltac:(discriminate) Hl ltac:(cbn [forallb]; apply andb_true_iff; exact Hpl)).
    + rewrite <- app_assoc. reflexivity.
    + cbn [map] in Hfuel. rewrite join_cons2, !length_app in Hfuel.
      change (List.length (lit ", ")) with 2%nat in Hfuel. cbn [map]. lia.
Qed.

Lemma str_eqb_sym (a b : str) : str_eqb a b = str_eqb b a.
Proof.
  destruct (str_eqb a b) eqn:E1, (str_eqb b a) eqn:E2; try reflexivity.
  - apply str_eqb_eq in E1. subst. rewrite str_eqb_refl in E2. discriminate.
  - apply str_eqb_eq in E2. subst. rewrite str_eqb_refl in E1. discriminate.
Qed.

Lemma dumps_entry_head (kv : str * json) (l : list str) (R : str) :
  exists t,
    join (lit ", ") (dumps_entry float_repr kv :: l) ++ R = 34%N :: t.
Proof.
  destruct (join_head (lit ", ") (dumps_entry float_repr kv) l 34%N
              (flat_map escape_char (fst kv) ++ [34%N]
               ++ lit ": " ++ dumps float_repr (snd kv))) as (t & ->).
  - unfold dumps_entry, encode_basestring_ascii. cbn [app].
    rewrite <- app_assoc. reflexivity.
  - cbn [app]. eauto.
Qed.

(** The entries of a dict, from the first key to the closing brace. *)
Lemma object_loop_entries (d : dict) :
  d <> [] ->
  Forall (fun kv => plain (snd kv) = true
                    -> reads_back float_repr float_of_literal (snd kv)) d ->
  forallb (fun kv => text_ok (fst kv) && plain (snd kv)) d = true ->
  distinct (map fst d) = true ->
  forall (fuel : nat) (acc : dict) (rest : str),
    (forall k, In k (map fst d) -> dict_get k acc = None) ->
    (S (List.length (join (lit ", ") (map (dumps_entry float_repr) d))) <= fuel)%nat ->
    object_loop float_of_literal fuel
      (join (lit ", ") (map (dumps_entry float_repr) d) ++ 125%N :: rest) acc
    = Ok (JDict (acc ++ d), rest).
Proof.
  induction d as [|[k x] d IH]; intros Hne Hall Hplain Hdist fuel acc rest Hacc Hfuel;
    [contradiction|].
  inversion Hall as [|? ? Hx Hd]; subst. cbn [snd] in Hx.
  cbn [forallb fst snd] in Hplain. apply andb_true_iff in Hplain.
  destruct Hplain as [Hkx Hpd]. apply andb_true_iff in Hkx. destruct Hkx as [Hk Hpx].
  specialize (Hx Hpx).
  cbn [map fst distinct] in Hdist. apply andb_true_iff in Hdist.
  destruct Hdist as [Hfresh Hdist]. apply negb_true_iff in Hfresh.
  destruct fuel as [|fuel]; [lia|].
  pose proof (length_join_head (lit ", ") (dumps_entry float_repr (k, x))
                (map (dumps_entry float_repr) d)) as Hlen.
  assert (Hentry : (List.length (dumps float_repr x)
                    <= List.length (dumps_entry float_repr (k, x)))%nat).
  { unfold dumps_entry. rewrite !length_app. cbn [snd]. lia. }
  assert (Hset : dict_set k x acc = acc ++ [(k, x)]).
  { apply dict_set_fresh, Hacc. left. reflexivity. }
  destruct (dumps_head x Hpx) as (c & t & Hxc & Hc).
  destruct (value_start_facts c Hc) as (Hws & _).
  cbn [map] in Hfuel, Hlen |- *. cbn [object_loop].
  destruct d as [|[k' y] d].
  - cbn [map join]. unfold dumps_entry at 1, encode_basestring_ascii. cbn [fst snd app].
    rewrite <- !app_assoc. cbn [app].
    change (lit ": " ++ ?X) with (58%N :: 32%N :: X).
    cbn [N.eqb Pos.eqb].
    rewrite (scanstring_escaped k _ Hk). cbn [obind fst snd].
    rewrite skip_ws_head by reflexivity. cbn [N.eqb Pos.eqb].
    change (skip_ws (32%N :: ?X)) with (skip_ws X).
    rewrite Hxc at 1. cbn [app]. rewrite (skip_ws_head c _ Hws).
    change (c :: t ++ 125%N :: rest) with ((c :: t) ++ 125%N :: rest).
    rewrite <- Hxc.
    rewrite (Hx fuel) by (cbn [map join] in Hfuel; first [lia | reflexivity]).
    cbn [obind fst snd]. rewrite skip_ws_head by reflexivity.
    rewrite N.eqb_refl, Hset. reflexivity.
  - cbn [map]. rewrite join_cons2.
    unfold dumps_entry at 1, encode_basestring_ascii. cbn [fst snd app].
    rewrite <- !app_assoc. cbn [app].
    change (lit ": " ++ ?X) with (58%N :: 32%N :: X).
    change (lit ", " ++ ?X) with (44%N :: 32%N :: X).
    cbn [N.eqb Pos.eqb].
    rewrite (scanstring_escaped k _ Hk). cbn [obind fst snd].
    rewrite skip_ws_head by reflexivity. cbn [N.eqb Pos.eqb].
    change (skip_ws (32%N :: ?X)) with (skip_ws X).
    rewrite Hxc at 1. cbn [app]. rewrite (skip_ws_head c _ Hws).
    match goal with
    | |- context [scan_once _ _ (c :: t ++ ?R)] =>
        change (c :: t ++ R) with ((c :: t) ++ R)
    end.
    rewrite <- Hxc.
    rewrite (Hx fuel) by first [lia | reflexivity].
    cbn [obind fst snd]. rewrite skip_ws_head by reflexivity.
    cbn [N.eqb Pos.eqb].
    change (skip_ws (32%N :: ?X)) with (skip_ws X).
    destruct (dumps_entry_head (k', y) (map (dumps_entry float_repr) d) (125%N :: rest))
      as (t' & Hj).
    rewrite Hj, (skip_ws_head 34 t') by reflexivity. rewrite <- Hj, Hset.
    rewrite (IH ltac:(discriminate) Hd Hpd Hdist).
    + rewrite <- app_assoc. reflexivity.
    + intros k0 Hin. rewrite dict_get_app, (Hacc k0) by (right; exact Hin).
      cbn [dict_get].
      assert (Hk0 : str_eqb k k0 = false).
      { destruct (str_eqb k k0) eqn:E; [|reflexivity].
        rewrite <- Hfresh. symmetry. apply existsb_exists. eauto. }
      rewrite str_eqb_sym, Hk0. reflexivity.
    + cbn [map] in Hfuel. rewrite join_cons2, !length_app in Hfuel.
      change (List.length (lit ", ")) with 2%nat in Hfuel. cbn [map]. lia.
Qed.

(** What [scan_once] reads back from a printed value is the value. *)
Lemma scan_once_dumps (v : json) :
  plain v = true -> reads_back float_repr float_of_literal v.
Proof.
  induction v as [|b|n|f|s|l IH|d IH] using json_induction;
    intros Hplain fuel rest Hfuel Hrest.
  - destruct fuel as [|fuel]; [cbn in Hfuel; lia | reflexivity].
  - destruct b; (destruct fuel as [|fuel]; [cbn in Hfuel; lia | reflexivity]).
  - destruct fuel as [|fuel].
    + cbn [dumps] in Hfuel. destruct (int_repr_head n) as (c & t & E & _).
      rewrite E in Hfuel. cbn in Hfuel. lia.
    + apply scan_once_int, Hrest.
  - discriminate.
  - destruct fuel as [|fuel]; [cbn in Hfuel; lia|].
    cbn [dumps plain] in Hplain |- *. unfold encode_basestring_ascii.
    cbn [app]. rewrite <- app_assoc. cbn [app scan_once]. cbn [N.eqb Pos.eqb].
    rewrite (scanstring_escaped s rest Hplain). reflexivity.
  - destruct fuel as [|fuel]; [cbn in Hfuel; lia|].
    cbn [dumps plain] in Hplain, Hfuel |- *.
    cbn [app]. rewrite <- app_assoc. cbn [app scan_once]. cbn [N.eqb Pos.eqb].
    destruct l as [|x l]; [reflexivity|].
    cbn [forallb] in Hplain. pose proof Hplain as Hpl.
    apply andb_true_iff in Hpl. destruct Hpl as [Hpx _].
    destruct (dumps_head x Hpx) as (c & t & Hxc & Hc).
    destruct (value_start_facts c Hc) as (Hws & H93 & _).
    cbn [map].
    destruct (join_head (lit ", ") _ (map (dumps float_repr) l) c t Hxc) as (t' & Hj).
    assert (Hskip :
              skip_ws (join (lit ", ") (dumps float_repr x :: map (dumps float_repr) l)
                       ++ 93%N :: rest)
              = c :: t' ++ 93%N :: rest).
    { rewrite Hj. cbn [app]. apply skip_ws_head, Hws. }
    rewrite Hskip, H93.
    change (c :: t' ++ 93%N :: rest) with ((c :: t') ++ 93%N :: rest).
    rewrite <- Hj.
    apply (array_loop_elements (x :: l) ltac:(discriminate) IH Hplain fuel [] rest).
    cbn [List.length map] in Hfuel |- *. rewrite length_app in Hfuel.
    cbn [List.length] in Hfuel. lia.
  - destruct fuel as [|fuel]; [cbn in Hfuel; lia|].
    cbn [dumps plain] in Hplain, Hfuel |- *.
    apply andb_true_iff in Hplain. destruct Hplain as [Hplain Hdist].
    change (map (fun kv => encode_basestring_ascii (fst kv) ++ lit ": "
                           ++ dumps float_repr (snd kv)) d)
      with (map (dumps_entry float_repr) d) in Hfuel |- *.
    cbn [app]. rewrite <- app_assoc. cbn [app scan_once]. cbn [N.eqb Pos.eqb].
    destruct d as [|kv d]; [reflexivity|].
    cbn [map].
    destruct (dumps_entry_head kv (map (dumps_entry float_repr) d) (125%N :: rest))
      as (t' & Hj).
    rewrite Hj, (skip_ws_head 34 t') by reflexivity. cbn [N.eqb Pos.eqb].
    rewrite <- Hj.
    apply (object_loop_entries (kv :: d) ltac:(discriminate) IH Hplain Hdist fuel [] rest).
    + reflexivity.
    + cbn [List.length map] in Hfuel |- *. rewrite length_app in Hfuel.
      cbn [List.length] in Hfuel. lia.
Qed.

(** [json.loads] gives back a plain value that [json.dumps] printed,
    whatever white space follows the text. *)
Lemma loads_dumps (v : json) (ws : str) :
  plain v = true ->
  forallb is_ws ws = true ->
  loads float_of_literal (dumps float_repr v ++ ws) = Ok v.
Proof.
  intros Hplain Hws. unfold loads.
  destruct (dumps_head v Hplain) as (c & t & Hv & Hc).
  destruct (value_start_facts c Hc) as (Hnws & _ & _ & Hbom).
  assert (Hstart : startswith (dumps float_repr v ++ ws) [65279%N] = false).
  { rewrite Hv. cbn [app]. apply startswith_head, Hbom. }
  assert (Hskip : skip_ws (dumps float_repr v ++ ws) = dumps float_repr v ++ ws).
  { rewrite Hv. cbn [app]. apply skip_ws_head, Hnws. }
  rewrite Hstart, Hskip.
  rewrite (scan_once_dumps v Hplain).
  - cbn [obind fst snd]. rewrite (skip_ws_all ws Hws). reflexivity.
  - rewrite length_app. lia.
  - destruct ws as [|w ws]; [reflexivity|].
    cbn [forallb] in Hws. apply andb_true_iff in Hws. destruct Hws as [Hw _].
    unfold closes. rewrite Hw. apply orb_true_r.
Qed.

End Codec_facts.

(** ** The chunk encoder *)

Lemma plain_chunk_body (id : json) (created : Z) (model content : json) :
  plain id = true -> plain model = true -> plain content = true ->
  plain (chunk_body id created model content) = true.
Proof.
  intros Hid Hmodel Hcontent. unfold chunk_body.
  cbn [plain forallb fst snd map]. rewrite Hid, Hmodel, Hcontent.
  vm_compute. reflexivity.
Qed.



(** ** The buffered path *)

(** C8, on the code: for a request that does not ask for a stream, [pipe]
    returns the coroutine of [_handle_normal_request] without awaiting it,
    so the error of an upstream that cannot be reached, or that answers with
    an error status, is raised where the coroutine is awaited, outside the
    [try] of [pipe]; the text of the [except] branch is never returned. *)
Theorem pipe_transport_error_escapes
  (json_loads : str -> outcome json) (json_dumps py_str : json -> str)
  (exn_str : exn -> str) (clock : nat -> Z) (self : Pipe) :
  pipe json_loads json_dumps py_str exn_str clock unreachable self buffered_request
  = Ok (Coroutine (Raise TransportError))
  /\ pipe json_loads json_dumps py_str exn_str clock server_error self buffered_request
     = Ok (Coroutine (Raise HTTPStatusError))
  /\ (forall transport body text,
        pipe json_loads json_dumps py_str exn_str clock transport self body
        <> Ok (Text text)).
Proof.
  split; [|split].
  - rewrite (pipe_returns_coroutine _ _ _ _ _ _ _ buffered_request _ eq_refl eq_refl).
    rewrite (_handle_normal_request_transport_error _ _ _ _ _ TransportError eq_refl).
    reflexivity.
  - rewrite (pipe_returns_coroutine _ _ _ _ _ _ _ buffered_request _ eq_refl eq_refl).
    rewrite (_handle_normal_request_status_error _ _ _ _ _
               (Response 500 [] (Raise JSONDecodeError)) HTTPStatusError eq_refl eq_refl).
    reflexivity.
  - intros transport body text. apply pipe_never_text.
Qed.

(** ** The chunks, read by the loop itself *)

(** X19: a chunk that the generator yields is a line that its own loop
    reads as an event with content and nothing else.  When the id, the
    model and the content are plain and the content is true for Python, an
    iteration on the chunk yields one content chunk with the same id and
    content (and the model of the request at hand), after the closing marker
    when the reasoning was open, and no opening marker or terminal marker. *)
Theorem own_chunk_is_read_as_content
  (float_repr : float -> str) (float_of_literal : str -> float) (clock : nat -> Z)
  (body : dict) (st : Z) (id : json) (created : Z) (model content : json) (k : nat) :
  plain id = true -> plain model = true -> plain content = true ->
  truthy content = true ->
  let model' := dict_get_default (lit "model") JNull body in
  iteration (loads float_of_literal) (dumps float_repr) clock body st
    (chunk_line (dumps float_repr) id created model content) k
  = if (st =? 0)%Z then
      Run [ Emit CloseMarker
              (chunk_line (dumps float_repr) id (clock k) model' (JStr think_close));
            Emit Content
              (chunk_line (dumps float_repr) id (clock (S k)) model' content) ]
          (S (S k)) (Ok (Continue 1))
    else
      Run [ Emit Content (chunk_line (dumps float_repr) id (clock k) model' content) ]
          (S k) (Ok (Continue st)).
Proof.
  intros Hid Hmodel Hcontent Htrue model'. unfold iteration.
  assert (Hstart : startswith (chunk_line (dumps float_repr) id created model content)
                     (lit "data: ") = true)
    by (unfold chunk_line; apply startswith_app).
  assert (Hskip : skipn 6 (chunk_line (dumps float_repr) id created model content)
                  = dumps float_repr (chunk_body id created model content) ++ [LF; LF])
    by (unfold chunk_line; apply (skipn_length_app (lit "data: "))).
  rewrite Hstart, Hskip. cbn [negb].
  rewrite (loads_dumps float_repr float_of_literal _ [LF; LF]
             (plain_chunk_body id created model content Hid Hmodel Hcontent) eq_refl).
  rewrite gbind_lift_ok.
  pose proof (on_event_eq (dumps float_repr) clock body st
                [ (lit "id", id);
                  (lit "object", JStr (lit "chat.completion.chunk"));
                  (lit "created", JInt created);
                  (lit "model", model);
                  (lit "choices",
                    JList
                      [ JDict
                          [ (lit "index", JInt 0);
                            (lit "delta",
                              JDict [ (lit "content", content);
                                      (lit "role", JStr (lit "assistant")) ]);
                            (lit "finish_reason", JNull) ] ]) ]
                [ (lit "index", JInt 0);
                  (lit "delta",
                    JDict [ (lit "content", content);
                            (lit "role", JStr (lit "assistant")) ]);
                  (lit "finish_reason", JNull) ]
                [ (lit "content", content); (lit "role", JStr (lit "assistant")) ]
                k eq_refl eq_refl) as Heq.
  cbv zeta in Heq.
  change (dict_get_default (lit "id") JNull _) with id in Heq.
  change (dict_get_default (lit "reasoning") JNull _) with JNull in Heq.
  change (dict_get_default (lit "content") JNull _) with content in Heq.
  change (dict_get_default (lit "content") (JStr []) _) with content in Heq.
  change (dict_get_default (lit "finish_reason") JNull _) with JNull in Heq.
  fold model' in Heq.
  cbn [truthy negb andb orb] in Heq. rewrite Htrue in Heq.
  unfold chunk_body. rewrite Heq.
  destruct (st =? -1)%Z, (st =? 0)%Z; reflexivity.
Qed.

(** ** The properties at concrete inputs *)

Lemma scenario_A_events : events sample_loads scenario_A_lines = map Ok scenario_A.
Proof. vm_compute. reflexivity. Qed.

(** Scenario A, run on the lines of a response: the six lines, as text. *)
Lemma scenario_A_output_witness :
  answers scenario_A_lines
    (Request (chat_completions __init__) (headers __init__) upstream_request true)
  = Ok (Response 200 scenario_A_lines (Raise JSONDecodeError))
  /\ map wire
       (yielded
          (_handle_streaming_request sample_loads sample_dumps sample_clock
             (answers scenario_A_lines) __init__ upstream_request (headers __init__) 0))
     = [ dq "data: {'id': null, 'object': 'chat.completion.chunk', 'created': 1738195200, "
         ++ dq "'model': 'anthropic/claude-3.7-sonnet', 'choices': [{'index': 0, "
         ++ dq "'delta': {'content': '<think>', 'role': 'assistant'}, 'finish_reason': null}]}"
         ++ [LF; LF];
         dq "data: {'id': null, 'object': 'chat.completion.chunk', 'created': 1738195201, "
         ++ dq "'model': 'anthropic/claude-3.7-sonnet', 'choices': [{'index': 0, "
         ++ dq "'delta': {'content': 'Let me think', 'role': 'assistant'}, 'finish_reason': null}]}"
         ++ [LF; LF];
         dq "data: {'id': null, 'object': 'chat.completion.chunk', 'created': 1738195202, "
         ++ dq "'model': 'anthropic/claude-3.7-sonnet', 'choices': [{'index': 0, "
         ++ dq "'delta': {'content': ' more', 'role': 'assistant'}, 'finish_reason': null}]}"
         ++ [LF; LF];
         dq "data: {'id': null, 'object': 'chat.completion.chunk', 'created': 1738195203, "
         ++ dq "'model': 'anthropic/claude-3.7-sonnet', 'choices': [{'index': 0, "
         ++ dq "'delta': {'content': '</think>\n\n', 'role': 'assistant'}, 'finish_reason': null}]}"
         ++ [LF; LF];
         dq "data: {'id': null, 'object': 'chat.completion.chunk', 'created': 1738195204, "
         ++ dq "'model': 'anthropic/claude-3.7-sonnet', 'choices': [{'index': 0, "
         ++ dq "'delta': {'content': '42', 'role': 'assistant'}, 'finish_reason': null}]}"
         ++ [LF; LF];
         dq "data: [DONE]" ++ [LF; LF] ].
Proof.
  split; [reflexivity|].
  destruct (scenario_A_output sample_loads sample_dumps sample_clock
              (answers scenario_A_lines) __init__ upstream_request (headers __init__)
              (Response 200 scenario_A_lines (Raise JSONDecodeError)) 0
              eq_refl eq_refl scenario_A_events) as [H _].
  rewrite H. vm_compute. reflexivity.
Defined.

Lemma scenario_B_free :
  forallb reasoning_free (events sample_loads scenario_B_lines) = true.
Proof. vm_compute. reflexivity. Qed.

(** Scenario B: content only, no marker. *)
Lemma no_reasoning_no_markers_witness :
  forallb reasoning_free (events sample_loads scenario_B_lines) = true
  /\ filter is_marker
       (yielded
          (_handle_streaming_request sample_loads sample_dumps sample_clock
             (answers scenario_B_lines) __init__ upstream_request (headers __init__) 0))
     = [].
Proof.
  split; [exact scenario_B_free|].
  apply (no_reasoning_no_markers sample_loads sample_dumps sample_clock
           (answers scenario_B_lines) __init__ upstream_request (headers __init__) 0).
  intros resp [= <-]. exact scenario_B_free.
Defined.

(** Reasoning that comes again after the answer has started. *)
Lemma answered_is_final_witness :
  result
    (stream_loop sample_loads sample_dumps sample_clock upstream_request (-1)
       [ sse_line (delta_event (lit "reasoning") (lit "Let me think"));
         sse_line (delta_event (lit "content") (lit "42")) ] 0)
  = Ok (Exhausted 1)
  /\ exists rest,
      yielded
        (stream_loop sample_loads sample_dumps sample_clock upstream_request (-1)
           ([ sse_line (delta_event (lit "reasoning") (lit "Let me think"));
              sse_line (delta_event (lit "content") (lit "42")) ]
            ++ [ sse_line (delta_event (lit "reasoning") (lit "again")) ]) 0)
      = yielded
          (stream_loop sample_loads sample_dumps sample_clock upstream_request (-1)
             [ sse_line (delta_event (lit "reasoning") (lit "Let me think"));
               sse_line (delta_event (lit "content") (lit "42")) ] 0)
        ++ rest
      /\ filter is_marker rest = [].
Proof.
  assert (H : result
                (stream_loop sample_loads sample_dumps sample_clock upstream_request (-1)
                   [ sse_line (delta_event (lit "reasoning") (lit "Let me think"));
                     sse_line (delta_event (lit "content") (lit "42")) ] 0)
              = Ok (Exhausted 1)) by (vm_compute; reflexivity).
  split; [exact H|].
  destruct (answered_is_final sample_loads sample_dumps sample_clock upstream_request)
    as (_ & _ & Hfinal & _).
  exact (Hfinal _ _ 0%nat H).
Defined.

(** The terminal marker of scenario A. *)
Lemma terminal_marker_once_witness :
  In (Emit Sentinel (lit "data: [DONE]" ++ [LF; LF]))
    (yielded
       (stream_loop sample_loads sample_dumps sample_clock upstream_request (-1)
          scenario_A_lines 0))
  /\ is_sentinel (Emit Sentinel (lit "data: [DONE]" ++ [LF; LF])) = true
  /\ exists post,
      result
        (stream_loop sample_loads sample_dumps sample_clock upstream_request (-1)
           scenario_A_lines 0)
      = Ok (Returned post).
Proof.
  assert (H : In (Emit Sentinel (lit "data: [DONE]" ++ [LF; LF]))
                (yielded
                   (stream_loop sample_loads sample_dumps sample_clock upstream_request
                      (-1) scenario_A_lines 0))).
  { vm_compute. do 5 right. left. reflexivity. }
  split; [exact H|]. split; [reflexivity|].
  destruct (terminal_marker_once sample_loads sample_dumps sample_clock upstream_request
              (-1) scenario_A_lines 0) as [_ Hlast].
  destruct (Hlast _ H eq_refl)
    as (pre & line & post & data & finish & ys & _ & _ & _ & _ & _ & _ & _ & _ & _ & Hres & _).
  exists post. exact Hres.
Defined.

(** The identifier that the host sends is the one that [pipes] lists, after
    the identifier of the function. *)
Lemma routed_model_listed :
  routed_model
  = lit "openrouter_reasoning_tokens." ++ lit "reasoning/anthropic/claude-3.7-sonnet"
  /\ nth 3 pipes []
     = [ (lit "id", JStr (lit "reasoning/anthropic/claude-3.7-sonnet"));
         (lit "name", JStr (lit "reasoning/anthropic/claude-3.7-sonnet")) ].
Proof. split; reflexivity. Qed.

(** C6 as stated fails: a malformed data line that comes after the event
    with the finish reason is never read; the generator returns and does
    not raise. *)
Lemma malformed_line_after_finish :
  is_data_line malformed_line = true
  /\ sample_loads (skipn 6 malformed_line) = Raise JSONDecodeError
  /\ stream_loop sample_loads sample_dumps sample_clock upstream_request (-1)
       [ sse_line (finish_event (lit "stop")); malformed_line ] 0
     = Run [Emit Sentinel (lit "data: [DONE]" ++ [LF; LF])] 0
           (Ok (Returned [malformed_line]))
  /\ result
       (stream_loop sample_loads sample_dumps sample_clock upstream_request (-1)
          [ sse_line (finish_event (lit "stop")); malformed_line ] 0)
     <> Raise JSONDecodeError.
Proof.
  split; [reflexivity|]. split; [vm_compute; reflexivity|].
  split; [vm_compute; reflexivity|].
  vm_compute. discriminate.
Qed.

(** A malformed line in the middle of the reasoning. *)
Lemma malformed_line_is_fatal_witness :
  result
    (stream_loop sample_loads sample_dumps sample_clock upstream_request (-1)
       [ sse_line (delta_event (lit "reasoning") (lit "Let me think")) ] 0)
  = Ok (Exhausted 0)
  /\ is_data_line malformed_line = true
  /\ sample_loads (skipn 6 malformed_line) = Raise JSONDecodeError
  /\ stream_loop sample_loads sample_dumps sample_clock upstream_request (-1)
       ([ sse_line (delta_event (lit "reasoning") (lit "Let me think")) ]
        ++ malformed_line :: [ sse_line (delta_event (lit "content") (lit "42")) ]) 0
     = Run (yielded
              (stream_loop sample_loads sample_dumps sample_clock upstream_request (-1)
                 [ sse_line (delta_event (lit "reasoning") (lit "Let me think")) ] 0))
           2
           (Raise JSONDecodeError).
Proof.
  assert (H1 : result
                 (stream_loop sample_loads sample_dumps sample_clock upstream_request (-1)
                    [ sse_line (delta_event (lit "reasoning") (lit "Let me think")) ] 0)
               = Ok (Exhausted 0)) by (vm_compute; reflexivity).
  assert (H3 : sample_loads (skipn 6 malformed_line) = Raise JSONDecodeError)
    by (vm_compute; reflexivity).
  split; [exact H1|]. split; [reflexivity|]. split; [exact H3|].
  rewrite (malformed_line_is_fatal sample_loads sample_dumps sample_clock upstream_request
             (-1) 0 _ malformed_line _ 0 JSONDecodeError H1 eq_refl H3).
  reflexivity.
Defined.

(** An event with an id and nothing else, and an event whose first choice
    has a finish reason and no delta. *)
Lemma missing_fields_are_tolerated_witness :
  dict_get (lit "choices") [ (lit "id", JStr (lit "gen-1")) ] = None
  /\ on_event sample_dumps sample_clock upstream_request 0
       (JDict [ (lit "id", JStr (lit "gen-1")) ]) 3
     = Run [] 3 (Ok (Continue 0))
  /\ exists fl,
      result
        (on_event sample_dumps sample_clock upstream_request 0
           (finish_event (lit "stop")) 3)
      = Ok fl.
Proof.
  destruct (missing_fields_are_tolerated sample_dumps sample_clock upstream_request 0
              [ (lit "id", JStr (lit "gen-1")) ] 3) as (Hnone & _ & _).
  destruct (missing_fields_are_tolerated sample_dumps sample_clock upstream_request 0
              [ (lit "choices",
                  JList [ JDict [ (lit "finish_reason", JStr (lit "stop")) ] ]) ] 3)
    as (_ & _ & Hgiven).
  split; [reflexivity|]. split; [exact (Hnone eq_refl)|].
  exact (Hgiven _ [] eq_refl (or_introl eq_refl)).
Defined.

(** A list of choices that is there and empty is not a missing field: the
    body raises on [[0]]. *)
Lemma empty_choices_raise (k : nat) :
  on_event sample_dumps sample_clock upstream_request (-1)
    (JDict [ (lit "choices", JList []) ]) k
  = Run [] k (Raise IndexError).
Proof. reflexivity. Qed.

(** Reasoning and content in one delta, after the answer has started: the
    line that is yielded, as text. *)
Lemma late_reasoning_is_content_witness :
  is_data_line
    (sse_line
       (JDict [ (lit "choices",
                  JList [ JDict [ (lit "delta",
                                    JDict [ (lit "content", JStr (lit "42"));
                                            (lit "reasoning", JStr (lit "again")) ]) ] ]) ]))
  = true
  /\ iteration sample_loads sample_dumps sample_clock upstream_request 1
       (sse_line
          (JDict [ (lit "choices",
                     JList [ JDict [ (lit "delta",
                                       JDict [ (lit "content", JStr (lit "42"));
                                               (lit "reasoning", JStr (lit "again")) ]) ] ]) ]))
       5
     = Run [ Emit Content
               (dq "data: {'id': null, 'object': 'chat.completion.chunk', 'created': 1738195205, "
                ++ dq "'model': 'anthropic/claude-3.7-sonnet', 'choices': [{'index': 0, "
                ++ dq "'delta': {'content': 'again', 'role': 'assistant'}, 'finish_reason': null}]}"
                ++ [LF; LF]) ]
           6
           (Ok (Continue 1)).
Proof.
  split; [reflexivity|].
  destruct (late_reasoning_is_content sample_loads sample_dumps sample_clock
              upstream_request
              (sse_line
                 (JDict [ (lit "choices",
                            JList [ JDict [ (lit "delta",
                                              JDict [ (lit "content", JStr (lit "42"));
                                                      (lit "reasoning", JStr (lit "again")) ]) ] ]) ]))
              (JDict [ (lit "choices",
                         JList [ JDict [ (lit "delta",
                                           JDict [ (lit "content", JStr (lit "42"));
                                                   (lit "reasoning", JStr (lit "again")) ]) ] ]) ])
              (JStr (lit "again")) 5)
    as (id & finish & Hid & Hfinish & Hrun);
    [reflexivity | vm_compute; reflexivity | reflexivity | reflexivity |].
  injection Hid as <-. injection Hfinish as <-.
  rewrite Hrun. vm_compute. reflexivity.
Defined.



(** C2 as stated fails: the code cuts at the first [.] of the identifier,
    not at the last one. *)
Lemma model_identifier_cut_at_first_dot :
  modified_body streaming_request
  = Ok [ (lit "model", JStr (lit "anthropic/claude-3.7-sonnet"));
         (lit "messages", JList []);
         (lit "stream", JBool true);
         (lit "include_reasoning", JBool true) ]
  /\ spec_model_identifier routed_model = lit "7-sonnet"
  /\ modified_body streaming_request
     <> Ok (dict_set (lit "include_reasoning") (JBool true)
              (dict_set (lit "model") (JStr (spec_model_identifier routed_model))
                 streaming_request)).
Proof.
  split; [vm_compute; reflexivity|]. split; [vm_compute; reflexivity|].
  vm_compute. discriminate.
Qed.

(** The identifier of the host, normalized. *)
Lemma request_normalized_witness :
  dict_get (lit "model") streaming_request = Some (JStr routed_model)
  /\ after_first_dot routed_model (lit "reasoning/anthropic/claude-3.7-sonnet")
  /\ exists mb,
      modified_body streaming_request = Ok mb
      /\ dict_get (lit "model") mb = Some (JStr (lit "anthropic/claude-3.7-sonnet"))
      /\ dict_get (lit "include_reasoning") mb = Some (JBool true).
Proof.
  assert (Hdot : after_first_dot routed_model (lit "reasoning/anthropic/claude-3.7-sonnet")).
  { left. exists (lit "openrouter_reasoning_tokens"). split; [reflexivity|].
    intros Hin. vm_compute in Hin.
    repeat (destruct Hin as [Hin|Hin]; [discriminate|]). exact Hin. }
  split; [reflexivity|]. split; [exact Hdot|].
  destruct (request_normalized streaming_request) as [Hmodel _].
  destruct (Hmodel routed_model eq_refl) as (mb & Hmb & Hcut & Hflag & _).
  exists mb. split; [exact Hmb|]. split; [|exact Hflag].
  exact (proj1 (Hcut _ Hdot) (lit "anthropic/claude-3.7-sonnet") eq_refl).
Defined.

(** ** More properties at concrete inputs *)

(** An upstream that cannot be reached, and one that answers 500. *)
Lemma streaming_request_fails_fast_witness :
  _handle_streaming_request sample_loads sample_dumps sample_clock unreachable __init__
    upstream_request (headers __init__) 0
  = Run [] 0 (Raise TransportError)
  /\ _handle_streaming_request sample_loads sample_dumps sample_clock server_error __init__
       upstream_request (headers __init__) 0
     = Run [] 0 (Raise HTTPStatusError).
Proof.
  split.
  - exact (proj1 (streaming_request_fails_fast sample_loads sample_dumps sample_clock
                    unreachable __init__ upstream_request (headers __init__) 0)
             TransportError eq_refl).
  - apply (proj2 (streaming_request_fails_fast sample_loads sample_dumps sample_clock
                    server_error __init__ upstream_request (headers __init__) 0)
             (Response 500 [] (Raise JSONDecodeError)) eq_refl).
    right. cbn. lia.
Defined.

(** An event with an empty list of choices, in the middle of the
    reasoning. *)
Lemma failed_event_yields_nothing_witness :
  result (on_event sample_dumps sample_clock upstream_request 0 usage_event 4)
  = Raise IndexError
  /\ on_event sample_dumps sample_clock upstream_request 0 usage_event 4
     = Run [] 4 (Raise IndexError).
Proof.
  split; [reflexivity|].
  exact (proj1 (failed_event_yields_nothing sample_dumps sample_clock upstream_request 0
                  usage_event 4 IndexError eq_refl)).
Defined.

Lemma empty_choices_abort_the_stream_witness :
  result
    (stream_loop sample_loads sample_dumps sample_clock upstream_request (-1)
       [ sse_line (delta_event (lit "reasoning") (lit "Let me think")) ] 0)
  = Ok (Exhausted 0)
  /\ is_data_line (sse_line usage_event) = true
  /\ sample_loads (skipn 6 (sse_line usage_event)) = Ok usage_event
  /\ stream_loop sample_loads sample_dumps sample_clock upstream_request (-1)
       ([ sse_line (delta_event (lit "reasoning") (lit "Let me think")) ]
        ++ sse_line usage_event :: [ sse_line (delta_event (lit "content") (lit "42")) ]) 0
     = Run (yielded
              (stream_loop sample_loads sample_dumps sample_clock upstream_request (-1)
                 [ sse_line (delta_event (lit "reasoning") (lit "Let me think")) ] 0))
           2
           (Raise IndexError).
Proof.
  assert (H1 : result
                 (stream_loop sample_loads sample_dumps sample_clock upstream_request (-1)
                    [ sse_line (delta_event (lit "reasoning") (lit "Let me think")) ] 0)
               = Ok (Exhausted 0)) by (vm_compute; reflexivity).
  assert (H3 : sample_loads (skipn 6 (sse_line usage_event)) = Ok usage_event)
    by (vm_compute; reflexivity).
  split; [exact H1|]. split; [reflexivity|]. split; [exact H3|].
  rewrite (empty_choices_abort_the_stream sample_loads sample_dumps sample_clock
             upstream_request (-1) 0 _ (sse_line usage_event) _ 0
             [ (lit "choices", JList []) ] H1 eq_refl H3 eq_refl).
  reflexivity.
Defined.

(** Lines after the event with the finish reason. *)
Lemma output_only_grows_witness :
  result
    (stream_loop sample_loads sample_dumps sample_clock upstream_request (-1)
       [ sse_line (finish_event (lit "stop")) ] 0)
  = Ok (Returned [])
  /\ yielded
       (stream_loop sample_loads sample_dumps sample_clock upstream_request (-1)
          ([ sse_line (finish_event (lit "stop")) ]
           ++ [ sse_line (delta_event (lit "content") (lit "42")) ]) 0)
     = yielded
         (stream_loop sample_loads sample_dumps sample_clock upstream_request (-1)
            [ sse_line (finish_event (lit "stop")) ] 0)
  /\ ticks
       (stream_loop sample_loads sample_dumps sample_clock upstream_request (-1)
          ([ sse_line (finish_event (lit "stop")) ]
           ++ [ sse_line (delta_event (lit "content") (lit "42")) ]) 0)
     = ticks
         (stream_loop sample_loads sample_dumps sample_clock upstream_request (-1)
            [ sse_line (finish_event (lit "stop")) ] 0).
Proof.
  assert (H : result
                (stream_loop sample_loads sample_dumps sample_clock upstream_request (-1)
                   [ sse_line (finish_event (lit "stop")) ] 0)
              = Ok (Returned [])) by (vm_compute; reflexivity).
  split; [exact H|].
  apply (proj2 (output_only_grows sample_loads sample_dumps sample_clock upstream_request
                  [ sse_line (finish_event (lit "stop")) ]
                  [ sse_line (delta_event (lit "content") (lit "42")) ] (-1) 0)).
  intros st' Hst'. rewrite H in Hst'. discriminate.
Defined.

(** A stream that ends in the reasoning. *)
Lemma markers_follow_the_state_witness :
  result
    (stream_loop sample_loads sample_dumps sample_clock upstream_request (-1)
       [ sse_line (delta_event (lit "reasoning") (lit "Let me think")) ] 0)
  = Ok (Exhausted 0)
  /\ count_site OpenMarker
       (yielded
          (stream_loop sample_loads sample_dumps sample_clock upstream_request (-1)
             [ sse_line (delta_event (lit "reasoning") (lit "Let me think")) ] 0))
     = 1%nat
  /\ count_site CloseMarker
       (yielded
          (stream_loop sample_loads sample_dumps sample_clock upstream_request (-1)
             [ sse_line (delta_event (lit "reasoning") (lit "Let me think")) ] 0))
     = 0%nat.
Proof.
  assert (H : result
                (stream_loop sample_loads sample_dumps sample_clock upstream_request (-1)
                   [ sse_line (delta_event (lit "reasoning") (lit "Let me think")) ] 0)
              = Ok (Exhausted 0)) by (vm_compute; reflexivity).
  split; [exact H|].
  destruct (proj2 (markers_follow_the_state sample_loads sample_dumps sample_clock
                     upstream_request
                     [ sse_line (delta_event (lit "reasoning") (lit "Let me think")) ] 0)
              0%Z H)
    as [(Hst & _) | [(_ & Ho & Hc) | (Hst & _)]];
    [discriminate | split; assumption | discriminate].
Defined.

(** The one chunk of a stream with one answer, as text: it is a data line,
    and it is the chunk of the clock reading [0]. *)
Lemma every_line_is_a_data_line_witness :
  In (Emit Content
        (dq "data: {'id': null, 'object': 'chat.completion.chunk', 'created': 1738195200, "
         ++ dq "'model': 'anthropic/claude-3.7-sonnet', 'choices': [{'index': 0, "
         ++ dq "'delta': {'content': '42', 'role': 'assistant'}, 'finish_reason': null}]}"
         ++ [LF; LF]))
    (yielded
       (stream_loop sample_loads sample_dumps sample_clock upstream_request (-1)
          [ sse_line (delta_event (lit "content") (lit "42")) ] 0))
  /\ is_data_line
       (dq "data: {'id': null, 'object': 'chat.completion.chunk', 'created': 1738195200, "
        ++ dq "'model': 'anthropic/claude-3.7-sonnet', 'choices': [{'index': 0, "
        ++ dq "'delta': {'content': '42', 'role': 'assistant'}, 'finish_reason': null}]}"
        ++ [LF; LF])
     = true
  /\ exists id t content,
      (0 <= t < 1)%nat
      /\ dq "data: {'id': null, 'object': 'chat.completion.chunk', 'created': 1738195200, "
         ++ dq "'model': 'anthropic/claude-3.7-sonnet', 'choices': [{'index': 0, "
         ++ dq "'delta': {'content': '42', 'role': 'assistant'}, 'finish_reason': null}]}"
         ++ [LF; LF]
         = lit "data: "
           ++ sample_dumps
                (JDict
                   [ (lit "id", id);
                     (lit "object", JStr (lit "chat.completion.chunk"));
                     (lit "created", JInt (sample_clock t));
                     (lit "model", JStr (lit "anthropic/claude-3.7-sonnet"));
                     (lit "choices",
                       JList
                         [ JDict
                             [ (lit "index", JInt 0);
                               (lit "delta",
                                 JDict [ (lit "content", content);
                                         (lit "role", JStr (lit "assistant")) ]);
                               (lit "finish_reason", JNull) ] ]) ])
           ++ [LF; LF].
Proof.
  assert (H : In (Emit Content
                    (dq "data: {'id': null, 'object': 'chat.completion.chunk', 'created': 1738195200, "
                     ++ dq "'model': 'anthropic/claude-3.7-sonnet', 'choices': [{'index': 0, "
                     ++ dq "'delta': {'content': '42', 'role': 'assistant'}, 'finish_reason': null}]}"
                     ++ [LF; LF]))
                (yielded
                   (stream_loop sample_loads sample_dumps sample_clock upstream_request
                      (-1) [ sse_line (delta_event (lit "content") (lit "42")) ] 0))).
  { vm_compute. left. reflexivity. }
  split; [exact H|].
  destruct (every_line_is_a_data_line sample_loads sample_dumps sample_clock
              upstream_request _ (-1) 0 _ H)
    as [Hdata [[Hsite _] | (_ & id & t & content & Hrange & Hwire)]].
  - discriminate Hsite.
  - split; [exact Hdata|]. exists id, t, content. split; [exact Hrange | exact Hwire].
Defined.

(** Content and reasoning in one delta, while the reasoning is open: the
    one content line, as text. *)
Lemma reasoning_hides_content_witness :
  delta_get (lit "reasoning") mixed_event = Ok (JStr (lit "again"))
  /\ delta_get (lit "content") mixed_event = Ok (JStr (lit "42"))
  /\ filter (is_site Content)
       (yielded (on_event sample_dumps sample_clock upstream_request 0 mixed_event 5))
     = [ Emit Content
           (dq "data: {'id': null, 'object': 'chat.completion.chunk', 'created': 1738195205, "
            ++ dq "'model': 'anthropic/claude-3.7-sonnet', 'choices': [{'index': 0, "
            ++ dq "'delta': {'content': 'again', 'role': 'assistant'}, 'finish_reason': null}]}"
            ++ [LF; LF]) ]
  /\ count_site CloseMarker
       (yielded (on_event sample_dumps sample_clock upstream_request 0 mixed_event 5))
     = 0%nat.
Proof.
  split; [reflexivity|]. split; [reflexivity|].
  destruct (reasoning_hides_content sample_dumps sample_clock upstream_request 0
              mixed_event (JStr (lit "again")) 5 eq_refl eq_refl)
    as (id & Hid & Hcontent & Hclose).
  injection Hid as <-.
  split; [|exact Hclose].
  rewrite Hcontent. vm_compute. reflexivity.
Defined.

(** A first event whose content is the empty text. *)
Lemma keep_alive_is_a_no_op_witness :
  delta_get (lit "content") (delta_event (lit "content") []) = Ok (JStr [])
  /\ on_event sample_dumps sample_clock upstream_request 0
       (delta_event (lit "content") []) 3
     = Run [] 3 (Ok (Continue 0)).
Proof.
  split; [reflexivity|].
  exact (keep_alive_is_a_no_op sample_dumps sample_clock upstream_request 0
           (delta_event (lit "content") []) JNull (JStr []) JNull 3
           eq_refl eq_refl eq_refl eq_refl eq_refl eq_refl).
Defined.

(** Reasoning cut by the length limit: the reasoning is never closed. *)
Lemma no_answer_no_closing_marker_witness :
  forallb answer_free
    (events sample_loads
       [ sse_line (delta_event (lit "reasoning") (lit "Let me think"));
         sse_line (finish_event (lit "length")) ])
  = true
  /\ count_site CloseMarker
       (yielded
          (stream_loop sample_loads sample_dumps sample_clock upstream_request (-1)
             [ sse_line (delta_event (lit "reasoning") (lit "Let me think"));
               sse_line (finish_event (lit "length")) ] 0))
     = 0%nat.
Proof.
  assert (H : forallb answer_free
                (events sample_loads
                   [ sse_line (delta_event (lit "reasoning") (lit "Let me think"));
                     sse_line (finish_event (lit "length")) ])
              = true) by (vm_compute; reflexivity).
  split; [exact H|].
  exact (no_answer_no_closing_marker sample_loads sample_dumps sample_clock
           upstream_request _ (-1) 0 H).
Defined.

(** A choice with reasoning and an answer. *)
Lemma reasoning_is_wrapped_witness :
  exists c' m',
    reshape_choice sample_py_str (JDict (choice_of reasoned_message)) = Ok (JDict c')
    /\ dict_get (lit "message") c' = Some (JDict m')
    /\ dict_get (lit "content") m'
       = Some (JStr (lit "<think>Let me think</think>" ++ [LF] ++ lit "42"))
    /\ dict_get (lit "role") m' = Some (JStr (lit "assistant"))
    /\ dict_get (lit "index") c' = Some (JInt 0).
Proof.
  destruct (reasoning_is_wrapped sample_py_str (choice_of reasoned_message)
              reasoned_message (JStr (lit "Let me think")) (JStr (lit "42"))
              eq_refl eq_refl eq_refl)
    as (c' & m' & Hc' & Hm' & Hcontent & Hmessage & Hchoice).
  exists c', m'. split; [exact Hc'|]. split; [exact Hm'|]. split; [exact Hcontent|].
  split.
  - rewrite (Hmessage (lit "role") eq_refl). reflexivity.
  - rewrite (Hchoice (lit "index") eq_refl). reflexivity.
Defined.

(** A buffered response without reasoning. *)
Lemma response_without_reasoning_is_unchanged_witness :
  _handle_normal_request sample_py_str (replies (JDict (completion_of plain_message)))
    __init__ upstream_request (headers __init__)
  = Ok (JDict (completion_of plain_message)).
Proof.
  apply (response_without_reasoning_is_unchanged sample_py_str
           (replies (JDict (completion_of plain_message))) __init__ upstream_request
           (headers __init__)
           (Response 200 [] (Ok (JDict (completion_of plain_message))))
           (completion_of plain_message) eq_refl eq_refl eq_refl).
  right. exists [ JDict (choice_of plain_message) ]. split; [reflexivity|].
  constructor; [|constructor].
  exists (choice_of plain_message). split; [reflexivity|].
  right. exists plain_message. split; reflexivity.
Defined.

(** A buffered response whose message has reasoning and no content key. *)
Lemma reasoning_without_content_raises_witness :
  _handle_normal_request sample_py_str
    (replies (JDict (completion_of contentless_message)))
    __init__ upstream_request (headers __init__)
  = Raise KeyError.
Proof.
  exact (reasoning_without_content_raises sample_py_str
           (replies (JDict (completion_of contentless_message))) __init__
           upstream_request (headers __init__)
           (Response 200 [] (Ok (JDict (completion_of contentless_message))))
           (completion_of contentless_message) (choice_of contentless_message)
           contentless_message (JStr (lit "Let me think")) []
           eq_refl eq_refl eq_refl eq_refl eq_refl eq_refl eq_refl).
Defined.

(** A model that is a number, and the request of the host. *)
Lemma pipe_dispatch_witness :
  pipe sample_loads sample_dumps sample_py_str sample_exn_str sample_clock
    (answers scenario_A_lines) __init__ [ (lit "model", JInt 7) ]
  = Raise AttributeError
  /\ exists mb,
      modified_body streaming_request = Ok mb
      /\ pipe sample_loads sample_dumps sample_py_str sample_exn_str sample_clock
           (answers scenario_A_lines) __init__ streaming_request
         = Ok (AsyncGenerator
                 (_handle_streaming_request sample_loads sample_dumps sample_clock
                    (answers scenario_A_lines) __init__ mb (headers __init__))).
Proof.
  split.
  - apply (proj1 (pipe_dispatch sample_loads sample_dumps sample_py_str sample_exn_str
                    sample_clock (answers scenario_A_lines) __init__
                    [ (lit "model", JInt 7) ])
             (JInt 7) eq_refl).
    discriminate.
  - exact (proj2 (pipe_dispatch sample_loads sample_dumps sample_py_str sample_exn_str
                    sample_clock (answers scenario_A_lines) __init__ streaming_request)
             (or_intror (ex_intro _ routed_model eq_refl))).
Defined.

(** The last model of the list, as the host routes it. *)
Lemma listed_models_round_trip_witness :
  exists mb m,
    modified_body streaming_request = Ok mb
    /\ dict_get (lit "model") mb = Some (JStr m)
    /\ lit "reasoning/anthropic/claude-3.7-sonnet" = lit "reasoning/" ++ m
    /\ dict_get (lit "name") (nth 3 pipes [])
       = Some (JStr (lit "reasoning/anthropic/claude-3.7-sonnet")).
Proof.
  apply (listed_models_round_trip (nth 3 pipes []) streaming_request
           (lit "openrouter_reasoning_tokens")
           (lit "reasoning/anthropic/claude-3.7-sonnet")).
  - do 3 right. left. reflexivity.
  - reflexivity.
  - intros Hin. vm_compute in Hin.
    repeat (destruct Hin as [Hin|Hin]; [discriminate|]). exact Hin.
  - reflexivity.
Defined.

(** The keys of the request of the host, before and after. *)
Lemma request_keys_keep_their_order_witness :
  modified_body streaming_request = Ok upstream_request
  /\ map fst upstream_request
     = map fst streaming_request ++ [ lit "include_reasoning" ].
Proof.
  assert (H : modified_body streaming_request = Ok upstream_request)
    by (vm_compute; reflexivity).
  split; [exact H|].
  exact (request_keys_keep_their_order streaming_request upstream_request H).
Defined.

(** A chunk of an answer, read while the reasoning is open and after. *)
Lemma own_chunk_is_read_as_content_witness :
  iteration sample_loads sample_dumps sample_clock upstream_request 1
    (chunk_line sample_dumps (JStr (lit "gen-1")) 1738195200
       (JStr (lit "deepseek/deepseek-r1")) (JStr (lit "42"))) 3
  = Run [ Emit Content
            (chunk_line sample_dumps (JStr (lit "gen-1")) (sample_clock 3)
               (JStr (lit "anthropic/claude-3.7-sonnet")) (JStr (lit "42"))) ]
        4 (Ok (Continue 1)).
Proof.
  exact (own_chunk_is_read_as_content sample_float_repr sample_float_of_literal
           sample_clock upstream_request 1 (JStr (lit "gen-1")) 1738195200
           (JStr (lit "deepseek/deepseek-r1")) (JStr (lit "42")) 3
           eq_refl eq_refl eq_refl eq_refl).
Defined.
